(** * delivery-process-tutorials: the sample sources and the capture pipeline

    The repository holds two kinds of executable text:

    - the TypeScript sample sources the tutorial writes
      ([sample-sources/event-store.ts], [sample-sources/user-service.ts]), and
    - the shell pipeline [scripts/generate-article-outputs.sh] together with
      the notebook cell [reset-workspace] it runs first.

    Further on come the third sample source ([sample-sources/auth-handler.ts]),
    the cells of Part 1 of the notebook, and the recording script
    [vhs/record-all.sh].

    Both are embedded shallowly.

    JavaScript objects and arrays are references into a heap, so that
    sharing between a store and its callers is visible.

    The shell script is a program in a small state-and-exit monad: a command
    list either runs to its end or, under [set -e], stops at the first
    failing command with that command's status.  Its state is a file
    system, a finite map from paths below the project directory to regular
    files and directories, together with what the script wrote to its
    standard output; what it and its commands write to standard error is
    not recorded.  Commands
    fail where the state of this map makes them fail: a source that is not
    there, a missing parent directory, a directory or file in the way.
    Permissions, symbolic links, full disks and signals are not modelled,
    and [sort] compares bytes, as it does in the C locale.  The programs the
    script starts ([runme], [date], [node], [npm], [uname]) are parameters:
    functions from the state of the machine to their output and status.
    The output of a cell goes to a file the shell has opened before the cell
    starts; whether the cell leaves that file alone is a parameter as well. *)

From Stdlib Require Import Ascii.
From stdpp Require Import gmap strings list fin_maps sorting pretty.

Open Scope Z_scope.

(** ** src/sample-sources/event-store.ts *)

Module EventStore.

(** A JavaScript reference: arrays and event objects live in the heap. *)
Definition ref := nat.

Section Store.
Context {Payload : Type}.

(** [interface DomainEvent { type; payload; timestamp }] *)
Record DomainEvent := mkEvent {
  type : string;
  payload : Payload;
  timestamp : Z
}.

(** The heap: event objects, and arrays of references to them. *)
Record Heap := mkHeap {
  objs : gmap ref DomainEvent;
  arrs : gmap ref (list ref)
}.

(** [class EventStore { private events: DomainEvent[] }]: the field holds
    a reference to one array, which [push] updates in place. *)
Record Store := mkStore { events : ref }.

Definition empty_heap : Heap := mkHeap ∅ ∅.

(** The elements of array [a]. *)
Definition elems (h : Heap) (a : ref) : list ref := default [] (arrs h !! a).

(** The event objects array [a] points to, as the caller reads them. *)
Definition contents (h : Heap) (a : ref) : list DomainEvent :=
  omap (fun o => objs h !! o) (elems h a).

(** [private events: DomainEvent[] = []] *)
Definition new_store (h : Heap) : Store * Heap :=
  let a := fresh (dom (arrs h)) in
  (mkStore a, mkHeap (objs h) (<[a := []]> (arrs h))).

(** [append(type, payload) { this.events.push({ type, payload, timestamp: Date.now() }) }]
    with [now] the value of [Date.now()]. *)
Definition append (s : Store) (ty : string) (pl : Payload) (now : Z) (h : Heap) : Heap :=
  let o := fresh (dom (objs h)) in
  mkHeap (<[o := mkEvent ty pl now]> (objs h))
         (alter (fun l => l ++ [o]) (events s) (arrs h)).

(** [getAll() { return [...this.events] }]: a new array with the same
    element references. *)
Definition getAll (s : Store) (h : Heap) : ref * Heap :=
  let a := fresh (dom (arrs h)) in
  (a, mkHeap (objs h) (<[a := elems h (events s)]> (arrs h))).

(** [(e) => e.type === type] *)
Definition has_type (h : Heap) (ty : string) (o : ref) : bool :=
  from_option (fun e => String.eqb (type e) ty) false (objs h !! o).

(** [getByType(type) { return this.events.filter((e) => e.type === type) }] *)
Definition getByType (s : Store) (ty : string) (h : Heap) : ref * Heap :=
  let a := fresh (dom (arrs h)) in
  (a, mkHeap (objs h)
             (<[a := List.filter (has_type h ty) (elems h (events s))]> (arrs h))).

(** Whatever a caller does to the array [a] itself: [push], [pop],
    [splice], [sort], [a[i] = e], [a.length = 0]. *)
Definition array_update (a : ref) (f : list ref -> list ref) (h : Heap) : Heap :=
  mkHeap (objs h) (alter f a (arrs h)).

(** A caller writing to a field of the event object [o]. *)
Definition object_update (o : ref) (g : DomainEvent -> DomainEvent) (h : Heap) : Heap :=
  mkHeap (alter g o (objs h)) (arrs h).

(** A run of [append] calls, oldest first. *)
Definition appends (s : Store) (evs : list DomainEvent) (h : Heap) : Heap :=
  fold_left (fun h e => append s (type e) (payload e) (timestamp e) h) evs h.

(** Reference [o] points to an event object. *)
Definition allocated (h : Heap) (o : ref) : Prop := is_Some (objs h !! o).

End Store.

Arguments DomainEvent : clear implicits.
Arguments Heap : clear implicits.

End EventStore.

(** ** src/sample-sources/user-service.ts *)

Module UserService.

Definition ref := nat.

(** [interface UserRecord { id; email; active }] *)
Record UserRecord := mkUser {
  id : string;
  email : string;
  active : bool
}.

(** [private users = new Map<string, UserRecord>()]: the map holds
    references; [findById] hands the same reference to the caller. *)
Record State := mkState {
  users : gmap string ref;
  heap : gmap ref UserRecord
}.

Definition init : State := mkState ∅ ∅.

(** [register(email)], with [uuid] the value of [crypto.randomUUID()]. *)
Definition register (uuid : string) (mail : string) (st : State) : string * State :=
  let o := fresh (dom (heap st)) in
  (uuid, mkState (<[uuid := o]> (users st))
                 (<[o := mkUser uuid mail true]> (heap st))).

(** [findById(id) { return this.users.get(id) ?? null }] *)
Definition findById (i : string) (st : State) : option ref := users st !! i.

(** [user.active = false] *)
Definition set_inactive (u : UserRecord) : UserRecord :=
  mkUser (id u) (email u) false.

(** [deactivate(id)]: [if (!user) return false; user.active = false; return true] *)
Definition deactivate (i : string) (st : State) : bool * State :=
  match users st !! i with
  | None => (false, st)
  | Some o => (true, mkState (users st) (alter set_inactive o (heap st)))
  end.

(** The record a caller reads through [findById]. *)
Definition record_of (st : State) (i : string) : option UserRecord :=
  findById i st ≫= fun o => heap st !! o.

(** Every id maps to an allocated object of its own. *)
Definition wf (st : State) : Prop :=
  (forall i o, users st !! i = Some o -> is_Some (heap st !! o)) /\
  (forall i j o, users st !! i = Some o -> users st !! j = Some o -> i = j).

(** The states a program can reach through the public methods. *)
Inductive reachable : State -> Prop :=
  | reach_init : reachable init
  | reach_register uuid mail st :
      reachable st -> reachable (snd (register uuid mail st))
  | reach_deactivate i st :
      reachable st -> reachable (snd (deactivate i st)).

End UserService.

(** ** The file system the shell script works on *)

Module Files.

Definition nl : ascii := "010"%char.
Definition slash : ascii := "/"%char.

(** [strip_prefix pre s] is what follows [pre] in [s]. *)
Fixpoint strip_prefix (pre s : string) : option string :=
  match pre, s with
  | EmptyString, _ => Some s
  | String a pre', String b s' =>
      if Ascii.eqb a b then strip_prefix pre' s' else None
  | String _ _, EmptyString => None
  end.

(** [within d p]: path [p] is [d] itself or lies below directory [d]. *)
Definition within (d p : string) : bool :=
  match strip_prefix d p with
  | Some EmptyString => true
  | Some (String c _) => Ascii.eqb c slash
  | None => false
  end.

(** Splitting a text at a separator; a last piece without separator counts
    when it is not empty ([sort], [wc -l] and [find] all work on such lines). *)
Fixpoint split_on (sep : ascii) (s : string) : list string :=
  match s with
  | EmptyString => []
  | String c s' =>
      if Ascii.eqb c sep then EmptyString :: split_on sep s'
      else match split_on sep s' with
           | [] => [String c EmptyString]
           | l :: ls => String c l :: ls
           end
  end.

Definition lines (s : string) : list string := split_on nl s.

Fixpoint unlines (ls : list string) : string :=
  match ls with
  | [] => EmptyString
  | l :: ls' => l +:+ String nl (unlines ls')
  end.

Fixpoint has_char (c : ascii) (s : string) : bool :=
  match s with
  | EmptyString => false
  | String a s' => Ascii.eqb a c || has_char c s'
  end.

(** The directories on the way to [p], outermost first, then [p] itself:
    every prefix of [p] that ends before a slash. *)
Fixpoint ancestors_go (seen rest : string) : list string :=
  match rest with
  | EmptyString => [seen]
  | String c r =>
      if Ascii.eqb c slash
      then seen :: ancestors_go (seen +:+ String c EmptyString) r
      else ancestors_go (seen +:+ String c EmptyString) r
  end.

Definition ancestors (p : string) : list string := ancestors_go EmptyString p.

(** [dirname]; the project root is the empty path. *)
Definition parent (p : string) : string :=
  default EmptyString (last (removelast (ancestors p))).

Definition basename (p : string) : string :=
  match parent p with
  | EmptyString => p
  | d => default p (strip_prefix (d +:+ "/") p)
  end.

Inductive node :=
  | File (content : string)
  | Dir.

#[global] Instance node_eq_dec : EqDecision node.
Proof. solve_decision. Defined.

(** Paths are relative to the project directory, which the script enters
    first ([cd "$PROJECT_DIR"]). *)
Abbreviation FS := (gmap string node).

Definition is_file (fs : FS) (p : string) : bool :=
  match fs !! p with Some (File _) => true | _ => false end.

Definition is_dir (fs : FS) (p : string) : bool :=
  match p with
  | EmptyString => true
  | _ => match fs !! p with Some Dir => true | _ => false end
  end.

(** Commands on the file system return their exit status and the new
    state; a failing command leaves what it did before failing. *)
Definition removed (p : string) (fs : FS) : FS :=
  filter (fun kv => within p kv.1 = false) fs.

(** [rm -rf p] *)
Definition rm_rf (p : string) (fs : FS) : Z * FS := (0, removed p fs).

(** [rm -rf p/]: with the trailing slash only a directory is named; on a
    regular file the lookup fails and the file stays. *)
Definition rm_rf_slash (p : string) (fs : FS) : Z * FS :=
  if is_file fs p then (0, fs) else (0, removed p fs).

(** [mkdir -p p] *)
Fixpoint mkdirs (ps : list string) (fs : FS) : Z * FS :=
  match ps with
  | [] => (0, fs)
  | p :: ps' =>
      match p with
      | EmptyString => mkdirs ps' fs
      | _ => if is_file fs p then (1, fs) else mkdirs ps' (<[p := Dir]> fs)
      end
  end.

Definition mkdir_p (p : string) (fs : FS) : Z * FS := mkdirs (ancestors p) fs.

(** [> p]: the shell opens [p] for writing before the command starts, which
    creates or empties it. *)
Definition open_out (p : string) (fs : FS) : option FS :=
  if is_dir fs (parent p) && negb (is_dir fs p)
  then Some (<[p := File EmptyString]> fs)
  else None.

(** What is written through the open descriptor ends up in the file, as
    long as the file is still there. *)
Definition store (p : string) (c : string) (fs : FS) : FS :=
  if is_file fs p then <[p := File c]> fs else fs.

(** What a command writes to a descriptor goes to the file that was opened.
    Where the path still names that file and nothing else wrote to it
    ([intact]), the path shows this text afterwards; where the command
    removed, moved or replaced the file, or wrote to it by name as well,
    the path shows what the command left there. *)
Definition through (intact : bool) (p : string) (c : string) (fs : FS) : FS :=
  if intact then <[p := File c]> fs else fs.

(** [cp p d/] for a regular file [p]. *)
Definition cp_file (p d : string) (fs : FS) : Z * FS :=
  match fs !! p with
  | Some (File c) =>
      let target := d +:+ "/" +:+ basename p in
      if is_dir fs d && negb (is_dir fs target)
      then (0, <[target := File c]> fs)
      else (1, fs)
  | _ => (1, fs)
  end.

(** Moving a path from below [src] to below [dst]. *)
Definition rebase (src dst k : string) : option string :=
  match strip_prefix src k with
  | Some EmptyString => Some dst
  | Some (String c r) =>
      if Ascii.eqb c slash then Some (dst +:+ String c r) else None
  | None => None
  end.

Definition copy_tree (src dst : string) (fs : FS) : FS :=
  list_to_map
    (omap (fun kv => (fun k' => (k', kv.2)) <$> rebase src dst kv.1)
          (map_to_list fs)) ∪ fs.

(** [cp -r src/ dst/] for a directory [src]: a new [dst] becomes the copy;
    an existing directory [dst] receives it under the source's name. *)
Definition cp_r (src dst : string) (fs : FS) : Z * FS :=
  if negb (is_dir fs src) then (1, fs)
  else match fs !! dst with
       | None => if is_dir fs (parent dst) then (0, copy_tree src dst fs) else (1, fs)
       | Some Dir => (0, copy_tree src (dst +:+ "/" +:+ basename src) fs)
       | Some (File _) => (1, fs)
       end.

(** The regular files, as [find . -type f] prints them. *)
Definition file_paths (fs : FS) : list string :=
  omap (fun kv => match kv.2 with File _ => Some ("./" +:+ kv.1) | Dir => None end)
       (map_to_list fs).

(** [-not -path 'd/*'] for each of the housekeeping directories. *)
Definition excluded_dirs : list string :=
  [ "./node_modules/"; "./.git/"; "./.claude/"; "./.tutorial-snapshots/";
    "./scripts/outputs/"; "./vhs/output/" ].

Definition excluded (line : string) : bool :=
  existsb (fun d => bool_decide (is_Some (strip_prefix d line))) excluded_dirs.

Definition find_project (fs : FS) : string :=
  unlines (List.filter (fun l => negb (excluded l)) (file_paths fs)).

(** [sort], comparing bytes. *)
Definition sort (input : string) : string :=
  unlines (merge_sort String.le (lines input)).

(** The entries directly in directory [d]. *)
Definition children (fs : FS) (d : string) : list string :=
  List.filter (fun k => String.eqb (parent k) d) (map fst (map_to_list fs)).

Definition ends_with (suffix s : string) : bool :=
  bool_decide (is_Some (strip_prefix (String.rev suffix) (String.rev s))).

Definition hidden (p : string) : bool :=
  match basename p with String c _ => Ascii.eqb c "."%char | _ => false end.

(** At every path that [keep] selects, [f'] has the same regular files as
    [f], with the same contents, and every directory of [f]. *)
Definition same_files (keep : string -> bool) (f f' : FS) : Prop :=
  forall q, keep q = true ->
    (forall c, f' !! q = Some (File c) <-> f !! q = Some (File c))
    /\ (is_dir f q = true -> is_dir f' q = true).

Definition outside (d : string) (q : string) : bool := negb (within d q).

(** [f'] is [f] at every path that [keep] selects. *)
Definition unchanged_at (keep : string -> bool) (f f' : FS) : Prop :=
  forall q, keep q = true -> f' !! q = f !! q.

(** Outside directory [d] and not on the way to it. *)
Definition apart (d : string) (q : string) : bool :=
  outside d q && negb (bool_decide (q ∈ ancestors d)).

(** A text without line break. *)
Definition one_line (l : string) : Prop := has_char nl l = false.

End Files.

(** ** The notebook cell [reset-workspace] *)

Module Notebook.
Import Files.

Definition dq : ascii := "034"%char.

(** The manifest as a JSON value. *)
#[local] Set Warnings "-register-all".
Inductive json :=
  | JString (s : string)
  | JBool (b : bool)
  | JObject (fields : list (string * json)).

Definition quoted (s : string) : string :=
  String dq EmptyString +:+ s +:+ String dq EmptyString.

Fixpoint indent (n : nat) : string :=
  match n with O => EmptyString | S n' => "  " +:+ indent n' end.

(** Two-space layout, one field per line, as the here-document has it. *)
Fixpoint render (level : nat) (j : json) : string :=
  match j with
  | JString s => quoted s
  | JBool b => if b then "true" else "false"
  | JObject fields =>
      let fix members (l : list (string * json)) : string :=
        match l with
        | [] => EmptyString
        | (k, v) :: rest =>
            indent (S level) +:+ quoted k +:+ ": " +:+ render (S level) v
            +:+ match rest with [] => EmptyString | _ => "," end
            +:+ String nl (members rest)
        end in
      "{" +:+ String nl (members fields) +:+ indent level +:+ "}"
  end.

Definition field_names (j : json) : list string :=
  match j with JObject fields => map fst fields | _ => [] end.

Definition manifest : json :=
  JObject
    [ ("name", JString "dp-mini-demo");
      ("version", JString "1.0.0");
      ("type", JString "module");
      ("private", JBool true);
      ("dependencies",
        JObject [ ("@libar-dev/delivery-process", JString "1.0.0-pre.0") ]);
      ("devDependencies",
        JObject [ ("typescript", JString "^5.7.0"); ("tsx", JString "^4.19.0") ]) ].

(** The text between [<< 'JSON'] and [JSON], written here with ['] for the
    double quote. *)
Definition requote (s : string) : string :=
  String.string_of_list_ascii
    (map (fun c => if Ascii.eqb c "'"%char then dq else c)
         (String.list_ascii_of_string s)).

Definition package_json_heredoc : string := requote
"{
  'name': 'dp-mini-demo',
  'version': '1.0.0',
  'type': 'module',
  'private': true,
  'dependencies': {
    '@libar-dev/delivery-process': '1.0.0-pre.0'
  },
  'devDependencies': {
    'typescript': '^5.7.0',
    'tsx': '^4.19.0'
  }
}
".

(** Does [needle] occur in [s]? *)
Fixpoint occurs (needle s : string) : bool :=
  bool_decide (is_Some (strip_prefix needle s))
  || match s with
     | EmptyString => false
     | String _ s' => occurs needle s'
     end.

(** The cell, run by a shell without [errexit]:
<<
rm -rf src/ docs-generated/ tsconfig.json delivery-process.config.ts
cat > package.json << 'JSON' ... JSON
echo "Workspace reset. Ready for tutorial."
>>
    It returns what it printed, its exit status (that of the final [echo])
    and the new file system.  [diagnostic] is what the shell prints when it
    cannot open [package.json] for writing. *)
Definition reset_workspace (diagnostic : string) (fs : FS) : string * Z * FS :=
  let fs1 := (rm_rf_slash "src" fs).2 in
  let fs2 := (rm_rf_slash "docs-generated" fs1).2 in
  let fs3 := (rm_rf "tsconfig.json" fs2).2 in
  let fs4 := (rm_rf "delivery-process.config.ts" fs3).2 in
  match open_out "package.json" fs4 with
  | Some fs5 =>
      ("Workspace reset. Ready for tutorial." +:+ String nl EmptyString, 0,
       store "package.json" package_json_heredoc fs5)
  | None =>
      (diagnostic +:+ "Workspace reset. Ready for tutorial." +:+ String nl EmptyString,
       0, fs4)
  end.

(** The paths the cell removes. *)
Definition reset_targets : list string :=
  [ "src"; "docs-generated"; "tsconfig.json"; "delivery-process.config.ts" ].

(** No path lies below a regular file. *)
Definition tree_shaped (fs : FS) : Prop :=
  forall p q c, fs !! p = Some (File c) -> within p q = true -> q <> p ->
                fs !! q = None.

(** The same, as a check over the entries. *)
Definition tree_shapedb (fs : FS) : bool :=
  forallb
    (fun a =>
       match a.2 with
       | File _ =>
           forallb (fun b => negb (within a.1 b.1) || String.eqb b.1 a.1)
                   (map_to_list fs)
       | Dir => true
       end)
    (map_to_list fs).

End Notebook.

(** ** scripts/generate-article-outputs.sh *)

Module Pipeline.
Import Files.

(** How a command list ends under [set -e]: it runs to its end, or a
    failing command makes the shell exit with that command's status. *)
Inductive outcome (A : Type) :=
  | Done (a : A)
  | Exit (code : Z).
Arguments Done {A} a.
Arguments Exit {A} code.

Definition exit_code {A} (o : outcome A) : Z :=
  match o with Done _ => 0 | Exit c => c end.

(** [$OUT], below the project directory, and [$NOTEBOOK]. *)
Definition OUT : string := "scripts/outputs".
Definition NOTEBOOK : string := "TUTORIAL-RUNME.md".

Definition capture_path (cell : string) : string := OUT +:+ "/" +:+ cell +:+ ".txt".
Definition environment_path : string := OUT +:+ "/environment.txt".
Definition snapshot_dir (label : string) : string := OUT +:+ "/snapshots/" +:+ label.
Definition tree_path (label : string) : string := snapshot_dir label +:+ "/tree.txt".

(** [$(...)] drops the newlines that end the output. *)
Fixpoint drop_newlines (s : string) : string :=
  match s with
  | String c s' => if Ascii.eqb c nl then drop_newlines s' else s
  | EmptyString => EmptyString
  end.

Definition substitution (out : string) : string :=
  String.rev (drop_newlines (String.rev out)).

(** The journal is not part of the script: it records which helper was
    entered, in order, and what each cell returned. *)
Inductive Event :=
  | RanCell (cell : string) (result : option (string * Z))
  | RecordedEnv
  | TookSnapshot (label : string).

(** The body of the script between the banner and the summary is a list of
    lines of four kinds. *)
Inductive Line :=
  | Say (text : string)
  | Cell (cell : string)
  | Environment
  | Snapshot (label : string).

Section Script.
Context {Ext : Type}.

(** What the programs started by the script see and change: the project
    directory, and the rest of the machine ([Ext]: clock, network, the
    tools installed). *)
Record Machine := mkMachine { fs : FS; ext : Ext }.

(** The programs the script starts.  [runme cell notebook] returns the
    merged standard output and error of the cell and its exit status; the
    others return their standard output and status.

    [runme] is started with its output going to a file the shell has
    opened, which the machine it is given shows as an empty regular file.
    [leaves_capture cell notebook m] tells whether the cell, started on
    [m], leaves that file alone: it does not remove, move or replace it
    and does not write to it by name.  For a cell that leaves it alone
    the machine [runme] returns does not show the output yet; for a cell
    that does not, it shows what the path holds in the end. *)
Record Host := mkHost {
  project_dir : string;
  runme : string -> string -> Machine -> string * Z * Machine;
  date_utc : Machine -> string * Z;
  node_version : Machine -> string * Z;
  npm_version : Machine -> string * Z;
  uname_s : Machine -> string * Z;
  uname_r : Machine -> string * Z;
  node_package_version : Machine -> string * Z;
  leaves_capture : string -> string -> Machine -> bool
}.

(** [console] holds the lines written to standard output; diagnostics on
    standard error are not part of the state. *)
Record World := mkWorld {
  machine : Machine;
  console : list string;
  journal : list Event
}.

Definition files (w : World) : FS := fs (machine w).

Definition set_machine (m : Machine) (w : World) : World :=
  mkWorld m (console w) (journal w).

Definition set_files (f : FS) (w : World) : World :=
  set_machine (mkMachine f (ext (machine w))) w.

Definition note (e : Event) (w : World) : World :=
  mkWorld (machine w) (console w) (journal w ++ [e]).

Definition Sh (A : Type) : Type := World -> outcome A * World.
Definition Cmd : Type := World -> Z * World.

Definition ret {A} (a : A) : Sh A := fun w => (Done a, w).

Definition bind {A B} (c : Sh A) (k : A -> Sh B) : Sh B := fun w =>
  match c w with
  | (Done a, w') => k a w'
  | (Exit code, w') => (Exit code, w')
  end.

Definition seq {B} (c : Sh unit) (k : Sh B) : Sh B := bind c (fun _ => k).

(** A simple command at a place where [set -e] applies. *)
Definition run (c : Cmd) : Sh unit := fun w =>
  let (st, w') := c w in
  if st =? 0 then (Done tt, w') else (Exit st, w').

(** [t && c]: a failing [t] is not the last command of the list, so
    [set -e] lets it pass; a failing [c] exits. *)
Definition and_then (t c : Cmd) : Sh unit := fun w =>
  let (st, w') := t w in
  if st =? 0 then run c w' else (Done tt, w').

(** [if t; then body; fi] *)
Definition if_then (t : Cmd) (body : Sh unit) : Sh unit := fun w =>
  let (st, w') := t w in
  if st =? 0 then body w' else (Done tt, w').

(** [c || true] *)
Definition or_true (c : Cmd) : Sh unit := fun w => (Done tt, (c w).2).

Definition echo (s : string) : Sh unit := fun w =>
  (Done tt, mkWorld (machine w) (console w ++ [s]) (journal w)).

Definition entered (e : Event) : Sh unit := fun w => (Done tt, note e w).

Definition on_files (f : FS -> Z * FS) : Cmd := fun w =>
  let (st, f') := f (files w) in (st, set_files f' w).

(** [[ -d p ]] and [[ -f p ]] *)
Definition test_d (p : string) : Cmd := fun w =>
  (if is_dir (files w) p then 0 else 1, w).
Definition test_f (p : string) : Cmd := fun w =>
  (if is_file (files w) p then 0 else 1, w).

(** [producer > p] for a command that only reads the file system. *)
Definition redirected (p : string) (producer : Machine -> string * Z) : Cmd := fun w =>
  match open_out p (files w) with
  | None => (1, w)
  | Some f1 =>
      let (out, st) := producer (mkMachine f1 (ext (machine w))) in
      (st, set_files (store p out f1) w)
  end.

Variable host : Host.

(** [run_and_capture]:
<<
echo "▸ Running: $cell"
runme run "$cell" --filename "$NOTEBOOK" > "$OUT/$cell.txt" 2>&1 || true
>>
    When the shell cannot open the file, [runme] is not started.  The
    output goes through the descriptor the shell opened before the cell. *)
Definition runme_captured (cell : string) : Cmd := fun w =>
  match open_out (capture_path cell) (files w) with
  | None => (1, note (RanCell cell None) w)
  | Some f1 =>
      let m0 := mkMachine f1 (ext (machine w)) in
      let '(out, st, m) := runme host cell NOTEBOOK m0 in
      (st, note (RanCell cell (Some (out, st)))
                (set_machine
                   (mkMachine (through (leaves_capture host cell NOTEBOOK m0)
                                       (capture_path cell) out (fs m))
                              (ext m)) w))
  end.

Definition run_and_capture (cell : string) : Sh unit :=
  seq (echo ("▸ Running: " +:+ cell)) (or_true (runme_captured cell)).

(** [find . -type f -not -path ... | sort], under [pipefail]. *)
Definition tree_listing (m : Machine) : string * Z :=
  (sort (find_project (fs m)), 0).

(** The commands of [snapshot_files]: the copies, then the listing. *)
Definition snapshot_copies (label : string) : Sh unit :=
  let dir := snapshot_dir label in
  seq (run (on_files (mkdir_p dir)))
 (seq (if_then (test_d "src") (run (on_files (cp_r "src" (dir +:+ "/src")))))
 (seq (and_then (test_f "delivery-process.config.ts")
                (on_files (cp_file "delivery-process.config.ts" dir)))
 (seq (and_then (test_f "tsconfig.json") (on_files (cp_file "tsconfig.json" dir)))
 (seq (run (on_files (cp_file "package.json" dir)))
      (if_then (test_d "docs-generated")
               (run (on_files (cp_r "docs-generated" (dir +:+ "/docs-generated"))))))))).

Definition snapshot_commands (label : string) : Sh unit :=
  seq (snapshot_copies label) (run (redirected (tree_path label) tree_listing)).

(** [snapshot_files] *)
Definition snapshot_files (label : string) : Sh unit :=
  seq (entered (TookSnapshot label)) (snapshot_commands label).

(** [$(node -e "..." 2>/dev/null || echo 'unknown')] *)
Definition package_version (m : Machine) : string :=
  let (out, st) := node_package_version host m in
  substitution (if st =? 0 then out else out +:+ "unknown" +:+ String nl EmptyString).

(** The five [echo] lines of [capture_environment]. *)
Definition environment_record (m : Machine) : list (string * string) :=
  [ ("date", substitution (date_utc host m).1);
    ("node", substitution (node_version host m).1);
    ("npm", substitution (npm_version host m).1);
    ("os", substitution (uname_s host m).1 +:+ " " +:+ substitution (uname_r host m).1);
    ("package", package_version m) ].

Definition environment_text (m : Machine) : string * Z :=
  (unlines (map (fun kv => kv.1 +:+ ": " +:+ kv.2) (environment_record m)), 0).

(** [capture_environment]: [{ echo ...; } > "$OUT/environment.txt"] *)
Definition capture_environment : Sh unit :=
  seq (entered RecordedEnv) (run (redirected environment_path environment_text)).

(** [w'] differs from [w] at most in its files, and there as [R] allows. *)
Definition changed_only (R : FS -> FS -> Prop) (w w' : World) : Prop :=
  R (files w) (files w')
  /\ ext (machine w') = ext (machine w)
  /\ console w' = console w
  /\ journal w' = journal w.

Definition quiet (R : FS -> FS -> Prop) (c : Sh unit) : Prop :=
  forall w, changed_only R w (c w).2.

Definition quiet_cmd (R : FS -> FS -> Prop) (c : Cmd) : Prop :=
  forall w, changed_only R w (c w).2.

(** A command list that exits does so with a status other than 0. *)
Definition exits_nonzero (c : Sh unit) : Prop :=
  forall w code w', c w = (Exit code, w') -> code <> 0.

(** The project has no manifest. *)
Definition no_manifest (w : World) : Prop :=
  is_file (files w) "package.json" = false.

Definition exec_line (l : Line) : Sh unit :=
  match l with
  | Say text => echo text
  | Cell cell => run_and_capture cell
  | Environment => capture_environment
  | Snapshot label => snapshot_files label
  end.

Fixpoint exec (ls : list Line) : Sh unit :=
  match ls with
  | [] => ret tt
  | l :: ls' => seq (exec_line l) (exec ls')
  end.

(** [rm -rf "$OUT"; mkdir -p "$OUT/snapshots"] and the banner. *)
Definition prologue : Sh unit :=
  seq (run (on_files (rm_rf OUT)))
 (seq (run (on_files (mkdir_p (OUT +:+ "/snapshots"))))
 (seq (echo "═══ Generating article outputs ═══")
 (seq (echo ("Project: " +:+ project_dir host))
 (seq (echo ("Output:  " +:+ project_dir host +:+ "/" +:+ OUT))
      (echo ""))))).

(** The entries [ls] lists for directory [d]. *)
Definition listed_in (f : FS) (d : string) : list string :=
  List.filter (fun k => negb (hidden k)) (children f d).

(** The number of lines [ls] prints for operands that exist: those that
    are not directories, one per line, and then every directory with its
    entries, under a heading and after an empty line; a directory that is
    the only operand is listed without heading. *)
Definition ls_lines (f : FS) (found : list string) : nat :=
  let dirs := List.filter (is_dir f) found in
  let others := List.filter (fun k => negb (is_dir f k)) found in
  match found with
  | [d] => if is_dir f d then length (listed_in f d) else 1%nat
  | _ =>
      (length others
       + foldr (fun d n => S (length (listed_in f d)) + n) O dirs
       + (length dirs - (if bool_decide (others = []) then 1 else 0)))%nat
  end.

(** The number of lines of [ls -d]: one for every operand. *)
Definition ls_d_lines (f : FS) (found : list string) : nat := length found.

(** [ls PATTERN | wc -l | xargs echo TITLE] under [pipefail]: a pattern
    that matches nothing is passed on as it is and [ls] fails on it (with
    status 2 for GNU [ls]), after which the count 0 is still printed.
    [lines] is the number of lines [ls] prints for the matches. *)
Definition count_matches (title : string) (matches : FS -> list string)
    (lines : FS -> list string -> nat) : Cmd := fun w =>
  let found := matches (files w) in
  let n := match found with [] => O | _ => lines (files w) found end in
  (if bool_decide (found = []) then 2 else 0,
   mkWorld (machine w) (console w ++ [title +:+ " " +:+ pretty n]) (journal w)).

(** ["$OUT"/*.txt] *)
Definition cell_outputs (f : FS) : list string :=
  List.filter (fun k => ends_with ".txt" k && negb (hidden k)) (children f OUT).

(** ["$OUT"/snapshots/*/] *)
Definition snapshots (f : FS) : list string :=
  List.filter (fun k => is_dir f k && negb (hidden k)) (children f (OUT +:+ "/snapshots")).

Definition summary : Sh unit :=
  seq (echo "")
 (seq (echo "═══ Done ═══")
 (seq (echo "")
 (seq (echo "Captured outputs:")
 (seq (run (count_matches "  Cell outputs:" cell_outputs ls_lines))
 (seq (run (count_matches "  Snapshots:" snapshots ls_d_lines))
 (seq (echo "")
      (echo "Next: Use Claude Code with scripts/GENERATE-ARTICLE-PROMPT.md to generate the article."))))))).

End Script.

Arguments Machine : clear implicits.
Arguments Host : clear implicits.
Arguments World : clear implicits.

(** Lines 83 to 189 of the script. *)
Definition script : list Line :=
  [ Say "── Phase 0: Setup ──";
    Cell "reset-workspace"; Cell "install-deps"; Environment; Snapshot "00-setup";
    Say "── Part 1: Project Setup ──";
    Cell "verify-deps"; Cell "create-tsconfig"; Cell "create-folders";
    Cell "checkpoint-1"; Snapshot "01-project-setup";
    Say "── Part 2: Configuration ──";
    Cell "create-config"; Cell "add-npm-scripts"; Cell "first-overview";
    Cell "checkpoint-2"; Snapshot "02-configuration";
    Say "── Part 3: First Annotation ──";
    Cell "create-user-service-v1"; Cell "overview-after-first";
    Cell "sources-after-first"; Snapshot "03-first-annotation";
    Say "── Part 4: Adding Richness ──";
    Cell "create-user-service-v2"; Cell "tags-after-richness";
    Cell "overview-after-richness"; Snapshot "04-richness";
    Say "── Part 5: Relationships & Multiple Sources ──";
    Cell "create-user-service-final"; Cell "create-auth-handler";
    Cell "create-event-store"; Cell "overview-with-deps"; Cell "dep-tree-auth";
    Cell "arch-contexts"; Cell "list-roadmap"; Cell "checkpoint-5";
    Snapshot "05-relationships";
    Say "── Part 6: Generate Documentation ──";
    Cell "gen-patterns"; Cell "gen-roadmap"; Cell "list-generated";
    Cell "checkpoint-6"; Snapshot "06-doc-generation";
    Say "── Part 7: Gherkin Specs ──";
    Cell "create-user-reg-feature"; Cell "create-auth-feature"; Cell "query-rules";
    Cell "gen-business-rules"; Cell "overview-after-gherkin";
    Cell "sources-after-gherkin"; Cell "checkpoint-7"; Snapshot "07-gherkin";
    Say "── Part 8: Design Stubs ──";
    Cell "create-notification-stub"; Cell "query-stubs"; Cell "checkpoint-8";
    Snapshot "08-stubs";
    Say "── Part 9: Full Generation & Linting ──";
    Cell "gen-all"; Cell "list-all-generated"; Cell "add-reference-config";
    Cell "gen-reference"; Cell "list-generators"; Cell "lint-patterns";
    Cell "checkpoint-9"; Snapshot "09-full-generation";
    Say "── Part 10: Advanced Queries ──";
    Cell "arch-neighborhood"; Cell "arch-blocking"; Cell "arch-dangling";
    Cell "pattern-detail"; Cell "count-roadmap"; Cell "final-overview";
    Cell "final-verification"; Snapshot "10-advanced" ].

(** The whole script. *)
Definition main {Ext} (host : Host Ext) : Sh unit :=
  seq (prologue host) (seq (exec host script) summary).

(** A run starts with nothing printed and nothing recorded. *)
Definition boot {Ext} (m : Machine Ext) : World Ext := mkWorld m [] [].

(** *** Reading the journal *)

(** The line an event was recorded for. *)
Definition line_of (e : Event) : Line :=
  match e with
  | RanCell cell _ => Cell cell
  | RecordedEnv => Environment
  | TookSnapshot label => Snapshot label
  end.

Definition trace {Ext} (w : World Ext) : list Line := map line_of (journal w).

Definition is_step (l : Line) : bool :=
  match l with Say _ => false | _ => true end.

Definition steps (ls : list Line) : list Line := List.filter is_step ls.

Definition cells (ls : list Line) : list string :=
  omap (fun l => match l with Cell c => Some c | _ => None end) ls.

Definition labels (ls : list Line) : list string :=
  omap (fun l => match l with Snapshot l => Some l | _ => None end) ls.

(** The ten parts of the tutorial: label and cells. *)
Definition parts : list (string * list string) :=
  [ ("01-project-setup",
      ["verify-deps"; "create-tsconfig"; "create-folders"; "checkpoint-1"]);
    ("02-configuration",
      ["create-config"; "add-npm-scripts"; "first-overview"; "checkpoint-2"]);
    ("03-first-annotation",
      ["create-user-service-v1"; "overview-after-first"; "sources-after-first"]);
    ("04-richness",
      ["create-user-service-v2"; "tags-after-richness"; "overview-after-richness"]);
    ("05-relationships",
      ["create-user-service-final"; "create-auth-handler"; "create-event-store";
       "overview-with-deps"; "dep-tree-auth"; "arch-contexts"; "list-roadmap";
       "checkpoint-5"]);
    ("06-doc-generation",
      ["gen-patterns"; "gen-roadmap"; "list-generated"; "checkpoint-6"]);
    ("07-gherkin",
      ["create-user-reg-feature"; "create-auth-feature"; "query-rules";
       "gen-business-rules"; "overview-after-gherkin"; "sources-after-gherkin";
       "checkpoint-7"]);
    ("08-stubs", ["create-notification-stub"; "query-stubs"; "checkpoint-8"]);
    ("09-full-generation",
      ["gen-all"; "list-all-generated"; "add-reference-config"; "gen-reference";
       "list-generators"; "lint-patterns"; "checkpoint-9"]);
    ("10-advanced",
      ["arch-neighborhood"; "arch-blocking"; "arch-dangling"; "pattern-detail";
       "count-roadmap"; "final-overview"; "final-verification"]) ].

(** A part: its cells, then its snapshot. *)
Definition part_steps (p : string * list string) : list Line :=
  map Cell p.2 ++ [Snapshot p.1].

(** The order the script fixes: phase 0, then the parts. *)
Definition fixed_order : list Line :=
  [ Cell "reset-workspace"; Cell "install-deps"; Environment; Snapshot "00-setup" ]
  ++ flat_map part_steps parts.

(** The order in the words of the specification: the reset, then the
    environment recorder, then part after part. *)
Definition claimed_order (tr : list Line) : Prop :=
  exists ps, tr = Cell "reset-workspace" :: Environment :: flat_map part_steps ps.

(** *** Conditions on notebooks and scripts *)

(** No cell touches the output directory. *)
Definition respects_outputs {Ext} (host : Host Ext) : Prop :=
  forall cell notebook m q,
    within OUT q = true -> fs (runme host cell notebook m).2 !! q = fs m !! q.

(** The capture files are distinct files directly in the output directory;
    none of them is the environment file, lies in a snapshot directory or is
    on the way to one. *)
Definition well_named (names labs : list string) : bool :=
  bool_decide (NoDup (capture_path <$> names))
  && forallb
       (fun c =>
          String.eqb (parent (capture_path c)) OUT
          && negb (String.eqb (capture_path c) environment_path)
          && forallb (fun l => apart (snapshot_dir l) (capture_path c)) labs)
       names.

(** What holds of the output directory between two lines of the script:
    it is there, no directory stands where a capture file goes, and every
    cell that ran has its output in its capture file. *)
Definition captured {Ext} (names : list string) (w : World Ext) : Prop :=
  is_dir (files w) OUT = true
  /\ (forall c, c ∈ names -> is_dir (files w) (capture_path c) = false)
  /\ (forall cell r, RanCell cell r ∈ journal w ->
        cell ∈ names
        /\ exists out st, r = Some (out, st)
                          /\ files w !! capture_path cell = Some (File out)).

(** Every cell leaves the file its output goes to alone. *)
Definition keeps_captures {Ext} (host : Host Ext) : Prop :=
  forall cell notebook m, leaves_capture host cell notebook m = true.

(** The invariant in the words of the specification: at the end of the
    run every cell has its capture file. *)
Definition one_file_per_cell {Ext} (w : World Ext) : Prop :=
  forall cell, cell ∈ cells script -> is_file (files w) (capture_path cell) = true.

(** The same machine with a [runme] that always reports success. *)
Definition ignoring_status {Ext} (host : Host Ext) : Host Ext :=
  mkHost (project_dir host)
         (fun cell notebook m =>
            let '(out, _, m') := runme host cell notebook m in (out, 0, m'))
         (date_utc host) (node_version host) (npm_version host)
         (uname_s host) (uname_r host) (node_package_version host)
         (leaves_capture host).

(** The journal with every status a cell returned replaced by 0. *)
Definition mask_event (e : Event) : Event :=
  match e with
  | RanCell cell (Some (out, _)) => RanCell cell (Some (out, 0))
  | _ => e
  end.

Definition mask {Ext} (w : World Ext) : World Ext :=
  mkWorld (machine w) (console w) (map mask_event (journal w)).

(** [c'] does on the masked world what [c] does on the world itself. *)
Definition blind {Ext A} (c c' : World Ext -> A * World Ext) : Prop :=
  forall w, c' (mask w) = ((c w).1, mask (c w).2).

(** Where a run can stop early: in a command of the prologue, in the
    environment recorder or a snapshot, or in the summary. *)
Definition own_command_failed {Ext} (host : Host Ext) (w : World Ext)
    (code : Z) (w' : World Ext) : Prop :=
  prologue host w = (Exit code, w')
  \/ (exists w0 before l after w1,
        prologue host w = (Done tt, w0)
        /\ script = before ++ l :: after
        /\ exec host before w0 = (Done tt, w1)
        /\ exec_line host l w1 = (Exit code, w')
        /\ (l = Environment \/ exists label, l = Snapshot label))
  \/ (exists w0 w1,
        prologue host w = (Done tt, w0)
        /\ exec host script w0 = (Done tt, w1)
        /\ summary w1 = (Exit code, w')).

End Pipeline.

(** ** Concrete machines, notebooks and stores to run the definitions on *)

Module Samples.
Import Files Pipeline.

(** A project directory as the repository ships it, with the outputs of an
    earlier run still in place. *)
Definition project : FS :=
  list_to_map
    [ ("package.json", File "{ }");
      ("TUTORIAL-RUNME.md", File "# Tutorial");
      ("scripts", Dir);
      ("scripts/generate-article-outputs.sh", File "#!/usr/bin/env bash");
      ("scripts/outputs", Dir);
      ("scripts/outputs/verify-deps.txt", File "output of an earlier run");
      ("scripts/outputs/snapshots", Dir);
      ("node_modules", Dir);
      ("node_modules/tsx", Dir);
      ("node_modules/tsx/package.json", File "{ }");
      ("src", Dir);
      ("src/old.ts", File "export {}");
      ("tsconfig.json", File "{ }") ].

(** The same directory without a manifest. *)
Definition project_without_manifest : FS := delete "package.json" project.

Definition said (text : string) (m : Machine unit) : string * Z * Machine unit :=
  (text +:+ String nl EmptyString, 0, m).

Definition writes (p body text : string) (m : Machine unit) : string * Z * Machine unit :=
  match open_out p (fs m) with
  | Some f => (text +:+ String nl EmptyString, 0, mkMachine (store p body f) tt)
  | None => ("cannot create " +:+ p +:+ String nl EmptyString, 1, m)
  end.

(** A notebook whose cells do what the tutorial's cells do to the file
    system; its [lint-patterns] cell fails. *)
Definition tutorial_runme (cell notebook : string) (m : Machine unit)
  : string * Z * Machine unit :=
  if String.eqb cell "reset-workspace" then
    let '(out, st, f) := Notebook.reset_workspace "package.json: Is a directory" (fs m) in
    (out, st, mkMachine f tt)
  else if String.eqb cell "create-tsconfig" then
    writes "tsconfig.json" "{ }" "Created tsconfig.json" m
  else if String.eqb cell "create-folders" then
    ("Created:" +:+ String nl EmptyString, 0,
     mkMachine (mkdir_p "src/sample-sources" (fs m)).2 tt)
  else if String.eqb cell "create-user-service-v1" then
    writes "src/sample-sources/user-service.ts" "export class UserService {}"
           "Created src/sample-sources/user-service.ts" m
  else if String.eqb cell "gen-patterns" then
    writes "docs-generated/PATTERNS.md" "# Patterns" "generated"
           (mkMachine (mkdir_p "docs-generated" (fs m)).2 tt)
  else if String.eqb cell "lint-patterns" then
    ("1 error" +:+ String nl EmptyString, 1, m)
  else said (cell +:+ ": done") m.

(** The cells of these notebooks leave a capture file alone unless they
    remove it together with the output directory. *)
Definition tools (run : string -> string -> Machine unit -> string * Z * Machine unit)
  : Host unit :=
  {| project_dir := "/home/dev/dp-mini-demo";
     runme := run;
     date_utc := fun _ => ("2026-02-21" +:+ String nl EmptyString, 0);
     node_version := fun _ => ("v22.17.1" +:+ String nl EmptyString, 0);
     npm_version := fun _ => ("11.6.1" +:+ String nl EmptyString, 0);
     uname_s := fun _ => ("Darwin" +:+ String nl EmptyString, 0);
     uname_r := fun _ => ("25.2.0" +:+ String nl EmptyString, 0);
     node_package_version := fun m =>
       if is_file (fs m) "node_modules/@libar-dev/delivery-process/package.json"
       then ("1.0.0-pre.0" +:+ String nl EmptyString, 0)
       else (EmptyString, 1);
     leaves_capture := fun cell notebook m =>
       bool_decide (fs (run cell notebook m).2 !! capture_path cell
                    = fs m !! capture_path cell) |}.

Definition tutorial : Host unit := tools tutorial_runme.

(** The same notebook, except that its [reset-workspace] cell fails before
    it has done anything. *)
Definition failing_reset : Host unit :=
  tools (fun cell notebook m =>
    if String.eqb cell "reset-workspace"
    then ("rm: cannot remove src: Permission denied" +:+ String nl EmptyString, 1, m)
    else tutorial_runme cell notebook m).

(** The same notebook, except that its [install-deps] cell cleans the
    working tree of everything untracked, the output directory included. *)
Definition outputs_cleaned : Host unit :=
  tools (fun cell notebook m =>
    if String.eqb cell "install-deps"
    then ("Removing scripts/outputs/" +:+ String nl EmptyString, 0,
          mkMachine (rm_rf OUT (fs m)).2 tt)
    else tutorial_runme cell notebook m).

(** A machine on which [runme] is not installed. *)
Definition without_runme : Host unit :=
  tools (fun cell notebook m =>
    ("runme: command not found" +:+ String nl EmptyString, 127, m)).

Definition start (f : FS) : World unit := mkWorld (mkMachine f tt) [] [].

(** An event store after two [append] calls. *)
Definition two_events : EventStore.Store * EventStore.Heap string :=
  let (s, h) := EventStore.new_store EventStore.empty_heap in
  (s, EventStore.append s "UserDeactivated" "u-1" 1771632000001
        (EventStore.append s "UserRegistered" "u-1" 1771632000000 h)).

(** A user service after two [register] calls. *)
Definition two_users : UserService.State :=
  (UserService.register "id-2" "bob@example.com"
     (UserService.register "id-1" "alice@example.com" UserService.init).2).2.

End Samples.

(** ** src/sample-sources/auth-handler.ts *)

Module AuthHandler.

(** A JavaScript string is a sequence of UTF-16 code units, and [length]
    counts them. *)
Definition jsstring := list N.

(** A literal of the source; each of its characters is one unit. *)
Definition units (s : string) : jsstring :=
  N_of_ascii <$> String.list_ascii_of_string s.

(** [interface AuthResult { success; sessionId?; error? }] *)
Record AuthResult := mkResult {
  success : bool;
  sessionId : option jsstring;
  error : option jsstring
}.

(** [${Date.now()}]: a whole number of milliseconds in decimal. *)
Definition shown (now : Z) : jsstring := units (pretty now).

(** [authenticate(email, password)], with [now] the value of [Date.now()]:
<<
if (email.length === 0 || password.length < 8) {
  return { success: false, error: "Invalid credentials" };
}
return { success: true, sessionId: `session-${Date.now()}` };
>> *)
Definition authenticate (email password : jsstring) (now : Z) : AuthResult :=
  if Nat.eqb (length email) 0 || Nat.ltb (length password) 8
  then mkResult false None (Some (units "Invalid credentials"))
  else mkResult true (Some (units "session-" ++ shown now)) None.

(** [createSession(userId) { return `session-${userId}-${Date.now()}` }] *)
Definition createSession (userId : jsstring) (now : Z) : jsstring :=
  units "session-" ++ userId ++ units "-" ++ shown now.

End AuthHandler.

(** ** Code that holds a reference to a user record *)

Module Callers.
Import UserService.

(** A caller writing to a field of the record [findById] returned. *)
Definition user_update (o : ref) (g : UserRecord -> UserRecord) (st : State) : State :=
  mkState (users st) (alter g o (heap st)).

End Callers.

(** ** More cells of the notebook: Part 1 of the tutorial *)

Module Cells.
Import Files Notebook.

(** The text between [<< 'JSON'] and [JSON] of [create-tsconfig], written
    here with ['] for the double quote. *)
Definition tsconfig_heredoc : string := requote
"{
  'compilerOptions': {
    'target': 'ES2022',
    'module': 'NodeNext',
    'moduleResolution': 'NodeNext',
    'strict': true,
    'esModuleInterop': true,
    'skipLibCheck': true,
    'outDir': 'dist'
  },
  'include': ['src/**/*.ts', 'delivery-process.config.ts']
}
".

(** The cell [create-tsconfig], run by a shell without [errexit]:
<<
cat > tsconfig.json << 'JSON' ... JSON
echo "Created tsconfig.json"
>>
    As for [reset_workspace]: output, status and new file system, with
    [diagnostic] what the shell prints when it cannot open the file. *)
Definition create_tsconfig (diagnostic : string) (fs : FS) : string * Z * FS :=
  match open_out "tsconfig.json" fs with
  | Some fs1 =>
      ("Created tsconfig.json" +:+ String nl EmptyString, 0,
       store "tsconfig.json" tsconfig_heredoc fs1)
  | None =>
      (diagnostic +:+ "Created tsconfig.json" +:+ String nl EmptyString, 0, fs)
  end.

Definition folders : list string := [ "src/sample-sources"; "src/specs"; "src/stubs" ].

(** [mkdir -p] with several operands tries every one of them. *)
Fixpoint mkdir_p_all (ps : list string) (fs : FS) : Z * FS :=
  match ps with
  | [] => (0, fs)
  | p :: ps' =>
      let (st, fs1) := mkdir_p p fs in
      let (st', fs2) := mkdir_p_all ps' fs1 in
      (if st =? 0 then st' else st, fs2)
  end.

Definition exists_at (fs : FS) (p : string) : bool := bool_decide (is_Some (fs !! p)).

(** [ls -d]: the operands that exist, sorted, one per line on standard
    output; [failure] is the status of [ls] when an operand is missing. *)
Definition ls_d (failure : Z) (ps : list string) (fs : FS) : string * Z :=
  (unlines (merge_sort String.le (List.filter (exists_at fs) ps)),
   if forallb (exists_at fs) ps then 0 else failure).

(** The cell [create-folders]:
<<
mkdir -p src/sample-sources src/specs src/stubs
echo "Created:"
ls -d src/sample-sources src/specs src/stubs
>>
    It returns its standard output, its status (that of [ls]) and the new
    file system. *)
Definition create_folders (ls_error : positive) (fs : FS) : string * Z * FS :=
  let fs1 := (mkdir_p_all folders fs).2 in
  let (listing, st) := ls_d (Z.pos ls_error) folders fs1 in
  ("Created:" +:+ String nl listing, st, fs1).

Definition verdict (ok : bool) : string := if ok then "PASS" else "FAIL".

(** The lines of [checkpoint-1] that look at the file system:
<<
for dir in src/sample-sources src/specs src/stubs; do
  [ -d "$dir" ] && echo "$dir exists: PASS" || echo "$dir exists: FAIL"
done
[ -f "tsconfig.json" ] && echo "tsconfig.json: PASS" || echo "tsconfig.json: FAIL"
>> *)
Definition checkpoint_1_checks (fs : FS) : list string :=
  map (fun d => d +:+ " exists: " +:+ verdict (is_dir fs d)) folders
  ++ [ "tsconfig.json: " +:+ verdict (is_file fs "tsconfig.json") ].

(** What [reset_workspace] removes from [fs]. *)
Definition reset_removes (fs : FS) (q : string) : bool :=
  negb (is_file fs "src") && within "src" q
  || negb (is_file fs "docs-generated") && within "docs-generated" q
  || within "tsconfig.json" q
  || within "delivery-process.config.ts" q.

(** A project directory in which the names the tutorial uses are not
    taken by something of the wrong kind. *)
Definition ordinary (fs : FS) : Prop :=
  is_file fs "src" = false
  /\ is_file fs "docs-generated" = false
  /\ is_dir fs "package.json" = false.

End Cells.

(** ** vhs/record-all.sh *)

Module Recording.
Import Files Pipeline.

(** [$SCRIPT_DIR], below the project directory the script enters. *)
Definition SCRIPT_DIR : string := "vhs".

Definition starts_with (pre s : string) : bool :=
  bool_decide (is_Some (strip_prefix pre s)).

(** [basename NAME SUFFIX] leaves a name alone that is the suffix itself. *)
Definition without_suffix (suffix s : string) : string :=
  match strip_prefix (String.rev suffix) (String.rev s) with
  | Some (String c r) => String.rev (String c r)
  | _ => s
  end.

(** [name=$(basename "$tape" .tape)] *)
Definition tape_name (tape : string) : string :=
  without_suffix ".tape" (basename tape).

(** ["$SCRIPT_DIR"/part-*.tape]: the matches in the order of their names;
    a pattern that matches nothing is passed on as it is. *)
Definition tape_pattern : string := SCRIPT_DIR +:+ "/part-*.tape".

Definition is_tape (k : string) : bool :=
  starts_with "part-" (basename k) && ends_with ".tape" (basename k).

Definition found_tapes (f : FS) : list string :=
  merge_sort String.le (List.filter is_tape (children f SCRIPT_DIR)).

Definition tapes (f : FS) : list string :=
  match found_tapes f with
  | [] => [tape_pattern]
  | found => found
  end.

(** ["$SCRIPT_DIR/output/"*.gif] *)
Definition gifs (f : FS) : list string :=
  merge_sort String.le
    (List.filter (fun k => ends_with ".gif" k && negb (hidden k))
                 (children f (SCRIPT_DIR +:+ "/output"))).

(** [tail -1] *)
Definition tail_1 (out : string) : list string :=
  match last (lines out) with
  | Some l => [l]
  | None => []
  end.

Section Script.
Context {Ext : Type}.

(** The programs the script starts.  [vhs tape] plays a tape, which runs
    the commands in it, and returns its merged output and its status;
    [ls_lh] is what [ls -lh] prints for paths that exist; [ls_error] is
    the status of [ls] when a path does not exist (2 for GNU, 1 for BSD). *)
Record Studio := mkStudio {
  vhs : string -> Machine Ext -> string * Z * Machine Ext;
  ls_lh : list string -> Machine Ext -> list string;
  ls_error : positive
}.

Variable studio : Studio.

(** [vhs "$tape" 2>&1 | tail -1], under [pipefail]. *)
Definition vhs_tail (tape : string) : Cmd (Ext := Ext) := fun w =>
  let '(out, st, m) := vhs studio tape (machine w) in
  (st, mkWorld m (console w ++ tail_1 out) (journal w)).

(** [if t; then a; else b; fi] *)
Definition if_else {A} (t : Cmd (Ext := Ext)) (a b : Sh A) : Sh A := fun w =>
  let (st, w') := t w in
  if st =? 0 then a w' else b w'.

(** The body of the loop, with the value of [$FAILED] before and after. *)
Definition record_tape (tape : string) (failed : nat) : Sh nat :=
  seq (echo ("▸ Recording: " +:+ tape_name tape))
 (bind (if_else (vhs_tail tape)
                (seq (echo "  ✓ Done") (ret failed))
                (seq (echo "  ✗ Failed") (ret (S failed))))
       (fun failed' => seq (echo "") (ret failed'))).

(** [for tape in ...; do ...; done] *)
Fixpoint record_tapes (ts : list string) (failed : nat) : Sh nat :=
  match ts with
  | [] => ret failed
  | tape :: ts' => bind (record_tape tape failed) (record_tapes ts')
  end.

(** [ls -lh "$SCRIPT_DIR/output/"*.gif 2>/dev/null] *)
Definition ls_gifs : Cmd (Ext := Ext) := fun w =>
  match gifs (files w) with
  | [] => (Z.pos (ls_error studio), w)
  | found =>
      (0, mkWorld (machine w) (console w ++ ls_lh studio found (machine w)) (journal w))
  end.

Definition exit_with {A} (code : Z) : Sh (Ext := Ext) A := fun w => (Exit code, w).

(** [if [ "$FAILED" -gt 0 ]; then echo ...; exit 1; else echo ...; fi] *)
Definition report (failed : nat) : Sh unit :=
  if bool_decide (0 < failed)%nat
  then seq (echo ("⚠ " +:+ pretty failed +:+ " tape(s) failed")) (exit_with 1)
  else echo "✓ All recordings generated in vhs/output/".

(** The whole script. *)
Definition record_all : Sh unit :=
  seq (echo "═══ Recording all tutorial parts ═══")
 (seq (echo "")
 (bind (fun w => record_tapes (tapes (files w)) 0 w)
       (fun failed =>
          seq (echo "═══ Complete ═══")
         (seq (echo "")
         (seq (run ls_gifs)
         (seq (echo "")
              (report failed))))))).

(** What [vhs] returns when it is started on each tape in turn, whatever
    it returned for the tapes before, and the machine it leaves. *)
Fixpoint runs (ts : list string) (m : Machine Ext) : list Z * Machine Ext :=
  match ts with
  | [] => ([], m)
  | tape :: ts' =>
      let '(_, st, m1) := vhs studio tape m in
      let (sts, m2) := runs ts' m1 in
      (st :: sts, m2)
  end.

Definition failures (sts : list Z) : nat :=
  length (List.filter (fun st => negb (st =? 0)) sts).

End Script.

Arguments Studio : clear implicits.

End Recording.

(** ** More concrete values to run the definitions on *)

Module Scenes.

(** Two event stores in one heap; the second holds one event. *)
Definition two_stores : EventStore.Store * EventStore.Store * EventStore.Heap string :=
  let (s1, h1) := EventStore.new_store EventStore.empty_heap in
  let (s2, h2) := EventStore.new_store h1 in
  (s1, s2, EventStore.append s2 "UserRegistered" "u-9" 1771632000005 h2).

(** A project with two tapes and [vhs/output] still empty. *)
Definition studio_project : Files.FS :=
  list_to_map
    [ ("package.json", Files.File "{ }");
      ("vhs", Files.Dir);
      ("vhs/record-all.sh", Files.File "#!/usr/bin/env bash");
      ("vhs/README.md", Files.File "# VHS Tutorial Recordings");
      ("vhs/part-00-setup.tape", Files.File "Output vhs/output/part-00-setup.gif");
      ("vhs/part-01-project.tape", Files.File "Output vhs/output/part-01-project.gif");
      ("vhs/output", Files.Dir) ].

(** The same project without any tape, and with a recording of an
    earlier run. *)
Definition studio_without_tapes : Files.FS :=
  <["vhs/output/part-00-setup.gif" := Files.File "GIF89a"]>
    (delete "vhs/part-00-setup.tape" (delete "vhs/part-01-project.tape" studio_project)).

(** A [vhs] that writes the recording of a tape it finds, except for
    tapes whose name is in [broken]. *)
Definition plays (broken : list string) (tape : string) (m : Pipeline.Machine unit)
  : string * Z * Pipeline.Machine unit :=
  if Files.is_file (Pipeline.fs m) tape && negb (bool_decide (tape ∈ broken)) then
    ("Creating " +:+ Recording.tape_name tape +:+ ".gif" +:+ String Files.nl EmptyString,
     0,
     Pipeline.mkMachine
       (<[Recording.SCRIPT_DIR +:+ "/output/" +:+ Recording.tape_name tape +:+ ".gif"
          := Files.File "GIF89a"]> (Pipeline.fs m)) tt)
  else
    ("could not play " +:+ tape +:+ String Files.nl EmptyString, 1, m).

Definition studio (broken : list string) : Recording.Studio unit :=
  {| Recording.vhs := plays broken;
     Recording.ls_lh := fun paths _ => paths;
     Recording.ls_error := 2 |}.

End Scenes.

(** * Properties *)

(** ** EventStore *)

Section EventStoreFacts.
Import EventStore.
Context {Payload : Type}.
Implicit Types (h : Heap Payload) (s : Store) (l : list ref).

Lemma fresh_array_unused h : arrs h !! fresh (dom (arrs h)) = None.
Proof. apply not_elem_of_dom, is_fresh. Qed.

Lemma fresh_object_unused h : objs h !! fresh (dom (objs h)) = None.
Proof. apply not_elem_of_dom, is_fresh. Qed.

Lemma elems_lookup h a l : arrs h !! a = Some l -> elems h a = l.
Proof. unfold elems. by intros ->. Qed.

(** Reading a list of allocated references does not see an object that
    is allocated later. *)
Lemma omap_insert_fresh h l (e : DomainEvent Payload) :
  Forall (allocated h) l ->
  omap (fun o => <[fresh (dom (objs h)) := e]> (objs h) !! o) l
  = omap (fun o => objs h !! o) l.
Proof.
  induction 1 as [|o l Ho _ IH]; [done|].
  cbn. rewrite IH. rewrite lookup_insert_ne; [done|].
  intros <-. unfold allocated in Ho. rewrite fresh_object_unused in Ho. by destruct Ho.
Qed.

Lemma append_spec s ty pl now h l :
  arrs h !! events s = Some l ->
  Forall (allocated h) l ->
  let h' := append s ty pl now h in
  let o := fresh (dom (objs h)) in
  arrs h' !! events s = Some (l ++ [o])
  /\ Forall (allocated h') (l ++ [o])
  /\ contents h' (events s) = contents h (events s) ++ [mkEvent ty pl now].
Proof.
  intros Hl Hall h' o. subst h' o. unfold append, contents. cbn.
  assert (Harr : alter (fun l0 => l0 ++ [fresh (dom (objs h))]) (events s) (arrs h)
                 !! events s = Some (l ++ [fresh (dom (objs h))])).
  { rewrite lookup_alter_eq, Hl. done. }
  split; [exact Harr|]. split.
  - apply Forall_app. split.
    + eapply Forall_impl; [exact Hall|]. intros x [e He]. unfold allocated. cbn.
      destruct (decide (fresh (dom (objs h)) = x)) as [->|Hne].
      * rewrite lookup_insert_eq. eauto.
      * rewrite lookup_insert_ne by done. eauto.
    + constructor; [|constructor]. unfold allocated. cbn.
      rewrite lookup_insert_eq. eauto.
  - unfold elems. cbn. rewrite Harr, Hl. cbn.
    rewrite omap_app. cbn. rewrite lookup_insert_eq. cbn.
    by rewrite omap_insert_fresh.
Qed.

Lemma appends_spec s evs : forall h l,
  arrs h !! events s = Some l ->
  Forall (allocated h) l ->
  exists l', arrs (appends s evs h) !! events s = Some l'
    /\ Forall (allocated (appends s evs h)) l'
    /\ contents (appends s evs h) (events s) = contents h (events s) ++ evs.
Proof.
  induction evs as [|e evs IH]; intros h l Hl Hall.
  - exists l. cbn. by rewrite app_nil_r.
  - change (appends s (e :: evs) h)
      with (appends s evs (append s (type e) (payload e) (timestamp e) h)).
    destruct (append_spec s (type e) (payload e) (timestamp e) h l Hl Hall)
      as (Hl' & Hall' & Hc).
    destruct (IH _ _ Hl' Hall') as (l' & ? & ? & Hc').
    exists l'. split; [done|]. split; [done|].
    rewrite Hc', Hc, <- app_assoc. cbn. by destruct e.
Qed.

Lemma getAll_contents s h :
  contents (getAll s h).2 (getAll s h).1 = contents h (events s).
Proof.
  unfold getAll, contents, elems. cbn. by rewrite lookup_insert_eq.
Qed.

Lemma filter_contents h ty l :
  omap (fun o => objs h !! o) (List.filter (has_type h ty) l)
  = List.filter (fun e => String.eqb (type e) ty) (omap (fun o => objs h !! o) l).
Proof.
  induction l as [|o l IH]; [done|].
  cbn. unfold has_type at 1. destruct (objs h !! o) as [e|] eqn:He; cbn.
  - destruct (String.eqb (type e) ty); cbn; rewrite ?He, IH; done.
  - done.
Qed.

Lemma getByType_contents s ty h :
  contents (getByType s ty h).2 (getByType s ty h).1
  = List.filter (fun e => String.eqb (type e) ty) (contents h (events s)).
Proof.
  unfold getByType, contents. cbn. unfold elems at 1. cbn.
  rewrite lookup_insert_eq. cbn. apply filter_contents.
Qed.

(** Writing to another array leaves what the store holds as it was. *)
Lemma array_update_other a f h s :
  a <> events s ->
  contents (array_update a f h) (events s) = contents h (events s)
  /\ arrs (array_update a f h) !! events s = arrs h !! events s.
Proof.
  intros Hne. unfold array_update, contents, elems. cbn.
  by rewrite lookup_alter_ne.
Qed.

(** A store made by the constructor and filled by [append] holds an array
    of allocated events: the hypotheses of the theorem below are those of
    every store a program can build. *)
Lemma built_store_is_sound h evs :
  exists l,
    arrs (appends (new_store h).1 evs (new_store h).2) !! events (new_store h).1
    = Some l
    /\ Forall (allocated (appends (new_store h).1 evs (new_store h).2)) l.
Proof.
  destruct (appends_spec (new_store h).1 evs (new_store h).2 [])
    as (l & Hl & Hall & _).
  - unfold new_store. cbn. apply lookup_insert_eq.
  - constructor.
  - eauto.
Qed.

(** C9. For every store, [getAll] returns a new array holding the events
    in the order they were appended; neither [getAll] nor [getByType]
    changes the store's own array or any event; and whatever a caller does
    to the array returned by [getAll], later [getAll] and [getByType]
    calls answer as before. *)
Theorem getAll_is_a_fresh_copy s h l :
  arrs h !! events s = Some l ->
  Forall (allocated h) l ->
  (forall evs,
      contents (getAll s (appends s evs h)).2 (getAll s (appends s evs h)).1
      = contents h (events s) ++ evs)
  /\ let r := (getAll s h).1 in
     let h1 := (getAll s h).2 in
     arrs h !! r = None
     /\ r <> events s
     /\ arrs h1 !! r = Some l
     /\ arrs h1 !! events s = Some l
     /\ objs h1 = objs h
     /\ (forall ty, arrs (getByType s ty h).2 !! events s = Some l
                    /\ objs (getByType s ty h).2 = objs h)
     /\ forall f ty,
          let h2 := array_update r f h1 in
          contents (getAll s h2).2 (getAll s h2).1 = contents h (events s)
          /\ contents (getByType s ty h2).2 (getByType s ty h2).1
             = contents (getByType s ty h).2 (getByType s ty h).1.
Proof.
  intros Hl Hall.
  assert (Hr : fresh (dom (arrs h)) <> events s).
  { intros Heq. pose proof (fresh_array_unused h) as Hf.
    rewrite Heq, Hl in Hf. discriminate. }
  split.
  - intros evs. rewrite getAll_contents.
    destruct (appends_spec s evs h l Hl Hall) as (? & _ & _ & ->). done.
  - intros r h1.
    assert (Hh1 : contents h1 (events s) = contents h (events s)
                  /\ arrs h1 !! events s = Some l).
    { unfold h1, getAll, contents, elems. cbn. by rewrite lookup_insert_ne. }
    destruct Hh1 as [Hc1 Ha1].
    split; [apply fresh_array_unused|]. split; [exact Hr|].
    split; [unfold h1, getAll; cbn; rewrite lookup_insert_eq;
            by rewrite (elems_lookup _ _ _ Hl)|].
    split; [exact Ha1|]. split; [done|]. split.
    + intros ty. split; [|done].
      unfold getByType. cbn. rewrite lookup_insert_ne; [done|exact Hr].
    + intros f ty h2.
      destruct (array_update_other r f h1 s Hr) as [Hc _].
      fold h2 in Hc.
      by rewrite getAll_contents, !getByType_contents, Hc, Hc1.
Qed.

(** The copy is shallow: a write to an event object reached through the
    returned array is a write to the store's event. *)
Lemma getAll_shares_the_events s h l o e g :
  arrs h !! events s = Some l -> o ∈ l -> objs h !! o = Some e ->
  o ∈ elems (getAll s h).2 (getAll s h).1
  /\ objs (object_update o g (getAll s h).2) !! o = Some (g e).
Proof.
  intros Hl Ho He. unfold getAll, object_update, elems. cbn.
  rewrite lookup_insert_eq, Hl. cbn. split; [done|].
  by rewrite lookup_alter_eq, He.
Qed.

End EventStoreFacts.

Lemma getAll_is_a_fresh_copy_witness :
  EventStore.arrs Samples.two_events.2 !! EventStore.events Samples.two_events.1
    = Some [0%nat; 1%nat]
  /\ Forall (EventStore.allocated Samples.two_events.2) [0%nat; 1%nat]
  /\ EventStore.arrs (EventStore.getAll Samples.two_events.1 Samples.two_events.2).2
       !! EventStore.events Samples.two_events.1 = Some [0%nat; 1%nat].
Proof.
  assert (H1 : EventStore.arrs Samples.two_events.2
                 !! EventStore.events Samples.two_events.1 = Some [0%nat; 1%nat])
    by (vm_compute; reflexivity).
  assert (H2 : Forall (EventStore.allocated Samples.two_events.2) [0%nat; 1%nat])
    by (repeat constructor; vm_compute; eauto).
  split; [exact H1|]. split; [exact H2|].
  exact (proj1 (proj2 (proj2 (proj2 (proj2
    (getAll_is_a_fresh_copy Samples.two_events.1 Samples.two_events.2 _ H1 H2)))))).
Defined.

(** ** UserService *)

Section UserServiceFacts.
Import UserService.
Implicit Types (st : State) (i j : string) (o : ref) (u : UserRecord).

Lemma wf_init : wf init.
Proof. split; intros *; cbn; by rewrite lookup_empty. Qed.

Lemma wf_register uuid mail st : wf st -> wf (register uuid mail st).2.
Proof.
  intros [Halloc Hinj].
  assert (Hfresh : forall i, users st !! i <> Some (fresh (dom (heap st)))).
  { intros i Hi. destruct (Halloc _ _ Hi) as [u Hu].
    pose proof (is_fresh (dom (heap st))) as Hf.
    apply Hf, elem_of_dom. eauto. }
  split; cbn.
  - intros i o. destruct (decide (uuid = i)) as [<-|Hne].
    + rewrite lookup_insert_eq. intros [= <-]. rewrite lookup_insert_eq. eauto.
    + rewrite lookup_insert_ne by done. intros Hi.
      destruct (Halloc _ _ Hi) as [u Hu].
      destruct (decide (fresh (dom (heap st)) = o)) as [<-|Hne'].
      * by destruct (Hfresh i).
      * rewrite lookup_insert_ne by done. eauto.
  - intros i j o.
    destruct (decide (uuid = i)) as [<-|Hi], (decide (uuid = j)) as [<-|Hj];
      rewrite ?lookup_insert_eq, ?lookup_insert_ne by done.
    + done.
    + intros [= <-] Hj'. by destruct (Hfresh j).
    + intros Hi' [= <-]. by destruct (Hfresh i).
    + apply Hinj.
Qed.

Lemma wf_deactivate i st : wf st -> wf (deactivate i st).2.
Proof.
  intros [Halloc Hinj]. unfold deactivate.
  destruct (users st !! i) as [o|]; [|done].
  split; cbn; [|exact Hinj].
  intros j o' Hj. destruct (Halloc _ _ Hj) as [u Hu].
  destruct (decide (o = o')) as [->|Hne].
  - rewrite lookup_alter_eq, Hu. cbn. eauto.
  - rewrite lookup_alter_ne by done. eauto.
Qed.

(** Every state the class can be in keeps one object per id. *)
Lemma reachable_wf st : reachable st -> wf st.
Proof.
  induction 1; auto using wf_init, wf_register, wf_deactivate.
Qed.

(** C10. [deactivate] of an id that is not registered returns [false]
    and gives back the state it was given.  For a registered id it returns
    [true], keeps the map of ids, keeps the user's id and email and sets
    the flag to [false], and every other user reads as before. *)
Theorem deactivate_touches_one_flag st i :
  wf st ->
  match users st !! i with
  | None => deactivate i st = (false, st)
  | Some o =>
      exists u st',
        heap st !! o = Some u
        /\ deactivate i st = (true, st')
        /\ users st' = users st
        /\ record_of st' i = Some (mkUser (id u) (email u) false)
        /\ (forall o', o' <> o -> heap st' !! o' = heap st !! o')
        /\ (forall j, j <> i -> record_of st' j = record_of st j)
  end.
Proof.
  intros [Halloc Hinj]. unfold deactivate.
  destruct (users st !! i) as [o|] eqn:Hi; [|done].
  destruct (Halloc _ _ Hi) as [u Hu].
  exists u, (mkState (users st) (alter set_inactive o (heap st))).
  split; [done|]. split; [done|]. split; [done|].
  split; [|split].
  - unfold record_of, findById. cbn. rewrite Hi. cbn.
    by rewrite lookup_alter_eq, Hu.
  - intros o' Hne. cbn. by rewrite lookup_alter_ne.
  - intros j Hne. unfold record_of, findById. cbn.
    destruct (users st !! j) as [o'|] eqn:Hj; [|done]. cbn.
    rewrite lookup_alter_ne; [done|].
    intros ->. apply Hne. symmetry. eauto.
Qed.

End UserServiceFacts.

Lemma deactivate_touches_one_flag_witness :
  UserService.wf Samples.two_users
  /\ UserService.record_of (UserService.deactivate "id-1" Samples.two_users).2 "id-1"
     = Some (UserService.mkUser "id-1" "alice@example.com" false)
  /\ UserService.record_of (UserService.deactivate "id-1" Samples.two_users).2 "id-2"
     = Some (UserService.mkUser "id-2" "bob@example.com" true)
  /\ UserService.deactivate "no-such-id" Samples.two_users = (false, Samples.two_users).
Proof.
  assert (Hwf : UserService.wf Samples.two_users).
  { apply wf_register, wf_register, wf_init. }
  split; [exact Hwf|].
  split; [vm_compute; reflexivity|].
  split; [vm_compute; reflexivity|].
  exact (deactivate_touches_one_flag Samples.two_users "no-such-id" Hwf).
Defined.

(** ** The file system *)

#[local] Arguments Ascii.eqb : simpl never.

Section FilesFacts.
Import Files.
Implicit Types (f : FS) (p q d : string).

Lemma append_cons a s r : String a s +:+ r = String a (s +:+ r).
Proof. reflexivity. Qed.

Lemma append_empty_l r : EmptyString +:+ r = r.
Proof. reflexivity. Qed.

Lemma strip_prefix_app pre r : strip_prefix pre (pre +:+ r) = Some r.
Proof.
  induction pre as [|a pre IH]; [by destruct r|].
  rewrite append_cons. cbn. by rewrite Ascii.eqb_refl.
Qed.

Lemma strip_prefix_Some pre : forall s r,
  strip_prefix pre s = Some r -> s = pre +:+ r.
Proof.
  induction pre as [|a pre IH]; intros s r; cbn.
  - by intros [= <-].
  - destruct s as [|b s]; [done|].
    destruct (Ascii.eqb a b) eqn:E; [|done].
    apply Ascii.eqb_eq in E as ->. intros H.
    rewrite append_cons. f_equal. by apply IH.
Qed.

Lemma strip_prefix_append a b : forall s,
  strip_prefix (a +:+ b) s = strip_prefix a s ≫= strip_prefix b.
Proof.
  induction a as [|x a IH]; intros s.
  - rewrite append_empty_l. by destruct b, s.
  - rewrite append_cons. cbn.
    destruct s as [|y s]; [done|]. destruct (Ascii.eqb x y); [apply IH|done].
Qed.

Lemma append_empty_r s : s +:+ EmptyString = s.
Proof. induction s as [|a s IH]; [done|]. by rewrite append_cons, IH. Qed.

Lemma within_refl d : within d d = true.
Proof.
  unfold within. rewrite <- (append_empty_r d) at 2.
  by rewrite strip_prefix_app.
Qed.

Lemma within_below d r : within d (d +:+ String slash r) = true.
Proof. unfold within. by rewrite strip_prefix_app. Qed.

(** What lies within a subdirectory of [d] lies within [d]. *)
Lemma within_deeper d x q :
  within (d +:+ String slash x) q = true -> within d q = true.
Proof.
  unfold within. rewrite strip_prefix_append.
  destruct (strip_prefix d q) as [r|]; cbn; [|done].
  destruct r as [|c r]; [done|]. cbn.
  destruct (Ascii.eqb slash c) eqn:E; [|done].
  rewrite Ascii.eqb_sym in E. by rewrite E.
Qed.

Lemma lookup_removed p f q :
  removed p f !! q = if within p q then None else f !! q.
Proof.
  unfold removed. destruct (within p q) eqn:E.
  - apply map_lookup_filter_None. right. intros x _. cbn. congruence.
  - destruct (f !! q) as [x|] eqn:Hq.
    + apply map_lookup_filter_Some. done.
    + apply map_lookup_filter_None. by left.
Qed.

Lemma is_file_true f p : is_file f p = true <-> exists c, f !! p = Some (File c).
Proof.
  unfold is_file. destruct (f !! p) as [[c|]|]; split; try done; eauto;
    by intros [? [=]].
Qed.

Lemma is_file_false f p : is_file f p = false <-> forall c, f !! p <> Some (File c).
Proof.
  unfold is_file. destruct (f !! p) as [[c|]|]; split; try done.
  intros H. by destruct (H c).
Qed.

Lemma same_files_refl keep f : same_files keep f f.
Proof. by intros q _. Qed.

Lemma same_files_trans keep f1 f2 f3 :
  same_files keep f1 f2 -> same_files keep f2 f3 -> same_files keep f1 f3.
Proof.
  intros H12 H23 q Hk. destruct (H12 q Hk) as [Ha Hb], (H23 q Hk) as [Hc Hd].
  split; [|by auto]. intros c. by rewrite Hc, Ha.
Qed.

Lemma same_files_weaken (keep keep' : string -> bool) f f' :
  (forall q, keep' q = true -> keep q = true) ->
  same_files keep f f' -> same_files keep' f f'.
Proof. intros Hk H q Hq. apply H, Hk, Hq. Qed.

Lemma same_files_is_file keep f f' q :
  same_files keep f f' -> keep q = true -> is_file f' q = is_file f q.
Proof.
  intros H Hk. destruct (H q Hk) as [Hf _]. destruct (is_file f q) eqn:E.
  - apply is_file_true in E as [c Hc]. apply is_file_true. exists c. by apply Hf.
  - apply is_file_false. intros c Hc. apply Hf in Hc.
    rewrite is_file_false in E. by destruct (E c).
Qed.

(** A change that leaves the selected paths alone. *)
Lemma same_files_lookup keep f f' :
  (forall q, keep q = true -> f' !! q = f !! q) -> same_files keep f f'.
Proof.
  intros H q Hq. unfold is_dir. rewrite (H q Hq). done.
Qed.

(** Putting a directory where no regular file is changes no regular file. *)
Lemma same_files_insert_dir keep f p :
  is_file f p = false -> same_files keep f (<[p := Dir]> f).
Proof.
  intros Hp q _. rewrite is_file_false in Hp. unfold is_dir.
  destruct (decide (p = q)) as [<-|Hne].
  - rewrite lookup_insert_eq. split; [|by destruct p].
    intros c. split; [done|]. intros H. by destruct (Hp c).
  - by rewrite lookup_insert_ne.
Qed.

(** Writing a regular file at [p] changes nothing elsewhere. *)
Lemma same_files_insert keep f p c :
  keep p = false -> same_files keep f (<[p := File c]> f).
Proof.
  intros Hp. apply same_files_lookup. intros q Hq.
  rewrite lookup_insert_ne; [done|]. intros <-. congruence.
Qed.

Lemma mkdirs_files keep ps : forall f,
  same_files keep f (mkdirs ps f).2.
Proof.
  induction ps as [|p ps IH]; intros f; cbn; [apply same_files_refl|].
  destruct p as [|a p]; [apply IH|].
  destruct (is_file f (String a p)) eqn:E; [apply same_files_refl|].
  eapply same_files_trans; [|apply IH]. by apply same_files_insert_dir.
Qed.

Lemma mkdir_p_files keep p f : same_files keep f (mkdir_p p f).2.
Proof. apply mkdirs_files. Qed.

Lemma rebase_within src dst k k' :
  rebase src dst k = Some k' -> within dst k' = true.
Proof.
  unfold rebase. destruct (strip_prefix src k) as [[|c r]|]; [| |done].
  - intros [= <-]. apply within_refl.
  - destruct (Ascii.eqb c slash) eqn:E; [|done].
    apply Ascii.eqb_eq in E as ->. intros [= <-]. apply within_below.
Qed.

(** A copied tree lies within its destination. *)
Lemma copy_tree_outside src dst f q :
  within dst q = false -> copy_tree src dst f !! q = f !! q.
Proof.
  intros Hq. unfold copy_tree. apply lookup_union_r.
  apply not_elem_of_list_to_map_1. intros Hin.
  apply list_elem_of_fmap in Hin as ([k' v] & -> & Hin). cbn in Hq.
  apply list_elem_of_omap in Hin as ([k v0] & _ & Hk). cbn in Hk.
  destruct (rebase src dst k) as [k''|] eqn:Hr; [|done].
  cbn in Hk. injection Hk as <- _.
  apply rebase_within in Hr. congruence.
Qed.

Lemma cp_r_lookup src dst f q :
  within dst q = false -> (cp_r src dst f).2 !! q = f !! q.
Proof.
  intros Hq. unfold cp_r. destruct (negb (is_dir f src)); [done|].
  destruct (f !! dst) as [[c|]|]; cbn [snd]; [done| |].
  - rewrite copy_tree_outside; [done|].
    destruct (within (dst +:+ "/" +:+ basename src) q) eqn:E; [|done].
    change (dst +:+ "/" +:+ basename src)
      with (dst +:+ String slash (basename src)) in E.
    apply within_deeper in E. congruence.
  - destruct (is_dir f (parent dst)); [|done]. cbn [snd].
    by rewrite copy_tree_outside.
Qed.

Lemma cp_file_lookup p d f q :
  within d q = false -> (cp_file p d f).2 !! q = f !! q.
Proof.
  intros Hq. unfold cp_file. destruct (f !! p) as [[c|]|]; try done.
  destruct (_ && _); [|done]. cbn [snd].
  rewrite lookup_insert_ne; [done|]. intros <-.
  change (d +:+ "/" +:+ basename p) with (d +:+ String slash (basename p)) in Hq.
  by rewrite within_below in Hq.
Qed.

Lemma mkdirs_lookup ps q : forall f,
  q ∉ ps -> (mkdirs ps f).2 !! q = f !! q.
Proof.
  induction ps as [|p ps IH]; intros f Hq; [done|].
  apply not_elem_of_cons in Hq as [Hne Hq]. cbn.
  destruct p as [|a p]; [by apply IH|].
  destruct (is_file f (String a p)); [done|].
  rewrite IH by done. by rewrite lookup_insert_ne.
Qed.

Lemma cp_r_files src dst f : same_files (outside dst) f (cp_r src dst f).2.
Proof.
  apply same_files_lookup. intros q Hq. apply cp_r_lookup.
  by apply negb_true_iff in Hq.
Qed.

Lemma cp_file_files p d f : same_files (outside d) f (cp_file p d f).2.
Proof.
  apply same_files_lookup. intros q Hq. apply cp_file_lookup.
  by apply negb_true_iff in Hq.
Qed.

Lemma unchanged_at_refl keep f : unchanged_at keep f f.
Proof. by intros q _. Qed.

Lemma unchanged_at_trans keep f1 f2 f3 :
  unchanged_at keep f1 f2 -> unchanged_at keep f2 f3 -> unchanged_at keep f1 f3.
Proof. intros H12 H23 q Hq. by rewrite (H23 q Hq), (H12 q Hq). Qed.

Lemma apart_outside d q : apart d q = true -> within d q = false.
Proof.
  unfold apart, outside. intros [H _]%andb_true_iff. by apply negb_true_iff in H.
Qed.

Lemma apart_deeper d x q :
  apart d q = true -> within (d +:+ String slash x) q = false.
Proof.
  intros H%apart_outside.
  destruct (within (d +:+ String slash x) q) eqn:E; [|done].
  apply within_deeper in E. congruence.
Qed.

Lemma mkdir_p_apart d f : unchanged_at (apart d) f (mkdir_p d f).2.
Proof.
  intros q Hq. apply mkdirs_lookup.
  apply andb_true_iff in Hq as [_ Hq]. apply negb_true_iff in Hq.
  by apply bool_decide_eq_false in Hq.
Qed.

Lemma open_out_lookup p f f1 :
  open_out p f = Some f1 -> f1 = <[p := File EmptyString]> f.
Proof. unfold open_out. destruct (_ && _); by intros [= <-]. Qed.

Lemma open_out_store p c f f1 :
  open_out p f = Some f1 -> store p c f1 = <[p := File c]> f.
Proof.
  intros ->%open_out_lookup. unfold store, is_file.
  rewrite lookup_insert_eq. apply insert_insert_eq.
Qed.

End FilesFacts.

(** ** The [reset-workspace] cell *)

Section ResetFacts.
Import Files Notebook.
Implicit Types (f : FS) (p q : string).

Lemma tree_shaped_removed p f : tree_shaped f -> tree_shaped (removed p f).
Proof.
  intros Ht a b c. rewrite !lookup_removed.
  destruct (within p a); [done|]. intros Ha Hab Hne.
  destruct (within p b); [done|]. eauto.
Qed.

Lemma tree_shaped_rm_rf_slash p f :
  tree_shaped f -> tree_shaped (rm_rf_slash p f).2.
Proof.
  intros Ht. unfold rm_rf_slash. destruct (is_file f p); [done|].
  by apply tree_shaped_removed.
Qed.

Lemma tree_shapedb_sound f : tree_shapedb f = true -> tree_shaped f.
Proof.
  intros H p q c Hp Hq Hne.
  destruct (f !! q) as [x|] eqn:Hx; [exfalso|done].
  unfold tree_shapedb in H. rewrite forallb_forall in H.
  assert (Hin : forall k v, f !! k = Some v -> In (k, v) (map_to_list f)).
  { intros k v Hk. by apply list_elem_of_In, elem_of_map_to_list. }
  specialize (H (p, File c) (Hin _ _ Hp)). cbn in H.
  rewrite forallb_forall in H.
  specialize (H (q, x) (Hin _ _ Hx)). cbn in H. rewrite Hq in H. cbn in H.
  by apply String.eqb_eq in H.
Qed.

(** After [rm -rf p/] nothing is left below [p], and [p] is no directory. *)
Lemma rm_rf_slash_below p f q :
  tree_shaped f -> within p q = true -> q <> p -> (rm_rf_slash p f).2 !! q = None.
Proof.
  intros Ht Hq Hne. unfold rm_rf_slash. destruct (is_file f p) eqn:E; cbn [snd].
  - apply is_file_true in E as [c Hc]. eauto.
  - by rewrite lookup_removed, Hq.
Qed.

Lemma rm_rf_slash_not_dir p f : (rm_rf_slash p f).2 !! p <> Some Dir.
Proof.
  unfold rm_rf_slash. destruct (is_file f p) eqn:E; cbn [snd].
  - apply is_file_true in E as [c ->]. done.
  - by rewrite lookup_removed, within_refl.
Qed.

Lemma rm_rf_slash_outside p f q :
  within p q = false -> (rm_rf_slash p f).2 !! q = f !! q.
Proof.
  intros Hq. unfold rm_rf_slash. destruct (is_file f p); [done|].
  cbn [snd]. by rewrite lookup_removed, Hq.
Qed.

(** A removal never brings a path back. *)
Lemma removed_None p f q : f !! q = None -> removed p f !! q = None.
Proof. intros H. rewrite lookup_removed, H. by destruct (within p q). Qed.

Lemma rm_rf_slash_None p f q : f !! q = None -> (rm_rf_slash p f).2 !! q = None.
Proof.
  intros H. unfold rm_rf_slash. destruct (is_file f p); [done|].
  by apply removed_None.
Qed.

Lemma rm_rf_slash_keeps_not_dir p f q :
  f !! q <> Some Dir -> (rm_rf_slash p f).2 !! q <> Some Dir.
Proof.
  intros H. unfold rm_rf_slash. destruct (is_file f p); [done|].
  cbn [snd]. rewrite lookup_removed. by destruct (within p q).
Qed.

Lemma removed_keeps_not_dir p f q :
  f !! q <> Some Dir -> removed p f !! q <> Some Dir.
Proof. intros H. rewrite lookup_removed. by destruct (within p q). Qed.

(** C6. On a file system where [package.json] is not a directory, the
    cell ends with status 0; nothing is left of the source tree, the
    generated-docs tree, [tsconfig.json] and
    [delivery-process.config.ts]; [package.json] holds the here-document,
    a JSON object with the fields name, version, type, private,
    dependencies and devDependencies, in which the word scripts does not
    occur; and every other path is as it was. *)
Theorem reset_workspace_resets diagnostic f :
  tree_shaped f ->
  f !! "package.json" <> Some Dir ->
  let f' := (reset_workspace diagnostic f).2 in
  (reset_workspace diagnostic f).1.2 = 0
  /\ (forall q, within "src" q = true -> q <> "src" -> f' !! q = None)
  /\ f' !! "src" <> Some Dir
  /\ (forall q, within "docs-generated" q = true -> q <> "docs-generated" ->
                f' !! q = None)
  /\ f' !! "docs-generated" <> Some Dir
  /\ (forall q, within "tsconfig.json" q = true -> f' !! q = None)
  /\ (forall q, within "delivery-process.config.ts" q = true -> f' !! q = None)
  /\ f' !! "package.json" = Some (File package_json_heredoc)
  /\ package_json_heredoc = render 0 manifest +:+ String nl EmptyString
  /\ field_names manifest
     = [ "name"; "version"; "type"; "private"; "dependencies"; "devDependencies" ]
  /\ occurs "scripts" package_json_heredoc = false
  /\ (forall q, existsb (fun t => within t q) reset_targets = false ->
                q <> "package.json" -> f' !! q = f !! q).
Proof.
  intros Ht Hpkg f'.
  set (f1 := (rm_rf_slash "src" f).2).
  set (f2 := (rm_rf_slash "docs-generated" f1).2).
  set (f3 := removed "tsconfig.json" f2).
  set (f4 := removed "delivery-process.config.ts" f3).
  assert (Ht1 : tree_shaped f1) by by apply tree_shaped_rm_rf_slash.
  assert (Hopen : open_out "package.json" f4
                  = Some (<["package.json" := File EmptyString]> f4)).
  { unfold open_out. cbn [parent is_dir andb].
    assert (H4 : f4 !! "package.json" <> Some Dir).
    { apply removed_keeps_not_dir, removed_keeps_not_dir,
        rm_rf_slash_keeps_not_dir, rm_rf_slash_keeps_not_dir, Hpkg. }
    change (is_dir f4 (parent "package.json")) with true.
    unfold is_dir. destruct (f4 !! "package.json") as [[c|]|]; done. }
  assert (Hres : reset_workspace diagnostic f
                 = ("Workspace reset. Ready for tutorial." +:+ String nl EmptyString, 0,
                    <["package.json" := File package_json_heredoc]> f4)).
  { unfold reset_workspace. cbn [rm_rf snd]. fold f1 f2 f3 f4. rewrite Hopen.
    f_equal. unfold store, is_file. rewrite lookup_insert_eq.
    apply insert_insert_eq. }
  subst f'. rewrite Hres. cbn [fst snd].
  assert (Hgone : forall q, q <> "package.json" -> f4 !! q = None ->
                  <["package.json" := File package_json_heredoc]> f4 !! q = None).
  { intros q Hq H. by rewrite lookup_insert_ne. }
  split; [done|]. split; [|split; [|split; [|split; [|split; [|split]]]]].
  - intros q Hq Hne. apply Hgone; [by intros ->|].
    apply removed_None, removed_None, rm_rf_slash_None.
    by apply rm_rf_slash_below.
  - rewrite lookup_insert_ne by done.
    apply removed_keeps_not_dir, removed_keeps_not_dir,
      rm_rf_slash_keeps_not_dir, rm_rf_slash_not_dir.
  - intros q Hq Hne. apply Hgone; [by intros ->|].
    apply removed_None, removed_None. by apply rm_rf_slash_below.
  - rewrite lookup_insert_ne by done.
    apply removed_keeps_not_dir, removed_keeps_not_dir, rm_rf_slash_not_dir.
  - intros q Hq. apply Hgone; [by intros ->|].
    apply removed_None. unfold f3. by rewrite lookup_removed, Hq.
  - intros q Hq. apply Hgone; [by intros ->|].
    unfold f4. by rewrite lookup_removed, Hq.
  - split; [apply lookup_insert_eq|].
    split; [by vm_compute|]. split; [done|]. split; [by vm_compute|].
    intros q Hq Hne. rewrite lookup_insert_ne by done.
    cbn [existsb reset_targets] in Hq.
    apply orb_false_iff in Hq as [H1 Hq].
    apply orb_false_iff in Hq as [H2 Hq].
    apply orb_false_iff in Hq as [H3 Hq].
    apply orb_false_iff in Hq as [H4 _].
    unfold f4, f3, f2, f1.
    rewrite !lookup_removed, H4, H3.
    by rewrite !rm_rf_slash_outside.
Qed.

End ResetFacts.

Lemma reset_workspace_resets_witness :
  Notebook.tree_shaped Samples.project
  /\ Samples.project !! "package.json" <> Some Files.Dir
  /\ (Notebook.reset_workspace "" Samples.project).2 !! "package.json"
     = Some (Files.File Notebook.package_json_heredoc).
Proof.
  assert (Ht : Notebook.tree_shaped Samples.project)
    by (apply tree_shapedb_sound; vm_compute; reflexivity).
  assert (Hp : Samples.project !! "package.json" <> Some Files.Dir)
    by (vm_compute; discriminate).
  split; [exact Ht|]. split; [exact Hp|].
  exact (proj1 (proj2 (proj2 (proj2 (proj2 (proj2 (proj2 (proj2
    (reset_workspace_resets "" Samples.project Ht Hp))))))))).
Defined.

(** ** The pipeline: step runner and environment recorder *)

Section RunnerFacts.
Import Files Pipeline.
Context {Ext : Type}.
Variable host : Host Ext.
Implicit Types (w : World Ext) (m : Machine Ext) (f : FS).

Lemma seq_unfold {B} (c : Sh unit) (k : Sh B) w :
  seq c k w = match c w with
              | (Done _, w1) => k w1
              | (Exit code, w1) => (Exit code, w1)
              end.
Proof. reflexivity. Qed.

Lemma seq_Done {B} (c : Sh unit) (k : Sh B) w w1 :
  c w = (Done tt, w1) -> seq c k w = k w1.
Proof. intros H. by rewrite seq_unfold, H. Qed.

Lemma seq_Exit {B} (c : Sh unit) (k : Sh B) w code w1 :
  c w = (Exit code, w1) -> seq c k w = (Exit code, w1).
Proof. intros H. by rewrite seq_unfold, H. Qed.

Lemma seq_inv_Done {B} (c : Sh unit) (k : Sh B) w b w' :
  seq c k w = (Done b, w') ->
  exists w1, c w = (Done tt, w1) /\ k w1 = (Done b, w').
Proof.
  rewrite seq_unfold. destruct (c w) as [[[]|code] w1]; [|done]. eauto.
Qed.

(** The step runner never makes the script exit. *)
Lemma run_and_capture_returns cell w :
  (run_and_capture host cell w).1 = Done tt.
Proof. reflexivity. Qed.

(** What the step runner does when the capture file can be opened: the
    output of the cell is in the file that was opened. *)
Lemma run_and_capture_effect cell w f1 out st m :
  open_out (capture_path cell) (files w) = Some f1 ->
  runme host cell NOTEBOOK (mkMachine f1 (ext (machine w))) = (out, st, m) ->
  files (run_and_capture host cell w).2
  = through (leaves_capture host cell NOTEBOOK (mkMachine f1 (ext (machine w))))
            (capture_path cell) out (fs m)
  /\ journal (run_and_capture host cell w).2
     = journal w ++ [RanCell cell (Some (out, st))].
Proof.
  intros Hopen Hrun.
  unfold run_and_capture, seq, bind, echo, or_true, runme_captured, files.
  cbn [fst snd machine]. change (fs (machine w)) with (files w).
  rewrite Hopen. cbn zeta. by rewrite Hrun.
Qed.

(** C2. The step runner returns normally whatever status the cell ends
    with.  When the shell can open the capture file, the cell is started
    on the machine with that file opened empty, and its merged output, as
    [runme] returns it, goes to the opened file: for a cell that leaves
    this file alone the runner adds to what the cell did exactly the file
    [<cell-name>.txt] in the output directory, holding that output as it
    is, whatever the file held before; for a cell that removes, replaces
    or writes its own capture file the path holds what the cell left
    there. *)
Theorem run_and_capture_captures cell w :
  (run_and_capture host cell w).1 = Done tt
  /\ forall f1 out st m,
       open_out (capture_path cell) (files w) = Some f1 ->
       runme host cell NOTEBOOK (mkMachine f1 (ext (machine w))) = (out, st, m) ->
       f1 = <[capture_path cell := File EmptyString]> (files w)
       /\ (leaves_capture host cell NOTEBOOK (mkMachine f1 (ext (machine w))) = true ->
           files (run_and_capture host cell w).2
           = <[capture_path cell := File out]> (fs m))
       /\ (leaves_capture host cell NOTEBOOK (mkMachine f1 (ext (machine w))) = false ->
           files (run_and_capture host cell w).2 = fs m)
       /\ ext (machine (run_and_capture host cell w).2) = ext m
       /\ journal (run_and_capture host cell w).2
          = journal w ++ [RanCell cell (Some (out, st))].
Proof.
  split; [apply run_and_capture_returns|].
  intros f1 out st m Hopen Hrun.
  destruct (run_and_capture_effect cell w f1 out st m Hopen Hrun) as [Hfiles Hj].
  split; [by apply open_out_lookup|].
  split; [|split; [|split; [|exact Hj]]].
  - intros Hkeep. by rewrite Hfiles, Hkeep.
  - intros Hkeep. by rewrite Hfiles, Hkeep.
  - unfold run_and_capture, seq, bind, echo, or_true, runme_captured, files.
    cbn [fst snd machine]. change (fs (machine w)) with (files w).
    rewrite Hopen. cbn zeta. by rewrite Hrun.
Qed.

(** When the capture file cannot be opened, the cell is not run. *)
Lemma run_and_capture_unopened cell w :
  open_out (capture_path cell) (files w) = None ->
  files (run_and_capture host cell w).2 = files w
  /\ journal (run_and_capture host cell w).2 = journal w ++ [RanCell cell None].
Proof.
  intros Hopen.
  unfold run_and_capture, seq, bind, echo, or_true, runme_captured, files.
  cbn [fst snd machine]. change (fs (machine w)) with (files w).
  by rewrite Hopen.
Qed.

Lemma substitution_unknown :
  substitution ("unknown" +:+ String nl EmptyString) = "unknown".
Proof. by vm_compute. Qed.

Lemma unlines_not_empty l ls : unlines (l :: ls) <> EmptyString.
Proof. cbn. by destruct l. Qed.

(** What the environment recorder does when its file can be opened. *)
Lemma capture_environment_effect w f1 :
  open_out environment_path (files w) = Some f1 ->
  capture_environment host w
  = (Done tt,
     note RecordedEnv
       (set_files
          (<[environment_path :=
               File (environment_text host (mkMachine f1 (ext (machine w)))).1]>
             (files w)) w)).
Proof.
  intros Hopen.
  unfold capture_environment, seq, bind, entered, run, redirected.
  cbn [fst snd]. change (files (note RecordedEnv w)) with (files w).
  rewrite Hopen. cbn [environment_text]. cbn [Z.eqb].
  by rewrite (open_out_store _ _ _ _ Hopen).
Qed.

(** C7. When the shell can open [environment.txt], the environment
    recorder succeeds whatever the tools answer, and the file holds the
    five lines date, node, npm, os and package, each as key, colon, space,
    value.  When [node] fails to resolve the package without printing
    anything, the value after [package:] is [unknown]. *)
Theorem capture_environment_records w f1 :
  open_out environment_path (files w) = Some f1 ->
  let m := mkMachine f1 (ext (machine w)) in
  exists text,
    capture_environment host w
    = (Done tt, note RecordedEnv
                     (set_files (<[environment_path := File text]> (files w)) w))
    /\ text <> EmptyString
    /\ text = unlines
         [ "date: " +:+ substitution (date_utc host m).1;
           "node: " +:+ substitution (node_version host m).1;
           "npm: " +:+ substitution (npm_version host m).1;
           "os: " +:+ substitution (uname_s host m).1 +:+ " "
                  +:+ substitution (uname_r host m).1;
           "package: " +:+ package_version host m ]
    /\ (forall st, node_package_version host m = (EmptyString, st) -> st <> 0 ->
                   package_version host m = "unknown").
Proof.
  intros Hopen m. eexists. split; [|split; [|split]].
  - by apply capture_environment_effect.
  - apply unlines_not_empty.
  - reflexivity.
  - intros st Hnode Hst. unfold package_version. rewrite Hnode.
    destruct (Z.eqb_spec st 0); [done|]. apply substitution_unknown.
Qed.

End RunnerFacts.

Lemma open_out_fresh p (f : Files.FS) :
  Files.is_dir f (Files.parent p) = true -> Files.is_dir f p = false ->
  Files.open_out p f = Some (<[p := Files.File ""]> f).
Proof. unfold Files.open_out. by intros -> ->. Qed.

Lemma outcome_Done {W} (x : Pipeline.outcome unit * W) :
  x.1 = Pipeline.Done tt -> x = (Pipeline.Done tt, x.2).
Proof. destruct x as [[[]|code] w]; by intros [=]. Qed.

Lemma run_and_capture_captures_witness :
  Files.open_out (Pipeline.capture_path "lint-patterns") Samples.project
  = Some (<[Pipeline.capture_path "lint-patterns" := Files.File ""]> Samples.project)
  /\ Pipeline.leaves_capture Samples.tutorial "lint-patterns" Pipeline.NOTEBOOK
       (Pipeline.mkMachine
          (<[Pipeline.capture_path "lint-patterns" := Files.File ""]> Samples.project) tt)
     = true
  /\ Pipeline.files
       (Pipeline.run_and_capture Samples.tutorial "lint-patterns"
          (Samples.start Samples.project)).2
     !! "scripts/outputs/lint-patterns.txt"
     = Some (Files.File ("1 error" +:+ String Files.nl "")).
Proof.
  assert (H1 : Files.open_out (Pipeline.capture_path "lint-patterns")
                 (Pipeline.files (Samples.start Samples.project))
    = Some (<[Pipeline.capture_path "lint-patterns" := Files.File ""]> Samples.project))
    by (apply open_out_fresh; vm_compute; reflexivity).
  assert (H2 : Pipeline.leaves_capture Samples.tutorial "lint-patterns" Pipeline.NOTEBOOK
       (Pipeline.mkMachine
          (<[Pipeline.capture_path "lint-patterns" := Files.File ""]> Samples.project)
          (Pipeline.ext (Pipeline.machine (Samples.start Samples.project))))
     = true) by (vm_compute; reflexivity).
  split; [exact H1|]. split; [exact H2|].
  rewrite (proj1 (proj2 (proj2 (run_and_capture_captures Samples.tutorial
                   "lint-patterns" (Samples.start Samples.project)) _ _ _ _ H1 eq_refl))
             H2).
  apply lookup_insert_eq.
Defined.

Lemma capture_environment_records_witness :
  Files.open_out Pipeline.environment_path Samples.project
  = Some (<[Pipeline.environment_path := Files.File ""]> Samples.project)
  /\ exists text,
       Pipeline.files (Pipeline.capture_environment Samples.tutorial
                         (Samples.start Samples.project)).2
       !! "scripts/outputs/environment.txt" = Some (Files.File text)
       /\ Files.lines text
          = [ "date: 2026-02-21"; "node: v22.17.1"; "npm: 11.6.1";
              "os: Darwin 25.2.0"; "package: unknown" ].
Proof.
  assert (H1 : Files.open_out Pipeline.environment_path Samples.project
    = Some (<[Pipeline.environment_path := Files.File ""]> Samples.project))
    by (vm_compute; reflexivity).
  split; [exact H1|].
  destruct (capture_environment_records Samples.tutorial
              (Samples.start Samples.project) _ H1) as (text & Hrun & _ & Htext & _).
  exists text. rewrite Hrun. split.
  - apply lookup_insert_eq.
  - rewrite Htext. vm_compute. reflexivity.
Defined.

(** ** The pipeline: snapshot capturer *)

Section Frames.
Import Files Pipeline.
Context {Ext : Type}.
Variable R : FS -> FS -> Prop.
Hypothesis R_refl : forall f, R f f.
Hypothesis R_trans : forall f1 f2 f3, R f1 f2 -> R f2 f3 -> R f1 f3.
Implicit Types (w : World Ext) (f : FS) (c k : Sh (Ext := Ext) unit).

Lemma changed_only_refl w : changed_only R w w.
Proof. split; [apply R_refl|done]. Qed.

Lemma changed_only_trans w1 w2 w3 :
  changed_only R w1 w2 -> changed_only R w2 w3 -> changed_only R w1 w3.
Proof.
  intros (Hf & He & Hc & Hj) (Hf' & He' & Hc' & Hj').
  split; [by eapply R_trans|]. by rewrite He', Hc', Hj'.
Qed.

Lemma quiet_result c w o w1 :
  quiet R c -> c w = (o, w1) -> changed_only R w w1.
Proof. intros Hq E. specialize (Hq w). by rewrite E in Hq. Qed.

Lemma quiet_seq c k : quiet R c -> quiet R k -> quiet R (seq c k).
Proof.
  intros Hc Hk w. rewrite seq_unfold. specialize (Hc w).
  destruct (c w) as [[[]|code] w1]; [|exact Hc].
  eapply changed_only_trans; [exact Hc|apply Hk].
Qed.

Lemma quiet_run (c : Cmd (Ext := Ext)) : quiet_cmd R c -> quiet R (run c).
Proof.
  intros Hc w. unfold run. specialize (Hc w).
  destruct (c w) as [st w1]. by destruct (st =? 0).
Qed.

Lemma quiet_and_then (t c : Cmd (Ext := Ext)) :
  quiet_cmd R t -> quiet_cmd R c -> quiet R (and_then t c).
Proof.
  intros Ht Hc w. unfold and_then. specialize (Ht w).
  destruct (t w) as [st w1]. destruct (st =? 0); [|exact Ht].
  eapply changed_only_trans; [exact Ht|]. by apply quiet_run.
Qed.

Lemma quiet_if_then (t : Cmd (Ext := Ext)) c :
  quiet_cmd R t -> quiet R c -> quiet R (if_then t c).
Proof.
  intros Ht Hc w. unfold if_then. specialize (Ht w).
  destruct (t w) as [st w1]. destruct (st =? 0); [|exact Ht].
  eapply changed_only_trans; [exact Ht|apply Hc].
Qed.

Lemma quiet_test_d p : quiet_cmd (Ext := Ext) R (test_d p).
Proof. intros w. apply changed_only_refl. Qed.

Lemma quiet_test_f p : quiet_cmd (Ext := Ext) R (test_f p).
Proof. intros w. apply changed_only_refl. Qed.

Lemma quiet_on_files (g : FS -> Z * FS) :
  (forall f, R f (g f).2) -> quiet_cmd (Ext := Ext) R (on_files g).
Proof.
  intros Hg w. unfold on_files. specialize (Hg (files w)).
  destruct (g (files w)) as [st f']. split; [exact Hg|done].
Qed.

Lemma quiet_redirected p producer :
  (forall f body, R f (<[p := File body]> f)) ->
  quiet_cmd (Ext := Ext) R (redirected p producer).
Proof.
  intros Hp w. unfold redirected.
  destruct (open_out p (files w)) as [f1|] eqn:Hopen; [|apply changed_only_refl].
  destruct (producer _) as [out st]. cbn [snd].
  split; [|done]. change (files (set_files ?f w)) with f.
  rewrite (open_out_store _ _ _ _ Hopen). apply Hp.
Qed.

(** What [R] has to allow for a snapshot to stay within it. *)
Lemma quiet_snapshot_copies label :
  (forall f, R f (mkdir_p (snapshot_dir label) f).2) ->
  (forall x f, R f (cp_r x (snapshot_dir label +:+ String slash x) f).2) ->
  (forall x f, R f (cp_file x (snapshot_dir label) f).2) ->
  quiet (Ext := Ext) R (snapshot_copies label).
Proof.
  intros Hmk Hcpr Hcp. unfold snapshot_copies.
  repeat first
    [ apply quiet_seq
    | apply quiet_if_then
    | apply quiet_and_then
    | apply quiet_test_d
    | apply quiet_test_f
    | apply quiet_run ];
    first [ by apply quiet_on_files
          | apply quiet_on_files, Hcpr
          | apply quiet_on_files, Hcp ].
Qed.

Lemma quiet_snapshot_commands label :
  (forall f, R f (mkdir_p (snapshot_dir label) f).2) ->
  (forall x f, R f (cp_r x (snapshot_dir label +:+ String slash x) f).2) ->
  (forall x f, R f (cp_file x (snapshot_dir label) f).2) ->
  (forall f body, R f (<[tree_path label := File body]> f)) ->
  quiet (Ext := Ext) R (snapshot_commands label).
Proof.
  intros Hmk Hcpr Hcp Htree. unfold snapshot_commands.
  apply quiet_seq; [by apply quiet_snapshot_copies|].
  by apply quiet_run, quiet_redirected.
Qed.

End Frames.

Section SnapshotFacts.
Import Files Pipeline.
Context {Ext : Type}.
Implicit Types (w : World Ext) (f : FS) (c k : Sh (Ext := Ext) unit).

Lemma snapshot_files_unfold label w :
  snapshot_files label w = snapshot_commands label (note (TookSnapshot label) w).
Proof. reflexivity. Qed.

Lemma within_tree_path label : within (snapshot_dir label) (tree_path label) = true.
Proof.
  unfold tree_path.
  change (snapshot_dir label +:+ "/tree.txt")
    with (snapshot_dir label +:+ String slash "tree.txt").
  apply within_below.
Qed.

(** The copies of a snapshot leave the files outside its directory as
    they are, and keep the directories. *)
Lemma snapshot_copies_outside label :
  quiet (Ext := Ext) (same_files (outside (snapshot_dir label))) (snapshot_copies label).
Proof.
  apply quiet_snapshot_copies.
  - apply same_files_refl.
  - apply same_files_trans.
  - intros f. apply mkdir_p_files.
  - intros x f. apply same_files_lookup. intros q Hq. apply cp_r_lookup.
    apply negb_true_iff in Hq.
    destruct (within (snapshot_dir label +:+ String slash x) q) eqn:E; [|done].
    apply within_deeper in E. congruence.
  - intros x f. apply cp_file_files.
Qed.

Lemma snapshot_commands_outside label :
  quiet (Ext := Ext) (same_files (outside (snapshot_dir label)))
        (snapshot_commands label).
Proof.
  apply quiet_seq; [apply same_files_trans|apply snapshot_copies_outside|].
  apply quiet_run, quiet_redirected; [apply same_files_refl|].
  intros f body. apply same_files_insert. unfold outside.
  by rewrite within_tree_path.
Qed.

(** Away from its directory and from the directories on the way to it, a
    snapshot changes nothing at all. *)
Lemma snapshot_commands_apart label :
  quiet (Ext := Ext) (unchanged_at (apart (snapshot_dir label)))
        (snapshot_commands label).
Proof.
  apply quiet_snapshot_commands.
  - apply unchanged_at_refl.
  - apply unchanged_at_trans.
  - intros f. apply mkdir_p_apart.
  - intros x f q Hq. apply cp_r_lookup. by apply apart_deeper.
  - intros x f q Hq. apply cp_file_lookup. by apply apart_outside.
  - intros f body q Hq. rewrite lookup_insert_ne; [done|]. intros <-.
    apply apart_outside in Hq. by rewrite within_tree_path in Hq.
Qed.

Lemma run_exits_nonzero (c : Cmd (Ext := Ext)) : exits_nonzero (run c).
Proof.
  intros w code w'. unfold run. destruct (c w) as [st w1].
  destruct (Z.eqb_spec st 0); [done|]. by intros [= <- _].
Qed.

Lemma and_then_exits_nonzero (t c : Cmd (Ext := Ext)) : exits_nonzero (and_then t c).
Proof.
  intros w code w'. unfold and_then. destruct (t w) as [st w1].
  destruct (st =? 0); [apply run_exits_nonzero|done].
Qed.

Lemma if_then_exits_nonzero (t : Cmd (Ext := Ext)) c :
  exits_nonzero c -> exits_nonzero (if_then t c).
Proof.
  intros Hc w code w'. unfold if_then. destruct (t w) as [st w1].
  destruct (st =? 0); [apply Hc|done].
Qed.

Lemma seq_exits_nonzero c k :
  exits_nonzero c -> exits_nonzero k -> exits_nonzero (seq c k).
Proof.
  intros Hc Hk w code w'. rewrite seq_unfold.
  destruct (c w) as [[[]|code1] w1] eqn:E; [apply Hk|].
  intros [= <- _]. eauto.
Qed.

Lemma echo_exits_nonzero text : exits_nonzero (Ext := Ext) (echo text).
Proof. by intros w code w'. Qed.

Lemma snapshot_files_exits_nonzero label :
  exits_nonzero (Ext := Ext) (snapshot_files label).
Proof.
  unfold snapshot_files, snapshot_commands, snapshot_copies.
  apply seq_exits_nonzero; [by intros w code w'|].
  repeat first
    [ apply seq_exits_nonzero
    | apply run_exits_nonzero
    | apply and_then_exits_nonzero
    | apply if_then_exits_nonzero ].
Qed.

(** If the rest of a list is bound to exit while [P] holds, and the first
    command keeps [P], then the list is bound to exit. *)
Lemma seq_bound_to_exit (R : FS -> FS -> Prop) (P : World Ext -> Prop) c k :
  quiet R c -> exits_nonzero c ->
  (forall w w', changed_only R w w' -> P w -> P w') ->
  (forall w, P w -> exists code w', k w = (Exit code, w') /\ code <> 0) ->
  forall w, P w -> exists code w', seq c k w = (Exit code, w') /\ code <> 0.
Proof.
  intros Hq Hc HP Hk w Hw. rewrite seq_unfold.
  specialize (Hq w). destruct (c w) as [[[]|code] w1] eqn:E.
  - apply Hk. eapply HP; [exact Hq|exact Hw].
  - exists code, w1. split; [done|]. eapply Hc, E.
Qed.

Lemma no_manifest_kept label w w' :
  changed_only (same_files (outside (snapshot_dir label))) w w' ->
  no_manifest w -> no_manifest w'.
Proof.
  intros [Hf _]. unfold no_manifest.
  rewrite (same_files_is_file _ _ _ "package.json" Hf); [done|].
  by vm_compute.
Qed.

Lemma quiet_cp_r_into label x :
  quiet (Ext := Ext) (same_files (outside (snapshot_dir label)))
        (run (on_files (cp_r x (snapshot_dir label +:+ String slash x)))).
Proof.
  apply quiet_run, quiet_on_files. intros f.
  apply same_files_lookup. intros q Hq. apply cp_r_lookup.
  apply negb_true_iff in Hq.
  destruct (within (snapshot_dir label +:+ String slash x) q) eqn:E; [|done].
  apply within_deeper in E. congruence.
Qed.

Lemma quiet_cp_file_into label x :
  quiet_cmd (Ext := Ext) (same_files (outside (snapshot_dir label)))
            (on_files (cp_file x (snapshot_dir label))).
Proof. apply quiet_on_files. intros f. apply cp_file_files. Qed.

(** C3, at the manifest.  [snapshot_files] tests for the source tree,
    the two configuration files and the generated-docs tree before it
    copies them, but copies [package.json] untested: without a manifest
    the snapshot does not complete, and the script exits with a status
    other than 0. *)
Theorem snapshot_files_needs_manifest label w :
  is_file (files w) "package.json" = false ->
  exists code w', snapshot_files label w = (Exit code, w') /\ code <> 0.
Proof.
  intros Hw. rewrite snapshot_files_unfold.
  assert (H0 : no_manifest (note (TookSnapshot label) w)) by exact Hw.
  revert H0. generalize (note (TookSnapshot label) w). clear w Hw.
  intros w Hw. unfold snapshot_commands.
  cut (exists code w', snapshot_copies label w = (Exit code, w') /\ code <> 0).
  { intros (code & w' & E & Hcode). exists code, w'.
    split; [by apply seq_Exit|done]. }
  revert w Hw. unfold snapshot_copies.
  set (R := same_files (outside (snapshot_dir label))).
  assert (Hrefl : forall f, R f f) by apply same_files_refl.
  assert (Htrans : forall f1 f2 f3, R f1 f2 -> R f2 f3 -> R f1 f3)
    by apply same_files_trans.
  apply (seq_bound_to_exit R);
    [apply quiet_run, quiet_on_files; intros f; apply mkdir_p_files
    |apply run_exits_nonzero|apply no_manifest_kept|].
  apply (seq_bound_to_exit R);
    [apply quiet_if_then; [exact Htrans|by apply quiet_test_d|apply quiet_cp_r_into]
    |apply if_then_exits_nonzero, run_exits_nonzero|apply no_manifest_kept|].
  apply (seq_bound_to_exit R);
    [apply quiet_and_then; [exact Htrans|by apply quiet_test_f|apply quiet_cp_file_into]
    |apply and_then_exits_nonzero|apply no_manifest_kept|].
  apply (seq_bound_to_exit R);
    [apply quiet_and_then; [exact Htrans|by apply quiet_test_f|apply quiet_cp_file_into]
    |apply and_then_exits_nonzero|apply no_manifest_kept|].
  intros w Hw. exists 1, w. split; [|done].
  apply seq_Exit. unfold run, on_files, cp_file.
  unfold no_manifest, is_file in Hw.
  destruct (files w !! "package.json") as [[c|]|]; try done.
  all: by destruct w as [[] ? ?].
Qed.

(** A tree that is not there is skipped, and so is a file. *)
Lemma missing_tree_is_skipped p c w :
  is_dir (files w) p = false -> if_then (test_d p) c w = (Done tt, w).
Proof. intros H. unfold if_then, test_d. by rewrite H. Qed.

Lemma missing_file_is_skipped p (c : Cmd (Ext := Ext)) w :
  is_file (files w) p = false -> and_then (test_f p) c w = (Done tt, w).
Proof. intros H. unfold and_then, test_f. by rewrite H. Qed.

End SnapshotFacts.

Lemma snapshot_files_needs_manifest_witness :
  Files.is_file Samples.project_without_manifest "package.json" = false
  /\ (Pipeline.main Samples.without_runme
        (Pipeline.boot (Pipeline.mkMachine Samples.project_without_manifest tt))).1
     = Pipeline.Exit 1
  /\ exists code w',
       Pipeline.snapshot_files "00-setup" (Samples.start Samples.project_without_manifest)
       = (Pipeline.Exit code, w') /\ code <> 0.
Proof.
  split; [vm_compute; reflexivity|]. split; [vm_compute; reflexivity|].
  apply (snapshot_files_needs_manifest "00-setup"
           (Samples.start Samples.project_without_manifest)).
  vm_compute. reflexivity.
Defined.

(** ** The pipeline: the tree listing *)

Section TreeFacts.
Import Files Pipeline.
Context {Ext : Type}.
Implicit Types (w : World Ext) (f : FS) (l p : string) (ls : list string).

Lemma split_line l : forall rest,
  one_line l -> lines (l +:+ String nl rest) = l :: lines rest.
Proof.
  unfold lines, one_line. induction l as [|a l IH]; intros rest Hl.
  - rewrite append_empty_l. cbn. by rewrite Ascii.eqb_refl.
  - rewrite append_cons. cbn in *.
    apply orb_false_iff in Hl as [Ha Hl]. rewrite Ha.
    by rewrite (IH rest Hl).
Qed.

(** Reading back lines that were written one per line. *)
Lemma lines_unlines ls : Forall one_line ls -> lines (unlines ls) = ls.
Proof.
  induction 1 as [|l ls Hl _ IH]; [done|].
  cbn [unlines]. by rewrite split_line, IH.
Qed.

Lemma elem_of_file_paths f l :
  l ∈ file_paths f <-> exists p c, f !! p = Some (File c) /\ l = "./" +:+ p.
Proof.
  unfold file_paths. rewrite list_elem_of_omap. split.
  - intros ([p [c|]] & Hin & Hl); cbn in Hl; [|done].
    injection Hl as <-. apply elem_of_map_to_list in Hin. eauto.
  - intros (p & c & Hp & ->). exists (p, File c).
    split; [by apply elem_of_map_to_list|done].
Qed.

Lemma one_line_path p : one_line p -> one_line ("./" +:+ p).
Proof. unfold one_line. intros H. cbn. exact H. Qed.

(** Whatever lies in a snapshot directory is left out of the listing. *)
Lemma snapshot_is_excluded label p :
  within (snapshot_dir label) p = true -> excluded ("./" +:+ p) = true.
Proof.
  unfold within. destruct (strip_prefix (snapshot_dir label) p) as [r|] eqn:E; [|done].
  intros _. apply strip_prefix_Some in E. subst p. by vm_compute.
Qed.

(** A snapshot that completes ends with the listing of the files that
    were there when it started. *)
Lemma snapshot_files_listing label w w' :
  snapshot_files label w = (Done tt, w') ->
  exists f1,
    same_files (outside (snapshot_dir label)) (files w) f1
    /\ files w' !! tree_path label = Some (File (sort (find_project f1))).
Proof.
  rewrite snapshot_files_unfold. unfold snapshot_commands.
  set (keep := outside (snapshot_dir label)).
  intros H. apply seq_inv_Done in H as (w6 & E & H).
  assert (Hq : same_files keep (files w) (files w6)).
  { change (files w) with (files (note (TookSnapshot label) w)).
    eapply (quiet_result (same_files keep)), E. apply snapshot_copies_outside. }
  unfold run, redirected in H.
  destruct (open_out (tree_path label) (files w6)) as [f1|] eqn:Hopen; [|done].
  cbn in H. injection H as <-.
  exists f1. split.
  - eapply same_files_trans; [exact Hq|].
    rewrite (open_out_lookup _ _ _ Hopen).
    apply same_files_insert. unfold keep, outside.
    by rewrite within_tree_path.
  - change (files (set_files ?f w6)) with f.
    rewrite (open_out_store _ _ _ _ Hopen). apply lookup_insert_eq.
Qed.

(** The lines [find] prints for [f1] are those of the files present
    before the snapshot. *)
Lemma listed_before label f f1 l :
  same_files (outside (snapshot_dir label)) f f1 ->
  (l ∈ file_paths f1 /\ excluded l = false)
  <-> (exists p c, f !! p = Some (File c) /\ l = "./" +:+ p /\ excluded l = false).
Proof.
  intros Hsame. rewrite elem_of_file_paths. split.
  - intros [(p & c & Hp & ->) Hex]. exists p, c. split; [|done].
    apply (Hsame p); [|done]. unfold outside.
    destruct (within (snapshot_dir label) p) eqn:E; [|done].
    apply snapshot_is_excluded in E. congruence.
  - intros (p & c & Hp & -> & Hex). split; [|done]. exists p, c. split; [|done].
    apply (Hsame p); [|done]. unfold outside.
    destruct (within (snapshot_dir label) p) eqn:E; [|done].
    apply snapshot_is_excluded in E. congruence.
Qed.

(** C5. When file names hold no line break, the [tree.txt] of a snapshot
    that completes lists, one per line, the files that were in the project
    when the snapshot started and are not in a housekeeping directory; the
    lines are in ascending byte order and none of them starts with the
    path of a housekeeping directory. *)
Theorem tree_listing_sorted label w w' :
  snapshot_files label w = (Done tt, w') ->
  (forall p c, files w !! p = Some (File c) -> has_char nl p = false) ->
  exists text,
    files w' !! tree_path label = Some (File text)
    /\ text = unlines (lines text)
    /\ Sorted String.le (lines text)
    /\ Forall (fun l => excluded l = false) (lines text)
    /\ (forall l, l ∈ lines text <->
                  exists p c, files w !! p = Some (File c)
                              /\ l = "./" +:+ p /\ excluded l = false).
Proof.
  intros Hrun Hnames.
  destruct (snapshot_files_listing label w w' Hrun) as (f1 & Hsame & Htree).
  set (found := List.filter (fun l => negb (excluded l)) (file_paths f1)).
  assert (Hfound : forall l, l ∈ found <->
            exists p c, files w !! p = Some (File c)
                        /\ l = "./" +:+ p /\ excluded l = false).
  { intros l. rewrite <- (listed_before label _ _ _ Hsame).
    unfold found. rewrite list_elem_of_In, filter_In, <- list_elem_of_In.
    by rewrite negb_true_iff. }
  assert (Hone : Forall one_line found).
  { apply Forall_forall. intros l (p & c & Hp & -> & _)%Hfound.
    apply one_line_path. eapply Hnames, Hp. }
  assert (Hsorted : lines (sort (find_project f1)) = merge_sort String.le found).
  { unfold sort, find_project. fold found. rewrite (lines_unlines found Hone).
    apply lines_unlines. by rewrite merge_sort_Permutation. }
  exists (sort (find_project f1)). split; [exact Htree|].
  rewrite Hsorted. split; [|split; [|split]].
  - unfold sort, find_project. fold found. by rewrite (lines_unlines found Hone).
  - apply (Sorted_merge_sort String.le).
  - rewrite merge_sort_Permutation. apply Forall_forall.
    intros l (p & c & _ & _ & Hex)%Hfound. exact Hex.
  - intros l. rewrite merge_sort_Permutation. apply Hfound.
Qed.

End TreeFacts.

Lemma tree_listing_sorted_witness :
  (Pipeline.snapshot_files "00-setup" (Samples.start Samples.project)).1
  = Pipeline.Done tt
  /\ Pipeline.files (Pipeline.snapshot_files "00-setup" (Samples.start Samples.project)).2
       !! Pipeline.tree_path "00-setup"
     = Some (Files.File (Files.unlines
         [ "./TUTORIAL-RUNME.md"; "./package.json";
           "./scripts/generate-article-outputs.sh"; "./src/old.ts";
           "./tsconfig.json" ]))
  /\ exists text,
       Pipeline.files
         (Pipeline.snapshot_files "00-setup" (Samples.start Samples.project)).2
         !! Pipeline.tree_path "00-setup" = Some (Files.File text)
       /\ Sorted String.le (Files.lines text).
Proof.
  split; [vm_compute; reflexivity|]. split; [vm_compute; reflexivity|].
  destruct (tree_listing_sorted "00-setup" (Samples.start Samples.project)
              (Pipeline.snapshot_files "00-setup" (Samples.start Samples.project)).2)
    as (text & Htext & _ & Hsorted & _).
  - vm_compute. reflexivity.
  - intros p c Hp. apply elem_of_list_to_map_2 in Hp.
    repeat (apply elem_of_cons in Hp as [Hp|Hp]; [by injection Hp as -> _|]).
    by apply elem_of_nil in Hp.
  - exists text. split; [exact Htext|exact Hsorted].
Defined.

(** ** The pipeline: order of the steps and exit status *)

Section OrderFacts.
Import Files Pipeline.
Context {Ext : Type}.
Variable host : Host Ext.
Implicit Types (w : World Ext) (l : Line) (ls : list Line).

Lemma capture_environment_journal w :
  journal (capture_environment host w).2 = journal w ++ [RecordedEnv].
Proof.
  unfold capture_environment. rewrite seq_unfold. cbn [entered].
  set (w1 := note RecordedEnv w).
  assert (Hq : quiet (Ext := Ext) (fun _ _ => True)
                 (run (redirected environment_path (environment_text host)))).
  { apply quiet_run, quiet_redirected; done. }
  destruct (Hq w1) as (_ & _ & _ & ->). done.
Qed.

Lemma snapshot_files_journal label w :
  journal (snapshot_files label w).2 = journal w ++ [TookSnapshot label].
Proof.
  rewrite snapshot_files_unfold.
  destruct (snapshot_commands_outside label (note (TookSnapshot label) w))
    as (_ & _ & _ & ->). done.
Qed.

Lemma run_and_capture_journal cell w :
  exists r, journal (run_and_capture host cell w).2 = journal w ++ [RanCell cell r].
Proof.
  destruct (open_out (capture_path cell) (files w)) as [f1|] eqn:Hopen.
  - destruct (runme host cell NOTEBOOK (mkMachine f1 (ext (machine w))))
      as [[out st] m] eqn:Hrun.
    exists (Some (out, st)).
    unfold run_and_capture, seq, bind, echo, or_true, runme_captured, files.
    cbn [fst snd machine]. change (fs (machine w)) with (files w).
    by rewrite Hopen, Hrun.
  - exists None. by apply run_and_capture_unopened.
Qed.

Lemma exec_line_trace l w :
  trace (exec_line host l w).2 = trace w ++ steps [l].
Proof.
  unfold trace. destruct l as [text|cell| |label]; cbn [exec_line].
  - cbn. by rewrite app_nil_r.
  - destruct (run_and_capture_journal cell w) as [r ->].
    by rewrite map_app.
  - rewrite capture_environment_journal. by rewrite map_app.
  - rewrite snapshot_files_journal. by rewrite map_app.
Qed.

Lemma steps_cons l ls : steps (l :: ls) = steps [l] ++ steps ls.
Proof. unfold steps. cbn. by destruct (is_step l). Qed.

(** The journal grows by the steps of the lines that were reached. *)
Lemma exec_trace ls : forall w,
  exists reached rest,
    ls = reached ++ rest
    /\ trace (exec host ls w).2 = trace w ++ steps reached
    /\ ((exec host ls w).1 = Done tt -> rest = []).
Proof.
  induction ls as [|l ls IH]; intros w.
  - exists [], []. cbn. by rewrite app_nil_r.
  - cbn [exec]. rewrite seq_unfold.
    pose proof (exec_line_trace l w) as Hl.
    destruct (exec_line host l w) as [[[]|code] w1].
    + destruct (IH w1) as (reached & rest & -> & Htr & Hdone).
      exists (l :: reached), rest. split; [done|]. split; [|done].
      cbn [snd] in Hl. rewrite Htr, Hl, (steps_cons l reached). by rewrite app_assoc.
    + exists [l], ls. split; [done|]. by split.
Qed.

Lemma prologue_journal w : journal (prologue host w).2 = journal w.
Proof.
  unfold prologue, seq, bind, run, on_files, rm_rf, echo. cbn.
  destruct (mkdir_p _ _) as [st f']. by destruct (st =? 0).
Qed.

Lemma summary_journal w : journal (summary w).2 = journal w.
Proof.
  unfold summary, seq, bind, run, count_matches, echo. cbn.
  repeat (case_bool_decide; cbn); done.
Qed.

Lemma main_unfold w :
  main host w
  = match prologue host w with
    | (Done _, w0) =>
        match exec host script w0 with
        | (Done _, w1) => summary w1
        | (Exit code, w1) => (Exit code, w1)
        end
    | (Exit code, w0) => (Exit code, w0)
    end.
Proof.
  unfold main. rewrite seq_unfold.
  destruct (prologue host w) as [[[]|code] w0]; [|done].
  by rewrite seq_unfold.
Qed.

Lemma steps_script : steps script = fixed_order.
Proof. by vm_compute. Qed.

(** The journal of a run grows by the steps of the script that were
    reached, which are all of them when the run completes. *)
Lemma main_trace w :
  exists reached rest,
    script = reached ++ rest
    /\ trace (main host w).2 = trace w ++ steps reached
    /\ ((main host w).1 = Done tt -> rest = []).
Proof.
  rewrite main_unfold.
  pose proof (prologue_journal w) as Hp.
  destruct (prologue host w) as [[[]|code] w0]; cbn [snd] in Hp.
  - destruct (exec_trace script w0) as (reached & rest & Hs & Htr & Hdone).
    exists reached, rest. split; [done|].
    assert (Hw0 : trace w0 = trace w) by (unfold trace; by rewrite Hp).
    rewrite Hw0 in Htr.
    destruct (exec host script w0) as [[[]|code] w1]; cbn [fst snd] in *.
    + split; [|intros _; by apply Hdone].
      unfold trace in *. by rewrite summary_journal.
    + by split.
  - exists [], script. split; [done|]. cbn [fst snd]. split; [|done].
    unfold trace. by rewrite Hp, app_nil_r.
Qed.

(** C4, as the script has it.  In every run the helpers are entered in
    the order [reset-workspace], [install-deps], environment recorder,
    snapshot [00-setup], and then for each of the ten parts its cells in
    sequence followed by its snapshot: a run that stops early has gone
    through a first stretch of this order, a run that completes through
    all of it. *)
Theorem pipeline_order (m : Machine Ext) :
  (exists later, fixed_order = trace (main host (boot m)).2 ++ later)
  /\ ((main host (boot m)).1 = Done tt ->
      trace (main host (boot m)).2 = fixed_order).
Proof.
  destruct (main_trace (boot m)) as (reached & rest & Hs & Htr & Hdone).
  change (trace (boot m)) with (@nil Line) in Htr. rewrite app_nil_l in Htr.
  assert (Hfix : fixed_order = steps reached ++ steps rest).
  { rewrite <- steps_script, Hs. unfold steps. apply List.filter_app. }
  rewrite Htr. split; [by exists (steps rest)|].
  intros Hd. rewrite (Hdone Hd), app_nil_r in Hfix. done.
Qed.

End OrderFacts.

(** C4, as the specification words it, fails: the complete run of the
    tutorial notebook enters [install-deps] between the reset and the
    environment recorder. *)
Lemma claimed_order_fails :
  (Pipeline.main Samples.tutorial (Pipeline.boot (Pipeline.mkMachine Samples.project tt))).1
  = Pipeline.Done tt
  /\ nth_error (Pipeline.trace (Pipeline.main Samples.tutorial
        (Pipeline.boot (Pipeline.mkMachine Samples.project tt))).2) 1
     = Some (Pipeline.Cell "install-deps")
  /\ ~ Pipeline.claimed_order (Pipeline.trace (Pipeline.main Samples.tutorial
        (Pipeline.boot (Pipeline.mkMachine Samples.project tt))).2).
Proof.
  split; [vm_compute; reflexivity|].
  assert (Htr : Pipeline.trace (Pipeline.main Samples.tutorial
      (Pipeline.boot (Pipeline.mkMachine Samples.project tt))).2
      = Pipeline.fixed_order) by (vm_compute; reflexivity).
  rewrite Htr. split; [reflexivity|].
  intros [ps Hps]. discriminate Hps.
Qed.

(** ** The pipeline: exit status *)

Section ExitFacts.
Import Files Pipeline.
Context {Ext : Type}.
Variable host : Host Ext.
Implicit Types (w : World Ext) (l : Line) (ls : list Line).

Lemma mask_files w : files (mask w) = files w.
Proof. reflexivity. Qed.

Lemma blind_seq (c c' k k' : Sh (Ext := Ext) unit) :
  blind c c' -> blind k k' -> blind (seq c k) (seq c' k').
Proof.
  intros Hc Hk w. rewrite !seq_unfold, (Hc w).
  destruct (c w) as [[[]|code] w1]; cbn [fst snd]; [apply Hk|done].
Qed.

Lemma blind_run (c c' : Cmd (Ext := Ext)) : blind c c' -> blind (run c) (run c').
Proof.
  intros Hc w. unfold run. rewrite (Hc w). destruct (c w) as [st w1].
  cbn [fst snd]. by destruct (st =? 0).
Qed.

Lemma blind_and_then (t c : Cmd (Ext := Ext)) :
  blind t t -> blind c c -> blind (and_then t c) (and_then t c).
Proof.
  intros Ht Hc w. unfold and_then. rewrite (Ht w). destruct (t w) as [st w1].
  cbn [fst snd]. destruct (st =? 0); [by apply blind_run|done].
Qed.

Lemma blind_if_then (t : Cmd (Ext := Ext)) (c : Sh (Ext := Ext) unit) :
  blind t t -> blind c c -> blind (if_then t c) (if_then t c).
Proof.
  intros Ht Hc w. unfold if_then. rewrite (Ht w). destruct (t w) as [st w1].
  cbn [fst snd]. destruct (st =? 0); [apply Hc|done].
Qed.

Lemma blind_on_files g : blind (Ext := Ext) (on_files g) (on_files g).
Proof.
  intros w. unfold on_files. rewrite mask_files. by destruct (g (files w)).
Qed.

Lemma blind_test_d p : blind (Ext := Ext) (test_d p) (test_d p).
Proof. by intros w. Qed.

Lemma blind_test_f p : blind (Ext := Ext) (test_f p) (test_f p).
Proof. by intros w. Qed.

Lemma blind_echo text : blind (Ext := Ext) (echo text) (echo text).
Proof. by intros w. Qed.

Lemma blind_redirected p producer :
  blind (Ext := Ext) (redirected p producer) (redirected p producer).
Proof.
  intros w. unfold redirected. rewrite mask_files.
  destruct (open_out p (files w)); [|done].
  change (ext (machine (mask w))) with (ext (machine w)).
  by destruct (producer _).
Qed.

Lemma blind_count_matches title matches lines :
  blind (Ext := Ext) (count_matches title matches lines)
        (count_matches title matches lines).
Proof. by intros w. Qed.

Lemma blind_run_and_capture cell :
  blind (run_and_capture host cell) (run_and_capture (ignoring_status host) cell).
Proof.
  intros w. unfold run_and_capture, seq, bind, echo, or_true, runme_captured.
  cbn [fst snd]. change (files (mkWorld (machine (mask w)) ?c ?j)) with (files w).
  change (files (mkWorld (machine w) ?c ?j)) with (files w).
  destruct (open_out (capture_path cell) (files w)) as [f1|].
  - cbn [ignoring_status runme leaves_capture machine mask].
    destruct (runme host cell NOTEBOOK _) as [[out st] m'].
    cbn. unfold mask, note. cbn. by rewrite map_app.
  - cbn. unfold mask, note. cbn. by rewrite map_app.
Qed.

Lemma blind_snapshot_files label :
  blind (Ext := Ext) (snapshot_files label) (snapshot_files label).
Proof.
  unfold snapshot_files, snapshot_commands, snapshot_copies.
  apply blind_seq.
  { intros w. cbn. unfold mask, note. cbn. by rewrite map_app. }
  repeat first
    [ apply blind_seq
    | apply blind_run
    | apply blind_and_then
    | apply blind_if_then
    | apply blind_on_files
    | apply blind_test_d
    | apply blind_test_f
    | apply blind_redirected ].
Qed.

Lemma blind_capture_environment :
  blind (capture_environment host) (capture_environment (ignoring_status host)).
Proof.
  unfold capture_environment. apply blind_seq.
  { intros w. cbn. unfold mask, note. cbn. by rewrite map_app. }
  apply blind_run.
  change (environment_text (ignoring_status host)) with (environment_text host).
  apply blind_redirected.
Qed.

Lemma blind_exec_line l :
  blind (exec_line host l) (exec_line (ignoring_status host) l).
Proof.
  destruct l; cbn [exec_line].
  - apply blind_echo.
  - apply blind_run_and_capture.
  - apply blind_capture_environment.
  - apply blind_snapshot_files.
Qed.

Lemma blind_exec ls : blind (exec host ls) (exec (ignoring_status host) ls).
Proof.
  induction ls as [|l ls IH]; cbn [exec]; [by intros w|].
  apply blind_seq; [apply blind_exec_line|exact IH].
Qed.

Lemma blind_prologue : blind (prologue host) (prologue (ignoring_status host)).
Proof.
  unfold prologue. cbn [ignoring_status project_dir].
  repeat first [ apply blind_seq | apply blind_run | apply blind_on_files
               | apply blind_echo ].
Qed.

Lemma blind_summary : blind (Ext := Ext) summary summary.
Proof.
  unfold summary.
  repeat first [ apply blind_seq | apply blind_run | apply blind_count_matches
               | apply blind_echo ].
Qed.

Lemma blind_main : blind (main host) (main (ignoring_status host)).
Proof.
  unfold main. apply blind_seq; [apply blind_prologue|].
  apply blind_seq; [apply blind_exec|apply blind_summary].
Qed.

(** A cell never makes the script exit: an early exit is at an
    environment or snapshot line. *)
Lemma exec_exit_location ls : forall w code w',
  exec host ls w = (Exit code, w') ->
  exists before l after w1,
    ls = before ++ l :: after
    /\ exec host before w = (Done tt, w1)
    /\ exec_line host l w1 = (Exit code, w')
    /\ (l = Environment \/ exists label, l = Snapshot label).
Proof.
  induction ls as [|l ls IH]; intros w code w'; [done|].
  cbn [exec]. rewrite seq_unfold.
  destruct (exec_line host l w) as [[[]|code1] w1] eqn:El.
  - intros (before & l' & after & w2 & -> & Hb & Hl & Hkind)%IH.
    exists (l :: before), l', after, w2. split; [done|]. split; [|done].
    cbn [exec]. by rewrite (seq_Done _ _ _ _ El).
  - intros [= <- <-]. exists [], l, ls, w. split; [done|]. split; [done|].
    split; [done|]. destruct l as [text|cell| |label]; [done|done|by left|eauto].
Qed.

Lemma exec_exits_nonzero ls : exits_nonzero (exec host ls).
Proof.
  induction ls as [|l ls IH]; [by intros w code w'|].
  cbn [exec]. apply seq_exits_nonzero; [|exact IH].
  destruct l; cbn [exec_line].
  - apply echo_exits_nonzero.
  - by intros w code w'.
  - unfold capture_environment. apply seq_exits_nonzero; [by intros w code w'|].
    apply run_exits_nonzero.
  - apply snapshot_files_exits_nonzero.
Qed.

Lemma main_exits_nonzero : exits_nonzero (main host).
Proof.
  unfold main, prologue, summary.
  repeat first [ apply exec_exits_nonzero | apply seq_exits_nonzero
               | apply run_exits_nonzero | apply echo_exits_nonzero ].
Qed.

(** C1, as the script has it.  The exit status of a run is what it would
    be had every cell, [reset-workspace] included, ended with status 0, and
    so are the files and the console; a run that exits early does so with
    a status other than 0 and in one of the script's own commands: in the
    prologue, in the environment recorder, in a snapshot or in the
    summary. *)
Theorem exit_status_ignores_cells (m : Machine Ext) :
  (main (ignoring_status host) (boot m)).1 = (main host (boot m)).1
  /\ files (main (ignoring_status host) (boot m)).2 = files (main host (boot m)).2
  /\ console (main (ignoring_status host) (boot m)).2
     = console (main host (boot m)).2
  /\ forall code w',
       main host (boot m) = (Exit code, w') ->
       code <> 0 /\ own_command_failed host (boot m) code w'.
Proof.
  pose proof (blind_main (boot m)) as Hb.
  change (mask (boot m)) with (boot m) in Hb. rewrite Hb. cbn [fst snd].
  split; [done|]. split; [done|]. split; [done|].
  intros code w' Hmain. split; [by eapply main_exits_nonzero|].
  rewrite main_unfold in Hmain. unfold own_command_failed.
  destruct (prologue host (boot m)) as [[[]|code0] w0] eqn:Ep.
  - destruct (exec host script w0) as [[[]|code1] w1] eqn:Ee.
    + right. right. eauto.
    + right. left. injection Hmain as <- <-.
      apply exec_exit_location in Ee
        as (before & l & after & w2 & Hs & Hbefore & Hl & Hkind).
      exists w0, before, l, after, w2. done.
  - left. by injection Hmain as <- <-.
Qed.

End ExitFacts.

(** C1, as the specification words it, fails both ways: a run whose
    [reset-workspace] cell fails ends with status 0, and a run whose
    [reset-workspace] cell succeeds ends with status 1 when the environment
    recorder cannot open its file. *)
Lemma exit_status_as_claimed_fails :
  (exists out, In (Pipeline.RanCell "reset-workspace" (Some (out, 1)))
     (Pipeline.journal (Pipeline.main Samples.failing_reset
        (Pipeline.boot (Pipeline.mkMachine Samples.project tt))).2))
  /\ Pipeline.exit_code (Pipeline.main Samples.failing_reset
        (Pipeline.boot (Pipeline.mkMachine Samples.project tt))).1 = 0
  /\ (exists out, In (Pipeline.RanCell "reset-workspace" (Some (out, 0)))
     (Pipeline.journal (Pipeline.main Samples.outputs_cleaned
        (Pipeline.boot (Pipeline.mkMachine Samples.project tt))).2))
  /\ Pipeline.exit_code (Pipeline.main Samples.outputs_cleaned
        (Pipeline.boot (Pipeline.mkMachine Samples.project tt))).1 = 1.
Proof.
  split; [eexists; vm_compute; left; reflexivity|].
  split; [vm_compute; reflexivity|].
  split; [eexists; vm_compute; left; reflexivity|].
  vm_compute; reflexivity.
Qed.

(** ** The pipeline: one capture file per cell *)

Section CaptureFacts.
Import Files Pipeline.
Context {Ext : Type}.
Variable host : Host Ext.
Hypothesis host_respects_outputs : respects_outputs host.
Hypothesis host_keeps_captures : keeps_captures host.
Variables names labs : list string.
Hypothesis names_ok : well_named names labs = true.
Implicit Types (w : World Ext) (l : Line) (ls : list Line) (c cell : string).

Lemma names_distinct c c' :
  c ∈ names -> c' ∈ names -> capture_path c = capture_path c' -> c = c'.
Proof.
  apply andb_true_iff in names_ok as [Hnd _].
  apply bool_decide_eq_true in Hnd.
  intros [i Hi]%list_elem_of_lookup [j Hj]%list_elem_of_lookup Heq.
  assert (i = j) as ->.
  { eapply NoDup_lookup; [exact Hnd| |];
      rewrite list_lookup_fmap; [by rewrite Hi|by rewrite Hj, Heq]. }
  congruence.
Qed.

Lemma name_ok c :
  c ∈ names ->
  parent (capture_path c) = OUT
  /\ capture_path c <> environment_path
  /\ forall lab, lab ∈ labs -> apart (snapshot_dir lab) (capture_path c) = true.
Proof.
  apply andb_true_iff in names_ok as [_ Hall].
  rewrite forallb_forall in Hall. intros Hc%list_elem_of_In.
  specialize (Hall c Hc).
  apply andb_true_iff in Hall as [Hall Hlabs].
  apply andb_true_iff in Hall as [Hparent Henv].
  apply String.eqb_eq in Hparent. apply negb_true_iff, String.eqb_neq in Henv.
  split; [done|]. split; [done|].
  intros lab Hlab%list_elem_of_In. rewrite forallb_forall in Hlabs. auto.
Qed.

Lemma is_dir_congr (f f' : FS) p : f' !! p = f !! p -> is_dir f' p = is_dir f p.
Proof. unfold is_dir. by intros ->. Qed.

Lemma is_dir_file (f : FS) p body :
  p <> EmptyString -> f !! p = Some (File body) -> is_dir f p = false.
Proof. unfold is_dir. intros Hp ->. by destruct p. Qed.

Lemma capture_path_not_empty c : capture_path c <> EmptyString.
Proof. done. Qed.

Lemma within_capture_path c : within OUT (capture_path c) = true.
Proof.
  unfold capture_path.
  change (OUT +:+ "/" +:+ c +:+ ".txt") with (OUT +:+ String slash (c +:+ ".txt")).
  apply within_below.
Qed.

(** A cell whose capture file can go where it belongs leaves its output
    there and the other capture files as they are. *)
Lemma run_and_capture_captured c w :
  captured names w -> c ∈ names ->
  (forall r, RanCell c r ∉ journal w) ->
  captured names (run_and_capture host c w).2.
Proof.
  intros (Hout & Hfree & Hran) Hc Hnew.
  destruct (name_ok c Hc) as (Hparent & _ & _).
  assert (Hopen : open_out (capture_path c) (files w)
                  = Some (<[capture_path c := File EmptyString]> (files w))).
  { unfold open_out. by rewrite Hparent, Hout, (Hfree c Hc). }
  destruct (runme host c NOTEBOOK
              (mkMachine (<[capture_path c := File EmptyString]> (files w))
                         (ext (machine w)))) as [[out st] m] eqn:Hrun.
  assert (Hm : forall q, within OUT q = true ->
               fs m !! q = <[capture_path c := File EmptyString]> (files w) !! q).
  { intros q Hq.
    pose proof (host_respects_outputs c NOTEBOOK
      (mkMachine (<[capture_path c := File EmptyString]> (files w))
                 (ext (machine w))) q Hq) as H.
    by rewrite Hrun in H. }
  destruct (run_and_capture_effect host c w _ _ _ _ Hopen Hrun)
    as [Hfiles Hjournal].
  rewrite host_keeps_captures in Hfiles. unfold through in Hfiles.
  assert (Hlook : forall q, within OUT q = true -> q <> capture_path c ->
            files (run_and_capture host c w).2 !! q = files w !! q).
  { intros q Hq Hne. rewrite Hfiles, lookup_insert_ne by done.
    rewrite Hm by done. by rewrite lookup_insert_ne. }
  assert (Hne : OUT <> capture_path c).
  { intros Heq. specialize (Hfree c Hc). rewrite <- Heq in Hfree. congruence. }
  split; [|split].
  - rewrite <- Hout. apply is_dir_congr, Hlook; [apply within_refl|done].
  - intros c' Hc'.
    destruct (decide (capture_path c' = capture_path c)) as [Heq|Hne'].
    + apply (is_dir_file _ _ out); [apply capture_path_not_empty|].
      by rewrite Heq, Hfiles, lookup_insert_eq.
    + rewrite <- (Hfree c' Hc').
      apply is_dir_congr, Hlook; [apply within_capture_path|done].
  - intros cell r. rewrite Hjournal, elem_of_app, list_elem_of_singleton.
    intros [Hold|[= -> ->]].
    + destruct (Hran cell r Hold) as (Hcell & out0 & st0 & -> & Hcontent).
      split; [done|]. exists out0, st0. split; [done|].
      rewrite Hlook; [done|apply within_capture_path|].
      intros Heq. apply names_distinct in Heq; [|done|done]. subst cell.
      by apply (Hnew (Some (out0, st0))).
    + split; [done|]. exists out, st. split; [done|].
      by rewrite Hfiles, lookup_insert_eq.
Qed.

Lemma capture_environment_captured w w' :
  captured names w ->
  capture_environment host w = (Done tt, w') ->
  captured names w'.
Proof.
  intros (Hout & Hfree & Hran) Hrun.
  destruct (open_out environment_path (files w)) as [f1|] eqn:Hopen.
  - pose proof (capture_environment_effect host w f1 Hopen) as Heff.
    set (text := (environment_text host (mkMachine f1 (ext (machine w)))).1) in Heff.
    clearbody text. rewrite Heff in Hrun.
    assert (Hw' : w' = note RecordedEnv
              (set_files (<[environment_path := File text]> (files w)) w))
      by congruence.
    subst w'. clear Hrun Heff.
    assert (Hlook : forall q, q <> environment_path ->
              <[environment_path := File text]> (files w) !! q = files w !! q).
    { intros q Hq. by rewrite lookup_insert_ne. }
    unfold captured.
    change (files (note RecordedEnv (set_files ?f w))) with f.
    change (journal (note RecordedEnv (set_files ?f w)))
      with (journal w ++ [RecordedEnv]).
    split; [|split].
    + rewrite <- Hout. apply is_dir_congr. by apply Hlook.
    + intros c Hc. destruct (name_ok c Hc) as (_ & Henv & _).
      rewrite <- (Hfree c Hc). apply is_dir_congr. by apply Hlook.
    + intros cell r. rewrite elem_of_app, list_elem_of_singleton.
      intros [Hold|[=]].
      destruct (Hran cell r Hold) as (Hcell & out0 & st0 & -> & Hcontent).
      destruct (name_ok cell Hcell) as (_ & Henv & _).
      split; [done|]. exists out0, st0. split; [done|]. by rewrite Hlook.
  - exfalso. revert Hrun.
    unfold capture_environment, seq, bind, entered, run, redirected.
    cbn [fst snd]. change (files (note RecordedEnv w)) with (files w).
    by rewrite Hopen.
Qed.

Lemma snapshot_files_captured lab w :
  lab ∈ labs -> captured names w -> captured names (snapshot_files lab w).2.
Proof.
  intros Hlab (Hout & Hfree & Hran).
  rewrite snapshot_files_unfold.
  set (w0 := note (TookSnapshot lab) w).
  destruct (snapshot_commands_apart lab w0) as (Hsame & _ & _ & Hj).
  destruct (snapshot_commands_outside lab w0) as (Hdirs & _).
  change (files w0) with (files w) in *.
  split; [|split].
  - apply (Hdirs OUT); [by vm_compute|done].
  - intros c Hc. destruct (name_ok c Hc) as (_ & _ & Hapart).
    rewrite <- (Hfree c Hc). apply is_dir_congr, (Hsame _ (Hapart lab Hlab)).
  - intros cell r. rewrite Hj. cbn. rewrite elem_of_app, list_elem_of_singleton.
    intros [Hold|[=]].
    destruct (Hran cell r Hold) as (Hcell & out0 & st0 & -> & Hcontent).
    destruct (name_ok cell Hcell) as (_ & _ & Hapart).
    split; [done|]. exists out0, st0. split; [done|].
    by rewrite (Hsame _ (Hapart lab Hlab)).
Qed.

Lemma echo_captured text w : captured names w -> captured names (echo text w).2.
Proof. done. Qed.

(** The cells that ran are those of the lines that were executed. *)
Lemma exec_captured ls : forall w w',
  NoDup (cells ls) ->
  (forall c, c ∈ cells ls -> c ∈ names /\ forall r, RanCell c r ∉ journal w) ->
  (forall lab, lab ∈ labels ls -> lab ∈ labs) ->
  captured names w ->
  exec host ls w = (Done tt, w') ->
  captured names w'.
Proof.
  induction ls as [|l ls IH]; intros w w' Hnd Hcells Hlabs Hw.
  - by intros [= <-].
  - cbn [exec]. intros (w1 & Hl & Hrest)%seq_inv_Done.
    assert (Hnd' : NoDup (cells ls)).
    { destruct l; cbn in Hnd; try done. by apply NoDup_cons in Hnd as [_ ?]. }
    assert (Hlabs' : forall lab, lab ∈ labels ls -> lab ∈ labs).
    { intros lab Hlab. apply Hlabs. destruct l; cbn; try done. by right. }
    assert (Hin : forall c, c ∈ cells ls -> c ∈ cells (l :: ls)).
    { intros c Hc. destruct l; cbn; try done. by right. }
    assert (Hj : exists e, journal w1 = journal w ++ e
               /\ forall c r, RanCell c r ∈ e -> l = Cell c).
    { destruct l as [text|c| |lab]; cbn [exec_line] in Hl.
      - injection Hl as <-. exists []. split; [by rewrite app_nil_r|].
        intros c r Hr. by apply elem_of_nil in Hr.
      - destruct (run_and_capture_journal host c w) as [r0 Hj].
        rewrite Hl in Hj. eexists. split; [exact Hj|].
        intros c' r Hr. apply list_elem_of_singleton in Hr. by injection Hr as -> _.
      - pose proof (capture_environment_journal host w) as Hj.
        rewrite Hl in Hj. eexists. split; [exact Hj|].
        intros c' r Hr. by apply list_elem_of_singleton in Hr.
      - pose proof (snapshot_files_journal lab w) as Hj.
        rewrite Hl in Hj. eexists. split; [exact Hj|].
        intros c' r Hr. by apply list_elem_of_singleton in Hr. }
    destruct Hj as (e & Hj & He).
    assert (Hcells' : forall c, c ∈ cells ls ->
              c ∈ names /\ forall r, RanCell c r ∉ journal w1).
    { intros c Hc. destruct (Hcells c (Hin c Hc)) as [Hn Hnew]. split; [done|].
      intros r Hr. rewrite Hj in Hr.
      apply elem_of_app in Hr as [Hr|Hr]; [by apply (Hnew r)|].
      apply He in Hr. subst l. cbn in Hnd.
      apply NoDup_cons in Hnd as [Hnot _]. done. }
    assert (Hw1 : captured names w1).
    { destruct l as [text|c| |lab]; cbn [exec_line] in Hl.
      - by injection Hl as <-.
      - destruct (Hcells c) as [Hn Hnew]; [cbn; left|].
        pose proof (run_and_capture_captured c w Hw Hn Hnew) as H.
        by rewrite Hl in H.
      - by eapply capture_environment_captured.
      - pose proof (snapshot_files_captured lab w) as H.
        rewrite Hl in H. apply H; [|done]. apply Hlabs. cbn. left. }
    exact (IH w1 w' Hnd' Hcells' Hlabs' Hw1 Hrest).
Qed.

End CaptureFacts.

Section CaptureMain.
Import Files Pipeline.
Context {Ext : Type}.
Variable host : Host Ext.
Implicit Types (w : World Ext) (f : FS).

Lemma script_well_named : well_named (cells script) (labels script) = true.
Proof. by vm_compute. Qed.

Lemma script_cells_distinct : NoDup (cells script).
Proof. apply (bool_decide_unpack _). by vm_compute. Qed.

Lemma script_cells_off_the_way c :
  c ∈ cells script -> capture_path c ∉ ancestors (OUT +:+ "/snapshots").
Proof.
  assert (H : forallb
    (fun c => negb (bool_decide (capture_path c ∈ ancestors (OUT +:+ "/snapshots"))))
    (cells script) = true) by by vm_compute.
  rewrite forallb_forall in H. intros Hc%list_elem_of_In.
  specialize (H c Hc). apply negb_true_iff in H.
  by apply bool_decide_eq_false in H.
Qed.

(** [mkdir -p] that succeeds leaves every directory on the way in place. *)
Lemma mkdirs_success ps : forall f f',
  mkdirs ps f = (0, f') -> forall p, p ∈ ps -> is_dir f' p = true.
Proof.
  induction ps as [|p ps IH]; intros f f' Hmk q Hq; [by apply elem_of_nil in Hq|].
  cbn in Hmk. destruct p as [|a p].
  - apply elem_of_cons in Hq as [->|Hq]; [done|]. eauto.
  - destruct (is_file f (String a p)); [done|].
    apply elem_of_cons in Hq as [->|Hq]; [|eauto].
    pose proof (mkdirs_files (fun _ => true) ps (<[String a p := Dir]> f)) as Hs.
    rewrite Hmk in Hs. apply (Hs (String a p)); [done|].
    unfold is_dir. by rewrite lookup_insert_eq.
Qed.

(** After the prologue the output directory is there and empty but for
    the snapshots directory. *)
Lemma prologue_captured w w0 :
  journal w = [] ->
  prologue host w = (Done tt, w0) ->
  captured (cells script) w0.
Proof.
  intros Hj Hp.
  assert (Hf : exists f', mkdir_p (OUT +:+ "/snapshots") (removed OUT (files w)) = (0, f')
                          /\ files w0 = f' /\ journal w0 = []).
  { revert Hp. unfold prologue, seq, bind, run, on_files, rm_rf, echo. cbn.
    destruct (mkdir_p _ _) as [st f'] eqn:E.
    destruct (Z.eqb_spec st 0) as [->|]; [|done].
    cbn. intros [= <-]. eauto. }
  destruct Hf as (f' & Hmk & Hfiles & Hj0).
  split; [|split].
  - rewrite Hfiles. apply (mkdirs_success _ _ _ Hmk).
    apply (bool_decide_unpack _). by vm_compute.
  - intros c Hc. rewrite Hfiles.
    replace f' with (mkdir_p (OUT +:+ "/snapshots") (removed OUT (files w))).2
      by by rewrite Hmk.
    unfold mkdir_p, is_dir.
    rewrite mkdirs_lookup by by apply script_cells_off_the_way.
    rewrite lookup_removed.
    assert (Hin : within OUT (capture_path c) = true).
    { unfold capture_path.
      change (OUT +:+ "/" +:+ c +:+ ".txt")
        with (OUT +:+ String slash (c +:+ ".txt")).
      apply within_below. }
    rewrite Hin. done.
  - intros cell r. rewrite Hj0. intros Hr. by apply elem_of_nil in Hr.
Qed.

Lemma summary_files w : files (summary w).2 = files w.
Proof.
  unfold summary, seq, bind, run, count_matches, echo. cbn.
  repeat (case_bool_decide; cbn); done.
Qed.

End CaptureMain.

Section TutorialNotebook.
Import Files Pipeline Samples.

Lemma below_outputs q :
  within OUT q = true -> exists r, q = OUT +:+ r.
Proof.
  unfold within. destruct (strip_prefix OUT q) as [r|] eqn:E; [|done].
  intros _. exists r. by apply strip_prefix_Some.
Qed.

Lemma writes_respects p body text (m : Machine unit) q :
  within OUT p = false -> within OUT q = true ->
  fs (writes p body text m).2 !! q = fs m !! q.
Proof.
  intros Hp Hq. unfold writes.
  destruct (open_out p (fs m)) as [f|] eqn:Hopen; [|done].
  cbn [fs snd]. rewrite (open_out_store _ _ _ _ Hopen).
  rewrite lookup_insert_ne; [done|]. intros <-. congruence.
Qed.

Lemma reset_respects diagnostic (f : FS) q :
  within OUT q = true ->
  (Notebook.reset_workspace diagnostic f).2 !! q = f !! q.
Proof.
  intros [r ->]%below_outputs. unfold Notebook.reset_workspace.
  set (f1 := (rm_rf_slash "src" f).2).
  set (f2 := (rm_rf_slash "docs-generated" f1).2).
  set (f3 := (rm_rf "tsconfig.json" f2).2).
  set (f4 := (rm_rf "delivery-process.config.ts" f3).2).
  assert (H4 : f4 !! (OUT +:+ r) = f !! (OUT +:+ r)).
  { unfold f4, f3, f2, f1, rm_rf. cbn [snd].
    rewrite !lookup_removed.
    replace (within "delivery-process.config.ts" (OUT +:+ r)) with false
      by by vm_compute.
    replace (within "tsconfig.json" (OUT +:+ r)) with false by by vm_compute.
    rewrite !rm_rf_slash_outside by by vm_compute. done. }
  destruct (open_out "package.json" f4) as [f5|] eqn:Hopen; cbn [snd]; [|done].
  rewrite (open_out_store _ _ _ _ Hopen).
  rewrite lookup_insert_ne; [done|]. by vm_compute.
Qed.

Lemma mkdir_p_respects p (f : FS) q :
  within OUT q = true ->
  forallb (fun a => negb (within OUT a)) (ancestors p) = true ->
  (mkdir_p p f).2 !! q = f !! q.
Proof.
  intros Hq Hanc. apply mkdirs_lookup. intros Hin%list_elem_of_In.
  rewrite forallb_forall in Hanc. specialize (Hanc q Hin).
  apply negb_true_iff in Hanc. congruence.
Qed.

(** The cells of the sample notebook leave the output directory alone. *)
Lemma tutorial_respects_outputs : respects_outputs tutorial.
Proof.
  intros cell notebook m q Hq. cbn [tutorial tools runme]. unfold tutorial_runme.
  repeat match goal with
         | |- context [String.eqb cell ?s] => destruct (String.eqb cell s)
         end.
  - destruct (Notebook.reset_workspace _ (fs m)) as [[out st] f] eqn:E.
    cbn [fs snd]. pose proof (reset_respects "package.json: Is a directory" (fs m) q Hq) as H.
    by rewrite E in H.
  - by apply writes_respects.
  - cbn [fs snd]. by apply mkdir_p_respects.
  - by apply writes_respects.
  - rewrite writes_respects by done. cbn [fs]. by apply mkdir_p_respects.
  - done.
  - done.
Qed.

End TutorialNotebook.

(** ** EventStore: reading by type, several stores, shared events *)

Section EventStoreReads.
Import EventStore.
Context {Payload : Type}.
Implicit Types (h : Heap Payload) (s : Store) (l : list ref).

(** X1. [getByType] after a run of [append] calls returns what it
    returned before, followed by the appended events of that type in the
    order of the calls. *)
Theorem getByType_selects s h l evs ty :
  arrs h !! events s = Some l ->
  Forall (allocated h) l ->
  let h' := appends s evs h in
  contents (getByType s ty h').2 (getByType s ty h').1
  = contents (getByType s ty h).2 (getByType s ty h).1
    ++ List.filter (fun e => String.eqb (type e) ty) evs.
Proof.
  intros Hl Hall h'. rewrite !getByType_contents.
  destruct (appends_spec s evs h l Hl Hall) as (_ & _ & _ & Hc).
  subst h'. rewrite Hc. apply List.filter_app.
Qed.

Lemma append_other_store s1 s2 ty pl now h l2 :
  events s1 <> events s2 ->
  arrs h !! events s2 = Some l2 ->
  Forall (allocated h) l2 ->
  arrs (append s1 ty pl now h) !! events s2 = Some l2
  /\ Forall (allocated (append s1 ty pl now h)) l2
  /\ contents (append s1 ty pl now h) (events s2) = contents h (events s2).
Proof.
  intros Hne Hl Hall. unfold append, contents, elems. cbn.
  rewrite lookup_alter_ne by done. rewrite Hl. cbn.
  split; [done|]. split.
  - eapply Forall_impl; [exact Hall|]. intros x [e He]. unfold allocated. cbn.
    destruct (decide (fresh (dom (objs h)) = x)) as [->|Hx].
    + rewrite lookup_insert_eq. eauto.
    + rewrite lookup_insert_ne by done. eauto.
  - by apply omap_insert_fresh.
Qed.

(** X2. Two stores made by the constructor have arrays of their own, and
    appending to one store changes nothing another store returns. *)
Theorem stores_are_independent s1 s2 h l2 evs :
  events s1 <> events s2 ->
  arrs h !! events s2 = Some l2 ->
  Forall (allocated h) l2 ->
  events (new_store (new_store h).2).1 <> events (new_store h).1
  /\ let h' := appends s1 evs h in
     contents (getAll s2 h').2 (getAll s2 h').1 = contents (getAll s2 h).2 (getAll s2 h).1
     /\ forall ty,
          contents (getByType s2 ty h').2 (getByType s2 ty h').1
          = contents (getByType s2 ty h).2 (getByType s2 ty h).1.
Proof.
  intros Hne Hl Hall. split.
  - unfold new_store. cbn. intros Heq.
    pose proof (is_fresh (dom (<[fresh (dom (arrs h)) := []]> (arrs h)))) as Hf.
    rewrite Heq in Hf. apply Hf. rewrite dom_insert. set_solver.
  - cbn zeta.
    assert (Hc : contents (appends s1 evs h) (events s2) = contents h (events s2)).
    { revert h Hl Hall. induction evs as [|e evs IH]; intros h Hl Hall; [done|].
      change (appends s1 (e :: evs) h)
        with (appends s1 evs (append s1 (type e) (payload e) (timestamp e) h)).
      destruct (append_other_store s1 s2 (type e) (payload e) (timestamp e) h l2
                  Hne Hl Hall) as (Hl' & Hall' & Hc').
      by rewrite (IH _ Hl' Hall'). }
    split; [by rewrite !getAll_contents|].
    intros ty. by rewrite !getByType_contents, Hc.
Qed.

(** X3. The array [getAll] returns holds the store's own event objects:
    after a caller has written to one of them through the returned array,
    the store returns the event as the caller left it. *)
Theorem getAll_copy_is_shallow s h l o e g :
  arrs h !! events s = Some l ->
  o ∈ l ->
  objs h !! o = Some e ->
  let r := (getAll s h).1 in
  let h1 := (getAll s h).2 in
  let h2 := object_update o g h1 in
  o ∈ elems h1 r
  /\ g e ∈ contents (getAll s h2).2 (getAll s h2).1
  /\ (forall ty, String.eqb (type (g e)) ty = true ->
        g e ∈ contents (getByType s ty h2).2 (getByType s ty h2).1).
Proof.
  intros Hl Ho He r h1 h2.
  assert (Hr : fresh (dom (arrs h)) <> events s).
  { intros Heq. pose proof (fresh_array_unused h) as Hf.
    rewrite Heq, Hl in Hf. discriminate. }
  assert (Hin : g e ∈ contents h2 (events s)).
  { unfold contents. apply list_elem_of_omap. exists o. split.
    - unfold h2, h1, object_update, getAll, elems. cbn.
      rewrite lookup_insert_ne by done. by rewrite Hl.
    - unfold h2, h1, object_update, getAll. cbn.
      by rewrite lookup_alter_eq, He. }
  split; [|split].
  - unfold r, h1, getAll, elems. cbn. by rewrite lookup_insert_eq, Hl.
  - by rewrite getAll_contents.
  - intros ty Hty. rewrite getByType_contents.
    apply list_elem_of_In, filter_In. split; [by apply list_elem_of_In|done].
Qed.

End EventStoreReads.

Lemma getByType_selects_witness :
  EventStore.arrs Samples.two_events.2 !! EventStore.events Samples.two_events.1
    = Some [0%nat; 1%nat]
  /\ Forall (EventStore.allocated Samples.two_events.2) [0%nat; 1%nat]
  /\ EventStore.contents
       (EventStore.getByType Samples.two_events.1 "UserRegistered"
          (EventStore.appends Samples.two_events.1
             [EventStore.mkEvent "UserRegistered" "u-2" 1771632000002;
              EventStore.mkEvent "UserDeactivated" "u-2" 1771632000003]
             Samples.two_events.2)).2
       (EventStore.getByType Samples.two_events.1 "UserRegistered"
          (EventStore.appends Samples.two_events.1
             [EventStore.mkEvent "UserRegistered" "u-2" 1771632000002;
              EventStore.mkEvent "UserDeactivated" "u-2" 1771632000003]
             Samples.two_events.2)).1
     = [EventStore.mkEvent "UserRegistered" "u-1" 1771632000000;
        EventStore.mkEvent "UserRegistered" "u-2" 1771632000002].
Proof.
  assert (H1 : EventStore.arrs Samples.two_events.2
                 !! EventStore.events Samples.two_events.1 = Some [0%nat; 1%nat])
    by (vm_compute; reflexivity).
  assert (H2 : Forall (EventStore.allocated Samples.two_events.2) [0%nat; 1%nat])
    by (repeat constructor; vm_compute; eauto).
  split; [exact H1|]. split; [exact H2|].
  rewrite (getByType_selects Samples.two_events.1 Samples.two_events.2 _
             [EventStore.mkEvent "UserRegistered" "u-2" 1771632000002;
              EventStore.mkEvent "UserDeactivated" "u-2" 1771632000003]
             "UserRegistered" H1 H2).
  vm_compute. reflexivity.
Defined.

Lemma stores_are_independent_witness :
  EventStore.events Scenes.two_stores.1.1 <> EventStore.events Scenes.two_stores.1.2
  /\ EventStore.arrs Scenes.two_stores.2 !! EventStore.events Scenes.two_stores.1.2
     = Some [0%nat]
  /\ Forall (EventStore.allocated Scenes.two_stores.2) [0%nat]
  /\ EventStore.contents
       (EventStore.getAll Scenes.two_stores.1.2
          (EventStore.appends Scenes.two_stores.1.1
             [EventStore.mkEvent "UserDeactivated" "u-1" 1771632000006]
             Scenes.two_stores.2)).2
       (EventStore.getAll Scenes.two_stores.1.2
          (EventStore.appends Scenes.two_stores.1.1
             [EventStore.mkEvent "UserDeactivated" "u-1" 1771632000006]
             Scenes.two_stores.2)).1
     = [EventStore.mkEvent "UserRegistered" "u-9" 1771632000005].
Proof.
  assert (H0 : EventStore.events Scenes.two_stores.1.1
               <> EventStore.events Scenes.two_stores.1.2)
    by (vm_compute; discriminate).
  assert (H1 : EventStore.arrs Scenes.two_stores.2
                 !! EventStore.events Scenes.two_stores.1.2 = Some [0%nat])
    by (vm_compute; reflexivity).
  assert (H2 : Forall (EventStore.allocated Scenes.two_stores.2) [0%nat])
    by (repeat constructor; vm_compute; eauto).
  split; [exact H0|]. split; [exact H1|]. split; [exact H2|].
  rewrite (proj1 (proj2 (stores_are_independent Scenes.two_stores.1.1
                           Scenes.two_stores.1.2 Scenes.two_stores.2 _
                           [EventStore.mkEvent "UserDeactivated" "u-1" 1771632000006]
                           H0 H1 H2))).
  vm_compute. reflexivity.
Defined.

Lemma getAll_copy_is_shallow_witness :
  EventStore.arrs Samples.two_events.2 !! EventStore.events Samples.two_events.1
    = Some [0%nat; 1%nat]
  /\ 1%nat ∈ [0%nat; 1%nat]
  /\ EventStore.objs Samples.two_events.2 !! 1%nat
     = Some (EventStore.mkEvent "UserDeactivated" "u-1" 1771632000001)
  /\ EventStore.mkEvent "UserDeactivated" "u-7" 1771632000001
     ∈ EventStore.contents
         (EventStore.getAll Samples.two_events.1
            (EventStore.object_update 1%nat
               (fun e => EventStore.mkEvent (EventStore.type e) "u-7"
                           (EventStore.timestamp e))
               (EventStore.getAll Samples.two_events.1 Samples.two_events.2).2)).2
         (EventStore.getAll Samples.two_events.1
            (EventStore.object_update 1%nat
               (fun e => EventStore.mkEvent (EventStore.type e) "u-7"
                           (EventStore.timestamp e))
               (EventStore.getAll Samples.two_events.1 Samples.two_events.2).2)).1.
Proof.
  assert (H1 : EventStore.arrs Samples.two_events.2
                 !! EventStore.events Samples.two_events.1 = Some [0%nat; 1%nat])
    by (vm_compute; reflexivity).
  assert (H2 : 1%nat ∈ [0%nat; 1%nat]) by (apply list_elem_of_In; cbn; tauto).
  assert (H3 : EventStore.objs Samples.two_events.2 !! 1%nat
               = Some (EventStore.mkEvent "UserDeactivated" "u-1" 1771632000001))
    by (vm_compute; reflexivity).
  split; [exact H1|]. split; [exact H2|]. split; [exact H3|].
  exact (proj1 (proj2 (getAll_copy_is_shallow Samples.two_events.1 Samples.two_events.2
                         _ 1%nat _
                         (fun e => EventStore.mkEvent (EventStore.type e) "u-7"
                                     (EventStore.timestamp e))
                         H1 H2 H3))).
Defined.

(** ** UserService: registration, repeated deactivation, shared records *)

Section UserServiceMore.
Import UserService Callers.
Implicit Types (st : State) (i j : string) (o : ref) (u : UserRecord).

(** X4. [register] returns the new id, and [findById] of that id then
    gives a record with this id, the email and [active: true], also when
    the id was registered before; every other id reads as before. *)
Theorem register_then_findById uuid mail st :
  wf st ->
  let st' := (register uuid mail st).2 in
  (register uuid mail st).1 = uuid
  /\ record_of st' uuid = Some (mkUser uuid mail true)
  /\ (forall j, j <> uuid ->
        findById j st' = findById j st /\ record_of st' j = record_of st j).
Proof.
  intros [Halloc _] st'. split; [done|]. split.
  - unfold record_of, findById. cbn. rewrite lookup_insert_eq. cbn.
    by rewrite lookup_insert_eq.
  - intros j Hj. unfold record_of, findById. cbn.
    rewrite lookup_insert_ne by done. split; [done|].
    destruct (users st !! j) as [o|] eqn:E; [|done]. cbn.
    rewrite lookup_insert_ne; [done|]. intros <-.
    destruct (Halloc _ _ E) as [u Hu].
    pose proof (is_fresh (dom (heap st))) as Hf. apply Hf, elem_of_dom. eauto.
Qed.

(** X5. Deactivating twice is deactivating once: the second call returns
    what the first returned, [true] for a registered id even though the
    user is inactive by then, and leaves the state of the first. *)
Theorem deactivate_twice i st :
  deactivate i (deactivate i st).2 = deactivate i st.
Proof.
  unfold deactivate. destruct (users st !! i) as [o|] eqn:E; cbn [snd].
  - cbn. rewrite E. f_equal. f_equal.
    rewrite alter_alter_eq. apply alter_ext. by intros [].
  - by rewrite E.
Qed.

(** X6. In every state reached through [register] and [deactivate],
    [findById] returns either nothing or a reference to a record whose id
    is the id asked for. *)
Theorem reachable_records_match st :
  reachable st ->
  forall i o, findById i st = Some o ->
    exists u, heap st !! o = Some u /\ id u = i.
Proof.
  unfold findById. induction 1 as [|uuid mail st Hr IH|j st Hr IH]; intros i o.
  - cbn. by rewrite lookup_empty.
  - cbn. destruct (decide (uuid = i)) as [<-|Hne].
    + rewrite lookup_insert_eq. intros [= <-]. rewrite lookup_insert_eq. eauto.
    + rewrite lookup_insert_ne by done. intros Hi.
      destruct (IH _ _ Hi) as (u & Hu & Hid). exists u. split; [|done].
      rewrite lookup_insert_ne; [done|]. intros <-.
      pose proof (is_fresh (dom (heap st))) as Hf. apply Hf, elem_of_dom. eauto.
  - unfold deactivate. destruct (users st !! j) as [o'|]; cbn; [|apply IH].
    intros Hi. destruct (IH _ _ Hi) as (u & Hu & Hid).
    destruct (decide (o' = o)) as [->|Hne].
    + exists (set_inactive u). by rewrite lookup_alter_eq, Hu.
    + exists u. by rewrite lookup_alter_ne.
Qed.

(** X7. [findById] hands out the record the service itself holds: a
    reference obtained before [deactivate] shows the cleared flag
    afterwards, and what a caller writes through the reference is what
    the service reads from then on. *)
Theorem records_are_shared st i o u :
  findById i st = Some o ->
  heap st !! o = Some u ->
  heap (deactivate i st).2 !! o = Some (set_inactive u)
  /\ forall g,
       findById i (user_update o g st) = Some o
       /\ record_of (user_update o g st) i = Some (g u).
Proof.
  unfold findById. intros Hi Hu. split.
  - unfold deactivate. rewrite Hi. cbn. by rewrite lookup_alter_eq, Hu.
  - intros g. unfold record_of, findById, user_update. cbn. rewrite Hi. cbn.
    by rewrite lookup_alter_eq, Hu.
Qed.

End UserServiceMore.

Lemma register_then_findById_witness :
  UserService.wf Samples.two_users
  /\ UserService.record_of
       (UserService.register "id-1" "carol@example.com" Samples.two_users).2 "id-1"
     = Some (UserService.mkUser "id-1" "carol@example.com" true).
Proof.
  assert (Hwf : UserService.wf Samples.two_users).
  { apply wf_register, wf_register, wf_init. }
  split; [exact Hwf|].
  exact (proj1 (proj2 (register_then_findById "id-1" "carol@example.com"
                         Samples.two_users Hwf))).
Defined.

Lemma reachable_records_match_witness :
  UserService.reachable (UserService.deactivate "id-2" Samples.two_users).2
  /\ UserService.findById "id-2" (UserService.deactivate "id-2" Samples.two_users).2
     = Some 1%nat
  /\ exists u,
       UserService.heap (UserService.deactivate "id-2" Samples.two_users).2 !! 1%nat
       = Some u
       /\ UserService.id u = "id-2".
Proof.
  assert (Hr : UserService.reachable (UserService.deactivate "id-2" Samples.two_users).2).
  { apply UserService.reach_deactivate, UserService.reach_register,
      UserService.reach_register, UserService.reach_init. }
  assert (Hf : UserService.findById "id-2"
                 (UserService.deactivate "id-2" Samples.two_users).2 = Some 1%nat)
    by (vm_compute; reflexivity).
  split; [exact Hr|]. split; [exact Hf|].
  exact (reachable_records_match _ Hr "id-2" 1%nat Hf).
Defined.

Lemma records_are_shared_witness :
  UserService.findById "id-1" Samples.two_users = Some 0%nat
  /\ UserService.heap Samples.two_users !! 0%nat
     = Some (UserService.mkUser "id-1" "alice@example.com" true)
  /\ UserService.heap (UserService.deactivate "id-1" Samples.two_users).2 !! 0%nat
     = Some (UserService.mkUser "id-1" "alice@example.com" false).
Proof.
  assert (H1 : UserService.findById "id-1" Samples.two_users = Some 0%nat)
    by (vm_compute; reflexivity).
  assert (H2 : UserService.heap Samples.two_users !! 0%nat
               = Some (UserService.mkUser "id-1" "alice@example.com" true))
    by (vm_compute; reflexivity).
  split; [exact H1|]. split; [exact H2|].
  exact (proj1 (records_are_shared Samples.two_users "id-1" 0%nat _ H1 H2)).
Defined.

(** ** AuthHandler *)

Section AuthHandlerFacts.
Import AuthHandler.
Implicit Types (email password userId : jsstring) (now : Z).

Lemma units_inj s t : units s = units t -> s = t.
Proof.
  unfold units. intros H.
  assert (Hinj : Inj (=) (=) N_of_ascii).
  { intros a b Hab.
    by rewrite <- (ascii_N_embedding a), <- (ascii_N_embedding b), Hab. }
  apply (list_fmap_eq_inj N_of_ascii Hinj) in H.
  rewrite <- (String.string_of_list_ascii_of_string s),
    <- (String.string_of_list_ascii_of_string t). by rewrite H.
Qed.

Lemma units_without c s :
  Files.has_char c s = false -> N_of_ascii c ∉ units s.
Proof.
  unfold units. induction s as [|a s IH]; cbn; [intros _; apply not_elem_of_nil|].
  intros [Ha Hs]%orb_false_iff. apply not_elem_of_cons. split; [|by apply IH].
  intros Heq. apply Ascii.eqb_neq in Ha. apply Ha.
  by rewrite <- (ascii_N_embedding a), <- (ascii_N_embedding c), Heq.
Qed.

(** The digits of a number hold no minus sign. *)
Lemma pretty_N_go_no_dash x : forall s,
  Files.has_char "-" s = false -> Files.has_char "-" (pretty_N_go x s) = false.
Proof.
  induction (N.lt_wf_0 x) as [x _ IH]; intros s Hs.
  assert (x = 0 \/ 0 < x)%N as [->|Hx] by lia.
  - by rewrite pretty_N_go_0.
  - rewrite pretty_N_go_step by done. apply IH; [by apply N.div_lt|].
    cbn. rewrite Hs. unfold pretty_N_char. by repeat case_match.
Qed.

Lemma shown_no_dash now : 0 <= now -> N_of_ascii "-" ∉ shown now.
Proof.
  intros Hnow. apply units_without.
  destruct now as [|p|p]; [done| |lia].
  change (pretty (Z.pos p)) with (pretty (N.pos p)).
  unfold pretty, pretty_N. rewrite decide_False by done.
  by apply pretty_N_go_no_dash.
Qed.

(** A list splits in one way only at the last occurrence of [x]. *)
Lemma split_at_last {A} (x : A) (l1 l2 d1 d2 : list A) :
  x ∉ d1 -> x ∉ d2 -> l1 ++ x :: d1 = l2 ++ x :: d2 -> l1 = l2 /\ d1 = d2.
Proof.
  intros H1 H2. revert l2. induction l1 as [|a l1 IH]; intros [|b l2]; cbn.
  - by intros [= ->].
  - intros [= _ Hd]. exfalso. apply H1. rewrite Hd.
    apply elem_of_app. right. apply elem_of_cons. by left.
  - intros [= _ Hd]. exfalso. apply H2. rewrite <- Hd.
    apply elem_of_app. right. apply elem_of_cons. by left.
  - intros [= <- H]. destruct (IH _ H) as [Ha Hb]. by rewrite Ha, Hb.
Qed.

(** X8. [authenticate] succeeds exactly when the email is not empty and
    the password has at least 8 code units.  A success carries a session
    id made of the time alone and no error; every failure is the same
    object, with the error [Invalid credentials] and no session id,
    whichever of the two inputs was at fault. *)
Theorem authenticate_decides email password now :
  (success (authenticate email password now) = true
   <-> email <> [] /\ (8 <= length password)%nat)
  /\ (success (authenticate email password now) = true ->
        authenticate email password now
        = mkResult true (Some (units "session-" ++ shown now)) None)
  /\ (success (authenticate email password now) = false ->
        authenticate email password now
        = mkResult false None (Some (units "Invalid credentials"))).
Proof.
  unfold authenticate.
  destruct (Nat.eqb_spec (length email) 0) as [He|He];
    destruct (Nat.ltb_spec (length password) 8) as [Hp|Hp]; cbn [orb success].
  - split; [split; [done|intros [Hne _]; by destruct email]|by split].
  - split; [split; [done|intros [Hne _]; by destruct email]|by split].
  - split; [split; [done|intros [_ Hlen]; lia]|by split].
  - split; [split; [intros _; split; [intros ->; by apply He|lia]|done]|by split].
Qed.

(** X9. As long as the clock does not show a time before 1970, two calls
    of [createSession] return the same session id only for the same user
    id at the same millisecond. *)
Theorem createSession_injective userId1 userId2 now1 now2 :
  0 <= now1 -> 0 <= now2 ->
  createSession userId1 now1 = createSession userId2 now2 ->
  userId1 = userId2 /\ now1 = now2.
Proof.
  intros H1 H2. unfold createSession. intros H.
  apply app_inv_head in H.
  change (units "-") with [N_of_ascii "-"] in H.
  rewrite <- !(app_assoc _ [_]) in H || idtac.
  cbn [app] in H.
  apply split_at_last in H as [Hu Hn]; [|by apply shown_no_dash..].
  split; [done|]. apply units_inj in Hn. by apply (inj pretty).
Qed.

End AuthHandlerFacts.

Lemma createSession_injective_witness :
  0 <= 1771632000000
  /\ AuthHandler.createSession (AuthHandler.units "id-1") 1771632000000
     = AuthHandler.units "session-id-1-1771632000000"
  /\ (AuthHandler.units "id-1" = AuthHandler.units "id-1"
      /\ 1771632000000 = 1771632000000).
Proof.
  assert (H0 : 0 <= 1771632000000) by lia.
  split; [exact H0|]. split; [vm_compute; reflexivity|].
  exact (createSession_injective (AuthHandler.units "id-1") (AuthHandler.units "id-1")
           1771632000000 1771632000000 H0 H0 eq_refl).
Defined.

(** ** The notebook: reset and Part 1 *)

Section CellFacts.
Import Files Notebook Cells.
Implicit Types (f g : FS) (p q : string).

Lemma reset_workspace_lookup diagnostic f q :
  (reset_workspace diagnostic f).2 !! q
  = if String.eqb q "package.json" && negb (is_dir f "package.json")
    then Some (File package_json_heredoc)
    else if reset_removes f q then None else f !! q.
Proof.
  set (f1 := (rm_rf_slash "src" f).2).
  set (f2 := (rm_rf_slash "docs-generated" f1).2).
  set (f3 := removed "tsconfig.json" f2).
  set (f4 := removed "delivery-process.config.ts" f3).
  assert (H1 : forall k, f1 !! k = if negb (is_file f "src") && within "src" k
                                   then None else f !! k).
  { intros k. unfold f1, rm_rf_slash. destruct (is_file f "src"); [done|].
    cbn [snd negb andb]. apply lookup_removed. }
  assert (Hdg : is_file f1 "docs-generated" = is_file f "docs-generated").
  { unfold is_file. rewrite H1.
    change (within "src" "docs-generated") with false. by rewrite andb_false_r. }
  assert (H2 : forall k, f2 !! k
                         = if negb (is_file f "docs-generated") && within "docs-generated" k
                           then None else f1 !! k).
  { intros k. unfold f2, rm_rf_slash. rewrite Hdg.
    destruct (is_file f "docs-generated"); [done|].
    cbn [snd negb andb]. apply lookup_removed. }
  assert (H4 : forall k, f4 !! k = if reset_removes f k then None else f !! k).
  { intros k. unfold f4, f3, reset_removes. rewrite !lookup_removed, H2, H1.
    destruct (within "delivery-process.config.ts" k), (within "tsconfig.json" k),
      (negb (is_file f "docs-generated") && within "docs-generated" k),
      (negb (is_file f "src") && within "src" k); done. }
  assert (Hpkg : f4 !! "package.json" = f !! "package.json").
  { rewrite H4. unfold reset_removes.
    change (within "src" "package.json") with false.
    change (within "docs-generated" "package.json") with false.
    change (within "tsconfig.json" "package.json") with false.
    change (within "delivery-process.config.ts" "package.json") with false.
    by rewrite !andb_false_r. }
  assert (Hdir : is_dir f4 "package.json" = is_dir f "package.json").
  { unfold is_dir. by rewrite Hpkg. }
  unfold reset_workspace. cbn [rm_rf snd]. fold f1 f2 f3 f4.
  unfold open_out. change (is_dir f4 (parent "package.json")) with true.
  rewrite Hdir. cbn [andb].
  destruct (is_dir f "package.json") eqn:E; cbn [negb snd].
  - rewrite andb_false_r. apply H4.
  - unfold store, is_file. rewrite lookup_insert_eq, insert_insert_eq.
    destruct (String.eqb_spec q "package.json") as [->|Hne]; cbn [andb].
    + apply lookup_insert_eq.
    + rewrite lookup_insert_ne by done. apply H4.
Qed.

Lemma reset_workspace_says diagnostic f :
  (reset_workspace diagnostic f).1
  = ((if is_dir f "package.json" then diagnostic else EmptyString)
     +:+ "Workspace reset. Ready for tutorial." +:+ String nl EmptyString, 0).
Proof.
  pose proof (reset_workspace_lookup diagnostic f "package.json") as Hl.
  revert Hl. unfold reset_workspace. cbn [rm_rf snd].
  set (f4 := removed "delivery-process.config.ts" _).
  unfold open_out. change (is_dir f4 (parent "package.json")) with true.
  cbn [andb].
  assert (Hpkg : f4 !! "package.json" = f !! "package.json").
  { unfold f4. rewrite !lookup_removed.
    change (within "delivery-process.config.ts" "package.json") with false.
    change (within "tsconfig.json" "package.json") with false.
    cbn iota. rewrite !rm_rf_slash_outside; done. }
  assert (Hdir : is_dir f4 "package.json" = is_dir f "package.json").
  { unfold is_dir. by rewrite Hpkg. }
  rewrite Hdir. by destruct (is_dir f "package.json").
Qed.

(** X10. Running [reset-workspace] a second time changes nothing and
    prints what the first run printed, on every file system. *)
Theorem reset_workspace_idempotent diagnostic f :
  reset_workspace diagnostic (reset_workspace diagnostic f).2
  = reset_workspace diagnostic f.
Proof.
  set (f' := (reset_workspace diagnostic f).2).
  assert (Hsrc : is_file f' "src" = is_file f "src").
  { unfold is_file, f'. rewrite reset_workspace_lookup.
    change (String.eqb "src" "package.json") with false. cbn [andb].
    unfold reset_removes. rewrite within_refl.
    destruct (is_file f "src") eqn:E; cbn [negb andb orb]; [|done].
    change (within "docs-generated" "src") with false.
    change (within "tsconfig.json" "src") with false.
    change (within "delivery-process.config.ts" "src") with false.
    rewrite andb_false_r. cbn [orb]. fold (is_file f "src"). by rewrite E. }
  assert (Hdg : is_file f' "docs-generated" = is_file f "docs-generated").
  { unfold is_file, f'. rewrite reset_workspace_lookup.
    change (String.eqb "docs-generated" "package.json") with false. cbn [andb].
    unfold reset_removes. rewrite within_refl.
    change (within "src" "docs-generated") with false. rewrite andb_false_r.
    destruct (is_file f "docs-generated") eqn:E; cbn [negb andb orb]; [|done].
    change (within "tsconfig.json" "docs-generated") with false.
    change (within "delivery-process.config.ts" "docs-generated") with false.
    cbn [orb]. fold (is_file f "docs-generated"). by rewrite E. }
  assert (Hpkg : is_dir f' "package.json" = is_dir f "package.json").
  { unfold is_dir at 1. unfold f'. rewrite reset_workspace_lookup.
    rewrite String.eqb_refl. cbn [andb].
    destruct (is_dir f "package.json") eqn:E; cbn [negb]; [|done].
    unfold reset_removes.
    change (within "src" "package.json") with false.
    change (within "docs-generated" "package.json") with false.
    change (within "tsconfig.json" "package.json") with false.
    change (within "delivery-process.config.ts" "package.json") with false.
    rewrite !andb_false_r. cbn [orb]. exact E. }
  assert (Hrem : forall q, reset_removes f' q = reset_removes f q).
  { intros q. unfold reset_removes. by rewrite Hsrc, Hdg. }
  apply injective_projections.
  - by rewrite !reset_workspace_says, Hpkg.
  - apply map_eq. intros q. rewrite reset_workspace_lookup, Hpkg, Hrem.
    unfold f'. rewrite !reset_workspace_lookup.
    destruct (String.eqb q "package.json" && negb (is_dir f "package.json")); [done|].
    by destruct (reset_removes f q).
Qed.

(** X11. On ordinary project directories the state after
    [reset-workspace] depends on nothing the tutorial writes: two
    directories that agree outside [src], [docs-generated],
    [tsconfig.json], [delivery-process.config.ts] and [package.json] are
    the same directory after the reset, and the cell prints the same. *)
Theorem reset_workspace_known_state diagnostic f g :
  ordinary f -> ordinary g ->
  (forall q, existsb (fun t => within t q) reset_targets = false ->
             q <> "package.json" -> f !! q = g !! q) ->
  reset_workspace diagnostic f = reset_workspace diagnostic g.
Proof.
  intros (Hf1 & Hf2 & Hf3) (Hg1 & Hg2 & Hg3) Hsame.
  apply injective_projections.
  - by rewrite !reset_workspace_says, Hf3, Hg3.
  - apply map_eq. intros q. rewrite !reset_workspace_lookup, Hf3, Hg3.
    destruct (String.eqb_spec q "package.json") as [->|Hne]; [done|].
    cbn [andb]. unfold reset_removes. rewrite Hf1, Hf2, Hg1, Hg2. cbn [negb andb].
    destruct (within "src" q || within "docs-generated" q
              || within "tsconfig.json" q || within "delivery-process.config.ts" q)
      eqn:E; [done|].
    apply Hsame; [|done]. cbn [existsb reset_targets].
    rewrite orb_false_r. by rewrite !orb_assoc.
Qed.

End CellFacts.

Section PartOne.
Import Files Notebook Cells.
Implicit Types (f g : FS) (p q : string) (ps : list string).

(** [mkdir -p] succeeds when no regular file is in the way, and makes
    directories of the paths it was given and of nothing else. *)
Lemma mkdirs_clear ps : forall f,
  (forall p, p ∈ ps -> is_file f p = false) ->
  (mkdirs ps f).1 = 0
  /\ forall q, (mkdirs ps f).2 !! q
               = if bool_decide (q ∈ ps) && negb (String.eqb q EmptyString)
                 then Some Dir else f !! q.
Proof.
  induction ps as [|p ps IH]; intros f Hps.
  - split; [done|]. intros q. cbn [mkdirs snd].
    rewrite bool_decide_eq_false_2; [done|]. apply not_elem_of_nil.
  - assert (Hrest : forall p', p' ∈ ps -> is_file f p' = false).
    { intros p' Hp'. apply Hps, elem_of_cons. by right. }
    cbn [mkdirs]. destruct p as [|a p].
    + destruct (IH f Hrest) as [Hst Hl]. split; [exact Hst|].
      intros q. rewrite Hl.
      destruct (String.eqb_spec q EmptyString) as [->|Hne];
        [by rewrite !andb_false_r|].
      rewrite !andb_true_r.
      destruct (decide (q ∈ ps)) as [Hin|Hin].
      * rewrite !bool_decide_eq_true_2; [done| |done]. apply elem_of_cons. by right.
      * rewrite !bool_decide_eq_false_2; [done| |done].
        intros [->|H]%elem_of_cons; done.
    + rewrite (Hps (String a p)) by (apply elem_of_cons; by left).
      destruct (IH (<[String a p := Dir]> f)) as [Hst Hl].
      { intros p' Hp'. specialize (Hrest p' Hp'). unfold is_file in *.
        destruct (decide (String a p = p')) as [<-|Hne].
        - by rewrite lookup_insert_eq.
        - by rewrite lookup_insert_ne. }
      split; [exact Hst|]. intros q. rewrite Hl.
      destruct (String.eqb_spec q EmptyString) as [->|Hq].
      { rewrite !andb_false_r. by rewrite lookup_insert_ne. }
      rewrite !andb_true_r.
      destruct (decide (q ∈ ps)) as [Hin|Hin].
      * rewrite !bool_decide_eq_true_2; [done| |done]. apply elem_of_cons. by right.
      * rewrite (bool_decide_eq_false_2 (q ∈ ps)) by done.
        destruct (decide (String a p = q)) as [<-|Hne].
        -- rewrite lookup_insert_eq. rewrite bool_decide_eq_true_2; [done|].
           apply elem_of_cons. by left.
        -- rewrite lookup_insert_ne by done.
           rewrite bool_decide_eq_false_2; [done|].
           intros [->|H]%elem_of_cons; done.
Qed.

Lemma mkdir_p_all_clear ps : forall f,
  (forall p a, p ∈ ps -> a ∈ ancestors p -> is_file f a = false) ->
  (mkdir_p_all ps f).1 = 0
  /\ forall q, (mkdir_p_all ps f).2 !! q
               = if existsb (fun p => bool_decide (q ∈ ancestors p)) ps
                    && negb (String.eqb q EmptyString)
                 then Some Dir else f !! q.
Proof.
  induction ps as [|p ps IH]; intros f Hps; [done|].
  cbn [mkdir_p_all existsb]. unfold mkdir_p.
  destruct (mkdirs_clear (ancestors p) f) as [Hst Hl].
  { intros a Ha. apply (Hps p a); [|done]. apply elem_of_cons. by left. }
  destruct (mkdirs (ancestors p) f) as [st f1]. cbn [fst snd] in Hst, Hl. subst st.
  cbv beta iota.
  destruct (IH f1) as [Hst' Hl'].
  { intros p' a Hp' Ha. unfold is_file. rewrite Hl.
    destruct (_ && _); [done|]. apply (Hps p' a); [|done].
    apply elem_of_cons. by right. }
  destruct (mkdir_p_all ps f1) as [st' f2]. cbn [fst snd] in Hst', Hl'.
  cbv beta iota. cbn [fst snd Z.eqb].
  split; [done|]. intros q. rewrite Hl', Hl.
  destruct (String.eqb q EmptyString); [by rewrite !andb_false_r|].
  rewrite !andb_true_r.
  by destruct (existsb _ ps), (bool_decide (q ∈ ancestors p)).
Qed.

(** X12. Part 1 of the tutorial, on a project whose [src] is not a
    regular file: right after [reset-workspace] the four file-system
    checks of [checkpoint-1] print FAIL; [create-tsconfig] and
    [create-folders] then succeed, the latter listing the three folders,
    and all four checks print PASS. *)
Theorem part_1_reaches_its_checkpoint d1 d2 e f :
  is_file f "src" = false ->
  let f0 := (reset_workspace d1 f).2 in
  let f1 := (create_tsconfig d2 f0).2 in
  let f2 := (create_folders e f1).2 in
  checkpoint_1_checks f0
  = [ "src/sample-sources exists: FAIL"; "src/specs exists: FAIL";
      "src/stubs exists: FAIL"; "tsconfig.json: FAIL" ]
  /\ create_tsconfig d2 f0
     = ("Created tsconfig.json" +:+ String nl EmptyString, 0,
        <["tsconfig.json" := File tsconfig_heredoc]> f0)
  /\ (create_folders e f1).1
     = ("Created:" +:+ String nl (unlines folders), 0)
  /\ checkpoint_1_checks f2
     = [ "src/sample-sources exists: PASS"; "src/specs exists: PASS";
         "src/stubs exists: PASS"; "tsconfig.json: PASS" ].
Proof.
  intros Hsrc f0.
  assert (Hgone : forall q, within "src" q || within "tsconfig.json" q = true ->
                            String.eqb q "package.json" = false -> f0 !! q = None).
  { intros q Hq Hne. unfold f0. rewrite reset_workspace_lookup, Hne. cbn [andb].
    unfold reset_removes. rewrite Hsrc. cbn [negb andb].
    apply orb_true_iff in Hq as [-> | ->]; [done|].
    by rewrite !orb_true_r. }
  assert (H0 : f0 !! "src" = None) by by apply Hgone.
  assert (H1 : f0 !! "src/sample-sources" = None) by by apply Hgone.
  assert (H2 : f0 !! "src/specs" = None) by by apply Hgone.
  assert (H3 : f0 !! "src/stubs" = None) by by apply Hgone.
  assert (H4 : f0 !! "tsconfig.json" = None) by by apply Hgone.
  clearbody f0. clear Hgone.
  assert (Hts : create_tsconfig d2 f0
                = ("Created tsconfig.json" +:+ String nl EmptyString, 0,
                   <["tsconfig.json" := File tsconfig_heredoc]> f0)).
  { unfold create_tsconfig, open_out.
    change (is_dir f0 (parent "tsconfig.json")) with true.
    unfold is_dir. rewrite H4. cbn [andb negb].
    unfold store, is_file. by rewrite lookup_insert_eq, insert_insert_eq. }
  intros f1 f2. subst f1 f2. rewrite Hts. cbn [snd].
  set (f1 := <["tsconfig.json" := File tsconfig_heredoc]> f0).
  set (f2 := (create_folders e f1).2).
  destruct (mkdir_p_all_clear folders f1) as [Hst Hl].
  { intros p a Hp Ha. unfold is_file, f1.
    assert (Hcases : a = "src" \/ a = "src/sample-sources" \/ a = "src/specs"
                     \/ a = "src/stubs").
    { unfold folders in Hp.
      repeat (apply elem_of_cons in Hp as [->|Hp]);
        [| | |by apply elem_of_nil in Hp];
        vm_compute in Ha;
        repeat (apply elem_of_cons in Ha as [->|Ha]); try tauto;
        by apply elem_of_nil in Ha. }
    destruct Hcases as [-> | [-> | [-> | ->]]];
      rewrite lookup_insert_ne by done; by rewrite ?H0, ?H1, ?H2, ?H3. }
  assert (Hf2 : f2 = (mkdir_p_all folders f1).2).
  { unfold f2, create_folders. by destruct (ls_d _ _ _). }
  assert (D1 : f2 !! "src/sample-sources" = Some Dir) by (rewrite Hf2, Hl; reflexivity).
  assert (D2 : f2 !! "src/specs" = Some Dir) by (rewrite Hf2, Hl; reflexivity).
  assert (D3 : f2 !! "src/stubs" = Some Dir) by (rewrite Hf2, Hl; reflexivity).
  assert (D4 : f2 !! "tsconfig.json" = Some (File tsconfig_heredoc)).
  { rewrite Hf2, Hl.
    change (existsb _ folders && _) with false. cbn iota.
    apply lookup_insert_eq. }
  split; [|split; [done|split]].
  - unfold checkpoint_1_checks, folders, is_dir, is_file. cbn [map app].
    by rewrite H1, H2, H3, H4.
  - unfold create_folders, ls_d. fold f2. rewrite <- Hf2.
    unfold folders at 1 2. cbn [List.filter forallb]. unfold exists_at.
    rewrite D1, D2, D3.
    rewrite !bool_decide_eq_true_2 by eauto. cbn [andb fst].
    reflexivity.
  - unfold checkpoint_1_checks, folders, is_dir, is_file. cbn [map app].
    by rewrite D1, D2, D3, D4.
Qed.

End PartOne.

Lemma reset_workspace_known_state_witness :
  Cells.ordinary Samples.project
  /\ Cells.ordinary
       (<["src/sample-sources/user-service.ts" := Files.File "export {}"]> Samples.project)
  /\ Notebook.reset_workspace "" Samples.project
     = Notebook.reset_workspace ""
         (<["src/sample-sources/user-service.ts" := Files.File "export {}"]>
            Samples.project).
Proof.
  assert (H1 : Cells.ordinary Samples.project) by (by vm_compute).
  assert (H2 : Cells.ordinary
                 (<["src/sample-sources/user-service.ts" := Files.File "export {}"]>
                    Samples.project)) by (by vm_compute).
  split; [exact H1|]. split; [exact H2|].
  apply (reset_workspace_known_state "" _ _ H1 H2).
  intros q Hq _.
  rewrite lookup_insert_ne; [done|]. intros <-. by vm_compute in Hq.
Defined.

Lemma part_1_reaches_its_checkpoint_witness :
  Files.is_file Samples.project "src" = false
  /\ Cells.checkpoint_1_checks
       (Cells.create_folders 2
          (Cells.create_tsconfig "" (Notebook.reset_workspace "" Samples.project).2).2).2
     = [ "src/sample-sources exists: PASS"; "src/specs exists: PASS";
         "src/stubs exists: PASS"; "tsconfig.json: PASS" ].
Proof.
  assert (H : Files.is_file Samples.project "src" = false) by (vm_compute; reflexivity).
  split; [exact H|].
  exact (proj2 (proj2 (proj2
    (part_1_reaches_its_checkpoint "" "" 2%positive Samples.project H)))).
Defined.

(** ** vhs/record-all.sh *)

Section RecordingFacts.
Import Files Pipeline Recording.
Context {Ext : Type}.
Variable studio : Studio Ext.
Implicit Types (w : World Ext) (m : Machine Ext) (ts : list string).

Lemma last_two {A} (l : list A) a b : last (l ++ [a; b]) = Some b.
Proof.
  change (l ++ [a; b]) with (l ++ [a] ++ [b]). rewrite app_assoc. apply last_snoc.
Qed.

(** The loop tries every tape and counts those [vhs] failed on. *)
Lemma record_tapes_counts ts : forall failed w,
  exists printed,
    record_tapes studio ts failed w
    = (Done (failed + failures (runs studio ts (machine w)).1)%nat,
       mkWorld (runs studio ts (machine w)).2 (console w ++ printed) (journal w)).
Proof.
  induction ts as [|tape ts IH]; intros failed w.
  - exists []. cbn. rewrite Nat.add_0_r, app_nil_r. by destruct w.
  - cbn [record_tapes runs]. unfold bind at 1.
    unfold record_tape, seq, bind, echo, if_else, vhs_tail, ret.
    cbn [machine console journal].
    destruct (vhs studio tape (machine w)) as [[out st] m1].
    destruct (runs studio ts m1) as [sts m2] eqn:Eruns. cbn [fst snd].
    destruct (Z.eqb_spec st 0) as [->|Hst]; cbn [machine console journal].
    + edestruct (IH failed) as [printed ->]. cbn [machine console journal].
      rewrite Eruns. cbn [fst snd]. eexists. unfold failures. cbn [List.filter Z.eqb negb].
      f_equal. f_equal. rewrite <- !app_assoc. reflexivity.
    + edestruct (IH (S failed)) as [printed ->]. cbn [machine console journal].
      rewrite Eruns. cbn [fst snd]. eexists. unfold failures. cbn [List.filter].
      destruct (Z.eqb_spec st 0); [done|]. cbn [negb length].
      f_equal; [f_equal; lia|]. f_equal. rewrite <- !app_assoc. reflexivity.
Qed.

(** The script in one equation. *)
Lemma record_all_unfold w :
  let ran := runs studio (tapes (files w)) (machine w) in
  exists printed,
    let said := console w ++ printed ++ ["═══ Complete ═══"; ""] in
    record_all studio w
    = match gifs (fs ran.2) with
      | [] => (Exit (Z.pos (ls_error studio)), mkWorld ran.2 said (journal w))
      | found =>
          if bool_decide (0 < failures ran.1)%nat
          then (Exit 1,
                mkWorld ran.2
                  (said ++ ls_lh studio found ran.2
                        ++ [""; "⚠ " +:+ pretty (failures ran.1) +:+ " tape(s) failed"])
                  (journal w))
          else (Done tt,
                mkWorld ran.2
                  (said ++ ls_lh studio found ran.2
                        ++ [""; "✓ All recordings generated in vhs/output/"])
                  (journal w))
      end.
Proof.
  intros ran. unfold record_all.
  unfold seq at 1 2. unfold bind at 1 2 3. unfold echo at 1 2.
  cbn [machine console journal files].
  set (w1 := mkWorld (machine w) ((console w ++ [_]) ++ [_]) (journal w)).
  destruct (record_tapes_counts (tapes (fs (machine w))) 0%nat w1) as [printed Hrun].
  change (files w1) with (fs (machine w)).
  rewrite Hrun. change (machine w1) with (machine w).
  change (files w) with (fs (machine w)) in ran. fold ran.
  cbn [Nat.add console journal w1].
  exists (["═══ Recording all tutorial parts ═══"; ""] ++ printed).
  cbn zeta.
  unfold seq, bind, echo, run, ls_gifs, files. cbn [machine console journal].
  destruct (gifs (fs ran.2)) as [|g gs].
  - cbn [Z.eqb]. f_equal. f_equal. rewrite <- !app_assoc. reflexivity.
  - cbn [Z.eqb machine console journal]. unfold report.
    destruct (bool_decide (0 < failures ran.1)%nat).
    + unfold seq, bind, echo, exit_with. cbn [machine console journal].
      f_equal. f_equal. rewrite <- !app_assoc. reflexivity.
    + unfold echo. cbn [machine console journal].
      f_equal. f_equal. rewrite <- !app_assoc. reflexivity.
Qed.

(** X13. When a recording is in [vhs/output] after the loop, the script
    has started [vhs] on every tape in turn, also after a failure; it ends
    with status 0 and the line [All recordings generated] when [vhs]
    succeeded on every tape, and otherwise with status 1 and a line that
    gives the number of tapes [vhs] failed on. *)
Theorem record_all_reports w :
  let ran := runs studio (tapes (files w)) (machine w) in
  gifs (fs ran.2) <> [] ->
  exists w',
    record_all studio w
    = (if bool_decide (Forall (fun st => st = 0) ran.1) then Done tt else Exit 1, w')
    /\ machine w' = ran.2
    /\ length ran.1 = length (tapes (files w))
    /\ last (console w')
       = Some (if bool_decide (Forall (fun st => st = 0) ran.1)
               then "✓ All recordings generated in vhs/output/"
               else "⚠ " +:+ pretty (failures ran.1) +:+ " tape(s) failed").
Proof.
  intros ran Hgifs.
  destruct (record_all_unfold w) as [printed Hrun]. fold ran in Hrun. cbn zeta in Hrun.
  assert (Hlen : forall ts m, length (runs studio ts m).1 = length ts).
  { induction ts as [|t ts IH]; intros m; [done|]. cbn [runs].
    destruct (vhs studio t m) as [[out st] m1]. specialize (IH m1).
    destruct (runs studio ts m1) as [sts m2]. cbn [fst length] in *. by rewrite IH. }
  assert (Hcount : forall sts, bool_decide (0 < failures sts)%nat
                               = negb (bool_decide (Forall (fun st => st = 0) sts))).
  { unfold failures. induction sts as [|st sts IH]; [done|]. cbn [List.filter].
    destruct (Z.eqb_spec st 0) as [->|Hst]; cbn [negb].
    - rewrite IH. f_equal. apply bool_decide_ext. split.
      + by constructor.
      + by inversion 1.
    - cbn [length]. rewrite bool_decide_eq_true_2 by lia.
      rewrite bool_decide_eq_false_2; [done|]. by inversion 1. }
  rewrite Hcount in Hrun.
  destruct (gifs (fs ran.2)) as [|g gs]; [done|].
  destruct (bool_decide (Forall (fun st => st = 0) ran.1)); cbn [negb] in Hrun.
  - eexists. split; [exact Hrun|]. split; [done|]. split; [apply Hlen|].
    cbn [console]. rewrite !app_assoc. apply last_two.
  - eexists. split; [exact Hrun|]. split; [done|]. split; [apply Hlen|].
    cbn [console]. rewrite !app_assoc. apply last_two.
Qed.

(** X14. When no recording is in [vhs/output] after the loop, the [ls]
    that lists the recordings fails and ends the script with its status:
    the last lines printed are [Complete] and an empty line, and the
    number of failed tapes is not reported. *)
Theorem record_all_without_recordings w :
  let ran := runs studio (tapes (files w)) (machine w) in
  gifs (fs ran.2) = [] ->
  exists w' printed,
    record_all studio w = (Exit (Z.pos (ls_error studio)), w')
    /\ Z.pos (ls_error studio) <> 0
    /\ machine w' = ran.2
    /\ console w' = console w ++ printed ++ ["═══ Complete ═══"; ""].
Proof.
  intros ran Hgifs.
  destruct (record_all_unfold w) as [printed Hrun]. fold ran in Hrun. cbn zeta in Hrun.
  rewrite Hgifs in Hrun. eexists _, printed. split; [exact Hrun|]. done.
Qed.

(** X15. When the directory holds no tape, the loop still runs once, on
    the pattern itself: [vhs] is started on [vhs/part-*.tape] under the
    name [part-*], and when it fails on it and an earlier recording is
    there, the script reports one failed tape and ends with status 1. *)
Theorem record_all_without_tapes w out st m :
  found_tapes (files w) = [] ->
  vhs studio tape_pattern (machine w) = (out, st, m) ->
  st <> 0 ->
  gifs (fs m) <> [] ->
  exists w',
    record_all studio w = (Exit 1, w')
    /\ machine w' = m
    /\ "▸ Recording: part-*" ∈ console w'
    /\ last (console w') = Some "⚠ 1 tape(s) failed".
Proof.
  intros Hnone Hvhs Hst Hgifs.
  unfold record_all.
  unfold seq at 1 2. unfold bind at 1 2 3. unfold echo at 1 2.
  cbn [machine console journal]. unfold tapes.
  change (files (mkWorld (machine w) ?c ?j)) with (files w). rewrite Hnone.
  cbn [record_tapes].
  unfold record_tape, seq, bind, echo, if_else, vhs_tail, ret.
  cbn [machine console journal]. rewrite Hvhs.
  destruct (Z.eqb_spec st 0) as [|_]; [done|].
  cbn [machine console journal]. unfold run, ls_gifs, files. cbn [machine].
  destruct (gifs (fs m)) as [|g gs]; [done|].
  cbn [Z.eqb machine console journal]. unfold report.
  rewrite bool_decide_eq_true_2 by lia.
  unfold seq, bind, echo, exit_with. cbn [machine console journal].
  eexists. split; [reflexivity|]. split; [done|]. cbn [console]. split.
  - change (tape_name tape_pattern) with "part-*".
    change ("▸ Recording: " +:+ "part-*") with "▸ Recording: part-*".
    set_solver.
  - rewrite last_snoc. reflexivity.
Qed.

End RecordingFacts.

Lemma record_all_reports_witness :
  Recording.gifs
    (Pipeline.fs
       (Recording.runs (Scenes.studio ["vhs/part-01-project.tape"])
          (Recording.tapes Scenes.studio_project)
          (Pipeline.mkMachine Scenes.studio_project tt)).2) <> []
  /\ exists w',
       Recording.record_all (Scenes.studio ["vhs/part-01-project.tape"])
         (Samples.start Scenes.studio_project)
       = (Pipeline.Exit 1, w')
       /\ last (Pipeline.console w') = Some "⚠ 1 tape(s) failed".
Proof.
  assert (Hg : Recording.gifs
    (Pipeline.fs
       (Recording.runs (Scenes.studio ["vhs/part-01-project.tape"])
          (Recording.tapes (Pipeline.files (Samples.start Scenes.studio_project)))
          (Pipeline.machine (Samples.start Scenes.studio_project))).2) <> [])
    by (vm_compute; discriminate).
  split; [exact Hg|].
  destruct (record_all_reports (Scenes.studio ["vhs/part-01-project.tape"])
              (Samples.start Scenes.studio_project) Hg) as (w' & Hrun & _ & _ & Hlast).
  exists w'. split; [exact Hrun|exact Hlast].
Defined.

Lemma record_all_without_recordings_witness :
  Recording.gifs
    (Pipeline.fs
       (Recording.runs
          (Scenes.studio ["vhs/part-00-setup.tape"; "vhs/part-01-project.tape"])
          (Recording.tapes Scenes.studio_project)
          (Pipeline.mkMachine Scenes.studio_project tt)).2) = []
  /\ (Recording.record_all
        (Scenes.studio ["vhs/part-00-setup.tape"; "vhs/part-01-project.tape"])
        (Samples.start Scenes.studio_project)).1
     = Pipeline.Exit 2.
Proof.
  assert (Hg : Recording.gifs
    (Pipeline.fs
       (Recording.runs
          (Scenes.studio ["vhs/part-00-setup.tape"; "vhs/part-01-project.tape"])
          (Recording.tapes (Pipeline.files (Samples.start Scenes.studio_project)))
          (Pipeline.machine (Samples.start Scenes.studio_project))).2) = [])
    by (vm_compute; reflexivity).
  split; [exact Hg|].
  destruct (record_all_without_recordings
              (Scenes.studio ["vhs/part-00-setup.tape"; "vhs/part-01-project.tape"])
              (Samples.start Scenes.studio_project) Hg) as (w' & printed & Hrun & _).
  by rewrite Hrun.
Defined.

Lemma record_all_without_tapes_witness :
  Recording.found_tapes Scenes.studio_without_tapes = []
  /\ exists w',
       Recording.record_all (Scenes.studio []) (Samples.start Scenes.studio_without_tapes)
       = (Pipeline.Exit 1, w')
       /\ last (Pipeline.console w') = Some "⚠ 1 tape(s) failed".
Proof.
  assert (H0 : Recording.found_tapes
                 (Pipeline.files (Samples.start Scenes.studio_without_tapes)) = [])
    by (vm_compute; reflexivity).
  split; [exact H0|].
  destruct (record_all_without_tapes (Scenes.studio [])
              (Samples.start Scenes.studio_without_tapes)
              ("could not play vhs/part-*.tape" +:+ String Files.nl EmptyString) 1
              (Pipeline.mkMachine Scenes.studio_without_tapes tt) H0)
    as (w' & Hrun & _ & _ & Hlast).
  - vm_compute. reflexivity.
  - done.
  - vm_compute. discriminate.
  - exists w'. split; [exact Hrun|exact Hlast].
Defined.

(** ** The pipeline: what a snapshot and the prologue leave behind *)

Section PipelineMore.
Import Files Pipeline.
Context {Ext : Type}.
Variable host : Host Ext.
Implicit Types (w : World Ext) (m : Machine Ext) (f : FS) (p q d : string).

(** X16. A snapshot, finished or not, changes nothing outside its own
    directory: every regular file there keeps its content, none appears or
    disappears, directories stay, and apart from the directories on the way
    to the snapshot no path changes at all; nothing is written to standard
    output, and the journal gains the one entry of the snapshot. *)
Theorem snapshot_files_keeps_project label w :
  let w' := (snapshot_files label w).2 in
  same_files (outside (snapshot_dir label)) (files w) (files w')
  /\ unchanged_at (apart (snapshot_dir label)) (files w) (files w')
  /\ ext (machine w') = ext (machine w)
  /\ console w' = console w
  /\ journal w' = journal w ++ [TookSnapshot label].
Proof.
  intros w'. subst w'. rewrite snapshot_files_unfold.
  destruct (snapshot_commands_outside label (note (TookSnapshot label) w))
    as (Hsame & He & Hc & Hj).
  destruct (snapshot_commands_apart label (note (TookSnapshot label) w))
    as (Hapart & _).
  done.
Qed.

(** X17. When [scripts] is not a regular file, the prologue succeeds and
    leaves of the output directory of an earlier run nothing but the empty
    directories [scripts/outputs] and [scripts/outputs/snapshots]; every
    path outside is as before.  When [scripts] is a regular file, the
    script ends there with status 1. *)
Theorem prologue_clears_outputs w :
  if is_file (files w) "scripts"
  then (prologue host w).1 = Exit 1
  else exists w',
         prologue host w = (Done tt, w')
         /\ (forall q, within OUT q = true ->
               files w' !! q
               = if bool_decide (q = OUT \/ q = OUT +:+ "/snapshots")
                 then Some Dir else None)
         /\ is_dir (files w') "scripts" = true
         /\ (forall q, within OUT q = false -> q <> "scripts" ->
               files w' !! q = files w !! q)
         /\ journal w' = journal w.
Proof.
  unfold prologue, seq, bind, run, on_files, rm_rf, echo.
  cbn [fst snd Z.eqb machine console journal].
  change (files (set_files ?f w)) with f.
  assert (Hs : removed OUT (files w) !! "scripts" = files w !! "scripts").
  { rewrite lookup_removed. by change (within OUT "scripts") with false. }
  unfold mkdir_p.
  change (ancestors (OUT +:+ "/snapshots"))
    with ["scripts"; OUT; OUT +:+ "/snapshots"].
  destruct (is_file (files w) "scripts") eqn:E.
  - cbn [mkdirs]. unfold is_file at 1. rewrite Hs. fold (is_file (files w) "scripts").
    by rewrite E.
  - destruct (mkdirs_clear ["scripts"; OUT; OUT +:+ "/snapshots"]
                (removed OUT (files w))) as [Hst Hl].
    { intros p Hp. unfold is_file. rewrite lookup_removed.
      repeat (apply elem_of_cons in Hp as [->|Hp]);
        [|done|done|by apply elem_of_nil in Hp].
      change (within OUT "scripts") with false. cbn iota.
      exact E. }
    destruct (mkdirs _ _) as [st f1]. cbn [fst snd] in Hst, Hl. subst st.
    cbn [Z.eqb machine console journal]. eexists. split; [reflexivity|].
    cbn [files machine fs journal].
    split; [|split; [|split; [|done]]].
    + intros q Hq. rewrite Hl, lookup_removed, Hq.
      destruct (String.eqb_spec q EmptyString) as [->|Hne]; [done|].
      rewrite andb_true_r.
      destruct (decide (q = OUT \/ q = OUT +:+ "/snapshots")) as [Hin|Hout].
      * rewrite !bool_decide_eq_true_2; [done|done|].
        destruct Hin as [-> | ->]; apply list_elem_of_In; cbn; tauto.
      * rewrite !bool_decide_eq_false_2; [done|done|].
        intros Hin. apply Hout.
        repeat (apply elem_of_cons in Hin as [->|Hin]); [done|tauto|tauto|].
        by apply elem_of_nil in Hin.
    + unfold is_dir. by rewrite Hl.
    + intros q Hq Hne. rewrite Hl, lookup_removed, Hq.
      rewrite bool_decide_eq_false_2; [done|].
      intros Hin.
      repeat (apply elem_of_cons in Hin as [->|Hin]); [done|done|done|].
      by apply elem_of_nil in Hin.
Qed.

Lemma has_char_append c a b :
  has_char c (a +:+ b) = has_char c a || has_char c b.
Proof.
  induction a as [|x a IH]; [done|].
  rewrite append_cons. cbn. by rewrite IH, orb_assoc.
Qed.

(** X18. When none of the values the tools report holds a line break,
    [environment.txt] reads back as exactly five lines, [date], [node],
    [npm], [os] and [package], each [key: value]. *)
Theorem environment_file_has_five_lines w f1 :
  open_out environment_path (files w) = Some f1 ->
  let m := mkMachine f1 (ext (machine w)) in
  Forall (fun kv => one_line kv.2) (environment_record host m) ->
  exists text,
    files (capture_environment host w).2 !! environment_path = Some (File text)
    /\ lines text
       = [ "date: " +:+ substitution (date_utc host m).1;
           "node: " +:+ substitution (node_version host m).1;
           "npm: " +:+ substitution (npm_version host m).1;
           "os: " +:+ substitution (uname_s host m).1 +:+ " "
                  +:+ substitution (uname_r host m).1;
           "package: " +:+ package_version host m ].
Proof.
  intros Hopen m Hone.
  rewrite (capture_environment_effect host w f1 Hopen). cbn [snd].
  change (files (note RecordedEnv (set_files ?f w))) with f.
  eexists. split; [apply lookup_insert_eq|].
  fold m. cbn [environment_text fst]. rewrite lines_unlines; [done|].
  unfold environment_record in *. cbn [map fst snd].
  apply Forall_cons in Hone as [H1 Hone]. apply Forall_cons in Hone as [H2 Hone].
  apply Forall_cons in Hone as [H3 Hone]. apply Forall_cons in Hone as [H4 Hone].
  apply Forall_cons in Hone as [H5 _].
  unfold one_line in *. cbn [snd] in *.
  rewrite !has_char_append in H4.
  apply orb_false_iff in H4 as [H4 H6]. apply orb_false_iff in H6 as [_ H6].
  repeat (apply Forall_cons; split); [..|apply Forall_nil_2];
    rewrite !has_char_append; by rewrite ?H1, ?H2, ?H3, ?H4, ?H5, ?H6.
Qed.

End PipelineMore.

Section SnapshotCopies.
Import Files Pipeline.
Context {Ext : Type}.
Implicit Types (w : World Ext) (f : FS) (p q d k : string).

Lemma length_append a b :
  String.length (a +:+ b) = (String.length a + String.length b)%nat.
Proof. induction a as [|x a IH]; [done|]. rewrite append_cons. cbn. by rewrite IH. Qed.

Lemma append_assoc a b c : (a +:+ b) +:+ c = a +:+ b +:+ c.
Proof. induction a as [|x a IH]; [done|]. rewrite !append_cons. by rewrite IH. Qed.

(** The directories on the way to a path are not longer than the path. *)
Lemma ancestors_go_length rest : forall seen a,
  a ∈ ancestors_go seen rest ->
  (String.length a <= String.length seen + String.length rest)%nat.
Proof.
  induction rest as [|c rest IH]; intros seen a; cbn.
  - intros ->%list_elem_of_singleton. lia.
  - assert (Hdeep : a ∈ ancestors_go (seen +:+ String c EmptyString) rest ->
                    (String.length a <= String.length seen + S (String.length rest))%nat).
    { intros H%IH. rewrite length_append in H. cbn in H. lia. }
    destruct (Ascii.eqb c slash); [|exact Hdeep].
    intros [->|H]%elem_of_cons; [lia|by apply Hdeep].
Qed.

Lemma below_not_on_the_way d x : d +:+ String slash x ∉ ancestors d.
Proof.
  intros H%ancestors_go_length. rewrite length_append in H. cbn in H. lia.
Qed.

Lemma rebase_Some src dst k k' :
  rebase src dst k = Some k' -> exists r, k = src +:+ r /\ k' = dst +:+ r.
Proof.
  unfold rebase. destruct (strip_prefix src k) as [[|c r]|] eqn:E; [| |done].
  - intros [= <-]. exists EmptyString. split; [by apply strip_prefix_Some|].
    by rewrite append_empty_r.
  - destruct (Ascii.eqb c slash); [|done]. intros [= <-].
    exists (String c r). split; [by apply strip_prefix_Some|done].
Qed.

Lemma rebase_below src dst r :
  rebase src dst (src +:+ String slash r) = Some (dst +:+ String slash r).
Proof. unfold rebase. by rewrite strip_prefix_app, Ascii.eqb_refl. Qed.

(** What [cp -r] copies arrives with its content. *)
Lemma copy_tree_copies src dst f k k' v :
  rebase src dst k = Some k' -> f !! k = Some v ->
  copy_tree src dst f !! k' = Some v.
Proof.
  intros Hr Hk. unfold copy_tree. apply lookup_union_Some_l.
  apply elem_of_list_to_map_1'.
  - intros y ([k2 v2] & Hin & Heq)%list_elem_of_omap. cbn in Heq.
    destruct (rebase src dst k2) as [k3|] eqn:E2; [|done].
    cbn in Heq. injection Heq as -> ->.
    apply elem_of_map_to_list in Hin.
    apply rebase_Some in Hr as (r & -> & ->).
    apply rebase_Some in E2 as (r2 & -> & Heq).
    apply (inj (String.app dst)) in Heq. subst r2. congruence.
  - apply list_elem_of_omap. exists (k, v).
    split; [by apply elem_of_map_to_list|]. cbn. by rewrite Hr.
Qed.

Lemma cp_file_done p d f c :
  (cp_file p d f).1 = 0 -> f !! p = Some (File c) ->
  (cp_file p d f).2 = <[d +:+ "/" +:+ basename p := File c]> f.
Proof.
  unfold cp_file. intros Hst Hp. rewrite Hp in Hst |- *.
  by destruct (_ && _).
Qed.

Lemma cp_file_elsewhere p d f q :
  q <> d +:+ "/" +:+ basename p -> (cp_file p d f).2 !! q = f !! q.
Proof.
  intros Hq. unfold cp_file. destruct (f !! p) as [[c|]|]; try done.
  destruct (_ && _); [|done]. cbn [snd]. by rewrite lookup_insert_ne.
Qed.

Lemma run_on_files_Done (g : FS -> Z * FS) w w' :
  run (on_files g) w = (Done tt, w') ->
  (g (files w)).1 = 0 /\ files w' = (g (files w)).2.
Proof.
  unfold run, on_files. destruct (g (files w)) as [st f'].
  destruct (Z.eqb_spec st 0) as [->|]; [|done]. by intros [= <-].
Qed.

Lemma if_then_dir_Done p (g : FS -> Z * FS) w w' :
  if_then (test_d p) (run (on_files g)) w = (Done tt, w') ->
  if is_dir (files w) p
  then (g (files w)).1 = 0 /\ files w' = (g (files w)).2
  else files w' = files w.
Proof.
  unfold if_then, test_d. destruct (is_dir (files w) p); cbn [Z.eqb].
  - apply run_on_files_Done.
  - by intros [= <-].
Qed.

Lemma and_then_file_Done p (g : FS -> Z * FS) w w' :
  and_then (test_f p) (on_files g) w = (Done tt, w') ->
  if is_file (files w) p
  then (g (files w)).1 = 0 /\ files w' = (g (files w)).2
  else files w' = files w.
Proof.
  unfold and_then, test_f. destruct (is_file (files w) p); cbn [Z.eqb].
  - apply run_on_files_Done.
  - by intros [= <-].
Qed.

Lemma outside_snapshot label q :
  strip_prefix "scripts/" q = None -> outside (snapshot_dir label) q = true.
Proof.
  intros Hq. unfold outside, within, snapshot_dir, OUT.
  change ("scripts/outputs" +:+ "/snapshots/" +:+ label)
    with ("scripts/" +:+ "outputs/snapshots/" +:+ label).
  by rewrite strip_prefix_append, Hq.
Qed.

Lemma cp_r_docs_elsewhere label x f :
  strip_prefix "/docs-generated" x = None ->
  (cp_r "docs-generated" (snapshot_dir label +:+ "/docs-generated") f).2
    !! (snapshot_dir label +:+ x)
  = f !! (snapshot_dir label +:+ x).
Proof.
  intros Hx. apply cp_r_lookup. unfold within.
  rewrite strip_prefix_append, strip_prefix_app.
  change (Some x ≫= strip_prefix "/docs-generated")
    with (strip_prefix "/docs-generated" x).
  by rewrite Hx.
Qed.

(** X19. A snapshot that completes holds a copy of the manifest, of each
    of the two configuration files that is there, and, when the snapshot
    has no [src] entry yet, of every regular file below [src], each at its
    path relative to the project and with the content it had when the
    snapshot started. *)
Theorem snapshot_files_holds_copies label w w' :
  files w !! (snapshot_dir label +:+ "/src") = None ->
  snapshot_files label w = (Done tt, w') ->
  (exists c, files w !! "package.json" = Some (File c)
             /\ files w' !! (snapshot_dir label +:+ "/package.json") = Some (File c))
  /\ (forall c, files w !! "delivery-process.config.ts" = Some (File c) ->
        files w' !! (snapshot_dir label +:+ "/delivery-process.config.ts")
        = Some (File c))
  /\ (forall c, files w !! "tsconfig.json" = Some (File c) ->
        files w' !! (snapshot_dir label +:+ "/tsconfig.json") = Some (File c))
  /\ (is_dir (files w) "src" = true ->
      forall r c, files w !! ("src/" +:+ r) = Some (File c) ->
        files w' !! (snapshot_dir label +:+ "/src/" +:+ r) = Some (File c)).
Proof.
  intros Hfresh Hrun. rewrite snapshot_files_unfold in Hrun.
  change (files w) with (files (note (TookSnapshot label) w)) in *.
  revert Hrun Hfresh. generalize (note (TookSnapshot label) w). clear w.
  intros w Hrun Hfresh.
  unfold snapshot_commands, snapshot_copies in Hrun.
  set (dir := snapshot_dir label) in *.
  apply seq_inv_Done in Hrun as (w6 & Hcopies & Htree).
  apply seq_inv_Done in Hcopies as (w1 & Hmk & Hcopies).
  apply seq_inv_Done in Hcopies as (w2 & Hsrc & Hcopies).
  apply seq_inv_Done in Hcopies as (w3 & Hcfg & Hcopies).
  apply seq_inv_Done in Hcopies as (w4 & Hts & Hcopies).
  apply seq_inv_Done in Hcopies as (w5 & Hpkg & Hdocs).
  apply run_on_files_Done in Hmk as [_ Hf1].
  apply if_then_dir_Done in Hsrc. apply and_then_file_Done in Hcfg.
  apply and_then_file_Done in Hts. apply run_on_files_Done in Hpkg as [Hpkg0 Hf5].
  apply if_then_dir_Done in Hdocs.
  assert (Hf' : exists body, files w' = <[tree_path label := File body]> (files w6)).
  { unfold run, redirected in Htree.
    destruct (open_out (tree_path label) (files w6)) as [f7|] eqn:Hopen; [|done].
    cbn in Htree. injection Htree as <-.
    change (files (set_files ?f w6)) with f.
    rewrite (open_out_store _ _ _ _ Hopen). eauto. }
  destruct Hf' as [body Hf'].
  (* the sources are read as they were at the start *)
  set (keep := outside dir).
  assert (S1 : same_files keep (files w) (files w1)).
  { rewrite Hf1. apply mkdir_p_files. }
  assert (S2 : same_files keep (files w1) (files w2)).
  { destruct (is_dir (files w1) "src").
    - destruct Hsrc as [_ ->]. apply same_files_lookup. intros q Hq.
      apply cp_r_lookup. apply negb_true_iff in Hq.
      destruct (within (dir +:+ "/src") q) eqn:E; [|done].
      change (dir +:+ "/src") with (dir +:+ String slash "src") in E.
      apply within_deeper in E. congruence.
    - rewrite Hsrc. apply same_files_refl. }
  assert (S3 : same_files keep (files w2) (files w3)).
  { destruct (is_file (files w2) "delivery-process.config.ts").
    - destruct Hcfg as [_ ->]. apply cp_file_files.
    - rewrite Hcfg. apply same_files_refl. }
  assert (S4 : same_files keep (files w3) (files w4)).
  { destruct (is_file (files w3) "tsconfig.json").
    - destruct Hts as [_ ->]. apply cp_file_files.
    - rewrite Hts. apply same_files_refl. }
  pose proof (same_files_trans _ _ _ _ S1 S2) as S12.
  pose proof (same_files_trans _ _ _ _ S12 S3) as S13.
  pose proof (same_files_trans _ _ _ _ S13 S4) as S14.
  assert (Hkeep : forall q, strip_prefix "scripts/" q = None -> keep q = true).
  { intros q Hq. by apply outside_snapshot. }
  (* a copy stays where the later commands find it *)
  assert (L6 : forall x, x <> "/tree.txt" ->
            files w' !! (dir +:+ x) = files w6 !! (dir +:+ x)).
  { intros x Hx. rewrite Hf'. apply lookup_insert_ne. unfold tree_path. fold dir.
    by intros Heq%(inj (String.app _)). }
  assert (L5 : forall x, strip_prefix "/docs-generated" x = None ->
            files w6 !! (dir +:+ x) = files w5 !! (dir +:+ x)).
  { intros x Hx. destruct (is_dir (files w5) "docs-generated").
    - destruct Hdocs as [_ ->]. by apply cp_r_docs_elsewhere.
    - by rewrite Hdocs. }
  assert (L4 : forall x, x <> "/package.json" ->
            files w5 !! (dir +:+ x) = files w4 !! (dir +:+ x)).
  { intros x Hx. rewrite Hf5. apply cp_file_elsewhere.
    by intros Heq%(inj (String.app _)). }
  assert (L3 : forall x, x <> "/tsconfig.json" ->
            files w4 !! (dir +:+ x) = files w3 !! (dir +:+ x)).
  { intros x Hx. destruct (is_file (files w3) "tsconfig.json").
    - destruct Hts as [_ ->]. apply cp_file_elsewhere.
      by intros Heq%(inj (String.app _)).
    - by rewrite Hts. }
  assert (L2 : forall x, x <> "/delivery-process.config.ts" ->
            files w3 !! (dir +:+ x) = files w2 !! (dir +:+ x)).
  { intros x Hx. destruct (is_file (files w2) "delivery-process.config.ts").
    - destruct Hcfg as [_ ->]. apply cp_file_elsewhere.
      by intros Heq%(inj (String.app _)).
    - by rewrite Hcfg. }
  split; [|split; [|split]].
  - destruct (files w4 !! "package.json") as [[c|]|] eqn:E;
      [|by unfold cp_file in Hpkg0; rewrite E in Hpkg0..].
    exists c. split; [by apply (S14 "package.json"); [apply Hkeep|]|].
    rewrite L6, L5 by done. rewrite Hf5, (cp_file_done _ _ _ c Hpkg0 E).
    apply lookup_insert_eq.
  - intros c Hc.
    assert (E : files w2 !! "delivery-process.config.ts" = Some (File c))
      by (by apply (S12 "delivery-process.config.ts"); [apply Hkeep|]).
    unfold is_file in Hcfg. rewrite E in Hcfg. destruct Hcfg as [Hst Hf3].
    rewrite L6, L5, L4, L3 by done. rewrite Hf3, (cp_file_done _ _ _ c Hst E).
    apply lookup_insert_eq.
  - intros c Hc.
    assert (E : files w3 !! "tsconfig.json" = Some (File c))
      by (by apply (S13 "tsconfig.json"); [apply Hkeep|]).
    unfold is_file in Hts. rewrite E in Hts. destruct Hts as [Hst Hf4].
    rewrite L6, L5, L4 by done. rewrite Hf4, (cp_file_done _ _ _ c Hst E).
    apply lookup_insert_eq.
  - intros Hdir r c Hc.
    assert (Hdir1 : is_dir (files w1) "src" = true)
      by (by apply (S1 "src"); [apply Hkeep|]).
    rewrite Hdir1 in Hsrc. destruct Hsrc as [Hst Hf2].
    assert (E : files w1 !! ("src" +:+ String slash r) = Some (File c))
      by (by apply (S1 ("src/" +:+ r)); [apply Hkeep|]).
    assert (Hnew : files w1 !! (dir +:+ "/src") = None).
    { rewrite Hf1. unfold mkdir_p. rewrite mkdirs_lookup; [done|].
      apply (below_not_on_the_way dir "src"). }
    rewrite L6, L5, L4, L3, L2 by done.
    change (dir +:+ "/src/" +:+ r) with (dir +:+ "/src" +:+ String slash r).
    rewrite <- append_assoc.
    rewrite Hf2. revert Hst. unfold cp_r. rewrite Hdir1, Hnew. cbn [negb].
    destruct (is_dir (files w1) (parent (dir +:+ "/src"))); [|done].
    intros _. cbn [snd].
    apply (copy_tree_copies "src" (dir +:+ "/src") _ ("src" +:+ String slash r));
      [apply rebase_below|exact E].
Qed.

End SnapshotCopies.
Lemma environment_file_has_five_lines_witness :
  Files.open_out Pipeline.environment_path Samples.project
  = Some (<[Pipeline.environment_path := Files.File ""]> Samples.project)
  /\ Forall (fun kv => Files.one_line kv.2)
       (Pipeline.environment_record Samples.tutorial
          (Pipeline.mkMachine
             (<[Pipeline.environment_path := Files.File ""]> Samples.project) tt))
  /\ exists text,
       Pipeline.files (Pipeline.capture_environment Samples.tutorial
                         (Samples.start Samples.project)).2
       !! Pipeline.environment_path = Some (Files.File text)
       /\ length (Files.lines text) = 5%nat.
Proof.
  assert (H1 : Files.open_out Pipeline.environment_path
                 (Pipeline.files (Samples.start Samples.project))
    = Some (<[Pipeline.environment_path := Files.File ""]> Samples.project))
    by (apply open_out_fresh; vm_compute; reflexivity).
  assert (H2 : Forall (fun kv => Files.one_line kv.2)
       (Pipeline.environment_record Samples.tutorial
          (Pipeline.mkMachine
             (<[Pipeline.environment_path := Files.File ""]> Samples.project)
             (Pipeline.ext (Pipeline.machine (Samples.start Samples.project))))))
    by (repeat (apply Forall_cons; split; [vm_compute; reflexivity|]);
        apply Forall_nil_2).
  split; [exact H1|]. split; [exact H2|].
  destruct (environment_file_has_five_lines Samples.tutorial
              (Samples.start Samples.project) _ H1 H2) as (text & Hfile & Hlines).
  exists text. split; [exact Hfile|]. rewrite Hlines. reflexivity.
Defined.

Lemma snapshot_files_holds_copies_witness :
  Pipeline.files (Samples.start Samples.project)
    !! (Pipeline.snapshot_dir "00-setup" +:+ "/src") = None
  /\ (Pipeline.snapshot_files "00-setup" (Samples.start Samples.project)).1
     = Pipeline.Done tt
  /\ Pipeline.files
       (Pipeline.snapshot_files "00-setup" (Samples.start Samples.project)).2
     !! "scripts/outputs/snapshots/00-setup/src/old.ts"
     = Some (Files.File "export {}").
Proof.
  assert (H1 : Pipeline.files (Samples.start Samples.project)
                 !! (Pipeline.snapshot_dir "00-setup" +:+ "/src") = None)
    by (vm_compute; reflexivity).
  assert (H2 : Pipeline.snapshot_files "00-setup" (Samples.start Samples.project)
               = (Pipeline.Done tt,
                  (Pipeline.snapshot_files "00-setup"
                     (Samples.start Samples.project)).2))
    by (apply outcome_Done; vm_compute; reflexivity).
  assert (H3 : Files.is_dir (Pipeline.files (Samples.start Samples.project)) "src" = true)
    by (vm_compute; reflexivity).
  split; [exact H1|]. split; [vm_compute; reflexivity|].
  apply (proj2 (proj2 (proj2
    (snapshot_files_holds_copies "00-setup" (Samples.start Samples.project) _ H1 H2)))
    H3 "old.ts" "export {}").
  vm_compute. reflexivity.
Defined.

(** ** The pipeline: snapshots stay as they were taken *)

Section WithinFacts.
Import Files.
Implicit Types (a b c p q r : string).

Lemma within_iff a b :
  within a b = true
  <-> exists r, b = a +:+ r /\ (r = EmptyString \/ exists r', r = String slash r').
Proof.
  unfold within. split.
  - destruct (strip_prefix a b) as [[|x r]|] eqn:E; [| |done].
    + intros _. exists EmptyString. split; [by apply strip_prefix_Some|by left].
    + intros ->%Ascii.eqb_eq. exists (String slash r).
      split; [by apply strip_prefix_Some|right; eauto].
  - intros (r & -> & Hr). rewrite strip_prefix_app.
    destruct Hr as [->|[r' ->]]; [done|apply Ascii.eqb_refl].
Qed.

Lemma within_trans a b c :
  within a b = true -> within b c = true -> within a c = true.
Proof.
  rewrite !within_iff. intros (r1 & -> & H1) (r2 & -> & H2).
  exists (r1 +:+ r2). split; [apply append_assoc|].
  destruct H1 as [->|[r' ->]]; [done|]. right. by exists (r' +:+ r2).
Qed.

(** Two texts that start the same text: one starts the other. *)
Lemma append_eq_append a : forall b ra rb,
  a +:+ ra = b +:+ rb ->
  exists t, (a = b +:+ t /\ rb = t +:+ ra) \/ (b = a +:+ t /\ ra = t +:+ rb).
Proof.
  induction a as [|x a IH]; intros b ra rb H.
  - exists b. right. by rewrite append_empty_l in *.
  - destruct b as [|y b].
    + exists (String x a). left. by rewrite append_empty_l in *.
    + rewrite !append_cons in H. injection H as -> H.
      destruct (IH _ _ _ H) as [t [[-> ->]|[-> ->]]]; exists t; [left|right]; done.
Qed.

(** Two directories that hold the same path: one holds the other. *)
Lemma within_comparable a b q :
  within a q = true -> within b q = true ->
  within a b = true \/ within b a = true.
Proof.
  rewrite !within_iff. intros (ra & -> & Ha) (rb & Heq & Hb).
  destruct (append_eq_append _ _ _ _ Heq) as [t [[-> ->]|[-> ->]]].
  - right. exists t. split; [done|].
    destruct t as [|x t]; [by left|]. right.
    destruct Hb as [Hb|[r' Hb]]; [done|]. rewrite append_cons in Hb.
    injection Hb as -> _. eauto.
  - left. exists t. split; [done|].
    destruct t as [|x t]; [by left|]. right.
    destruct Ha as [Ha|[r' Ha]]; [done|]. rewrite append_cons in Ha.
    injection Ha as -> _. eauto.
Qed.

Lemma ancestors_go_within rest : forall seen a,
  a ∈ ancestors_go seen rest ->
  exists r, seen +:+ rest = a +:+ r
            /\ (r = EmptyString \/ exists r', r = String slash r').
Proof.
  induction rest as [|c rest IH]; intros seen a; cbn.
  - intros ->%list_elem_of_singleton. exists EmptyString. by split; [|left].
  - assert (Hdeep : a ∈ ancestors_go (seen +:+ String c EmptyString) rest ->
              exists r, seen +:+ String c rest = a +:+ r
                        /\ (r = EmptyString \/ exists r', r = String slash r')).
    { intros (r & Hr & Hs)%IH. exists r. split; [|done].
      by rewrite <- Hr, append_assoc. }
    destruct (Ascii.eqb_spec c slash) as [->|Hc]; [|exact Hdeep].
    intros [->|H]%elem_of_cons; [|by apply Hdeep].
    exists (String slash rest). split; [done|]. right. eauto.
Qed.

(** A path lies within each of the directories on the way to it. *)
Lemma ancestors_within a p : a ∈ ancestors p -> within a p = true.
Proof.
  intros H%ancestors_go_within. rewrite append_empty_l in H. by apply within_iff.
Qed.

End WithinFacts.

Section KeptSnapshots.
Import Files Pipeline.
Context {Ext : Type}.
Variable host : Host Ext.
Hypothesis host_respects_outputs : respects_outputs host.
Implicit Types (w : World Ext) (l : Line) (ls : list Line) (q label : string).

Lemma exec_app ls1 ls2 : forall w,
  exec host (ls1 ++ ls2) w
  = match exec host ls1 w with
    | (Done _, w1) => exec host ls2 w1
    | (Exit code, w1) => (Exit code, w1)
    end.
Proof.
  induction ls1 as [|l ls1 IH]; intros w; [done|].
  cbn [app exec]. rewrite !seq_unfold.
  destruct (exec_line host l w) as [[[]|code] w1]; [apply IH|done].
Qed.

(** The step runner writes in the output directory to the capture file
    only. *)
Lemma run_and_capture_elsewhere cell w q :
  within OUT q = true -> q <> capture_path cell ->
  files (run_and_capture host cell w).2 !! q = files w !! q.
Proof.
  intros Hq Hne.
  destruct (open_out (capture_path cell) (files w)) as [f1|] eqn:Hopen.
  - destruct (runme host cell NOTEBOOK (mkMachine f1 (ext (machine w))))
      as [[out st] m] eqn:Hrun.
    assert (Hm : fs m !! q = files w !! q).
    { pose proof (host_respects_outputs cell NOTEBOOK
                    (mkMachine f1 (ext (machine w))) q Hq) as H.
      rewrite Hrun in H. cbn [fs snd] in H. rewrite H.
      rewrite (open_out_lookup _ _ _ Hopen). by rewrite lookup_insert_ne. }
    rewrite (proj1 (run_and_capture_effect host cell w _ _ _ _ Hopen Hrun)).
    unfold through. destruct (leaves_capture _ _ _ _); [|exact Hm].
    by rewrite lookup_insert_ne.
  - by rewrite (proj1 (run_and_capture_unopened host cell w Hopen)).
Qed.

Lemma capture_environment_elsewhere w q :
  q <> environment_path ->
  files (capture_environment host w).2 !! q = files w !! q.
Proof.
  intros Hne. destruct (open_out environment_path (files w)) as [f1|] eqn:Hopen.
  - rewrite (capture_environment_effect host w f1 Hopen). cbn [snd].
    change (files (note RecordedEnv (set_files ?f w))) with f.
    by rewrite lookup_insert_ne.
  - unfold capture_environment, seq, bind, entered, run, redirected.
    cbn [fst snd]. change (files (note RecordedEnv w)) with (files w).
    by rewrite Hopen.
Qed.

(** A snapshot leaves the directory of another snapshot alone. *)
Lemma snapshot_files_elsewhere label label' w q :
  within (snapshot_dir label) (snapshot_dir label') = false ->
  within (snapshot_dir label') (snapshot_dir label) = false ->
  within (snapshot_dir label) q = true ->
  files (snapshot_files label' w).2 !! q = files w !! q.
Proof.
  intros H1 H2 Hq. rewrite snapshot_files_unfold.
  destruct (snapshot_commands_apart label' (note (TookSnapshot label') w))
    as (Hsame & _).
  apply Hsame. unfold apart, outside. apply andb_true_iff. split.
  - apply negb_true_iff. destruct (within (snapshot_dir label') q) eqn:E; [|done].
    destruct (within_comparable _ _ _ Hq E); congruence.
  - apply negb_true_iff, bool_decide_eq_false. intros Hin%ancestors_within.
    pose proof (within_trans _ _ _ Hq Hin). congruence.
Qed.

Lemma exec_keeps_snapshot label ls : forall w q,
  (forall c, c ∈ cells ls -> within (snapshot_dir label) (capture_path c) = false) ->
  (forall label', label' ∈ labels ls ->
     within (snapshot_dir label) (snapshot_dir label') = false
     /\ within (snapshot_dir label') (snapshot_dir label) = false) ->
  within (snapshot_dir label) q = true ->
  files (exec host ls w).2 !! q = files w !! q.
Proof.
  induction ls as [|l ls IH]; intros w q Hcells Hlabels Hq; [done|].
  assert (Hout : within OUT q = true).
  { apply (within_deeper OUT ("snapshots/" +:+ label)). exact Hq. }
  assert (Hl : files (exec_line host l w).2 !! q = files w !! q).
  { destruct l as [text|c| |label']; cbn [exec_line].
    - done.
    - apply run_and_capture_elsewhere; [done|]. intros ->.
      rewrite Hcells in Hq; [done|]. cbn. by left.
    - apply capture_environment_elsewhere. intros ->. by vm_compute in Hq.
    - destruct (Hlabels label') as [H1 H2]; [cbn; by left|].
      by apply (snapshot_files_elsewhere label label'). }
  cbn [exec]. rewrite seq_unfold.
  destruct (exec_line host l w) as [[[]|code] w1]; cbn [snd] in *; [|exact Hl].
  rewrite IH; [exact Hl| | |done].
  - intros c Hc. apply Hcells. destruct l; cbn; try done. by right.
  - intros label' Hl'. apply Hlabels. destruct l; cbn; try done. by right.
Qed.

Lemma script_labels_distinct : NoDup (labels script).
Proof. apply (bool_decide_unpack _). by vm_compute. Qed.

Lemma script_labels_separate label label' :
  label ∈ labels script -> label' ∈ labels script -> label <> label' ->
  within (snapshot_dir label) (snapshot_dir label') = false.
Proof.
  assert (H : forallb (fun a => forallb (fun b =>
                 String.eqb a b || negb (within (snapshot_dir a) (snapshot_dir b)))
               (labels script)) (labels script) = true) by by vm_compute.
  rewrite forallb_forall in H.
  intros Ha%list_elem_of_In Hb%list_elem_of_In Hne.
  specialize (H _ Ha). rewrite forallb_forall in H. specialize (H _ Hb).
  apply orb_true_iff in H as [H%String.eqb_eq|H]; [done|].
  by apply negb_true_iff in H.
Qed.

(** X20. A snapshot that has been taken is not touched again: when no
    cell touches the output directory, whatever the rest of the run does,
    and wherever it ends, every path in the snapshot's directory is at the
    end of the run as the snapshot left it. *)
Theorem snapshots_are_kept (m : Machine Ext) before label after w0 w1 :
  script = before ++ Snapshot label :: after ->
  prologue host (boot m) = (Done tt, w0) ->
  exec host before w0 = (Done tt, w1) ->
  forall q, within (snapshot_dir label) q = true ->
    files (main host (boot m)).2 !! q = files (snapshot_files label w1).2 !! q.
Proof.
  intros Hs Hp Hb q Hq.
  assert (Hlabs : labels script = labels before ++ label :: labels after).
  { rewrite Hs. unfold labels. by rewrite omap_app. }
  assert (Hcs : cells script = cells before ++ cells after).
  { rewrite Hs. unfold cells. by rewrite omap_app. }
  assert (Hin : label ∈ labels script).
  { rewrite Hlabs. apply elem_of_app. right. apply elem_of_cons. by left. }
  assert (Hafter : files (exec host after (snapshot_files label w1).2).2 !! q
                   = files (snapshot_files label w1).2 !! q).
  { apply (exec_keeps_snapshot label); [| |done].
    - intros c Hc.
      assert (Hc' : c ∈ cells script).
      { rewrite Hcs. apply elem_of_app. by right. }
      destruct (name_ok _ _ script_well_named c Hc') as (_ & _ & Hapart).
      by apply apart_outside, Hapart.
    - intros label' Hl'.
      assert (Hin' : label' ∈ labels script).
      { rewrite Hlabs. apply elem_of_app. right. apply elem_of_cons. by right. }
      assert (Hne : label <> label').
      { intros <-. pose proof script_labels_distinct as Hnd.
        rewrite Hlabs in Hnd. apply NoDup_app in Hnd as (_ & _ & Hnd).
        by apply NoDup_cons in Hnd as [Hnot _]. }
      split; apply script_labels_separate; done. }
  rewrite main_unfold, Hp.
  replace (exec host script w0)
    with (exec host (before ++ Snapshot label :: after) w0) by by rewrite <- Hs.
  rewrite exec_app, Hb. cbn [exec exec_line]. rewrite seq_unfold.
  destruct (snapshot_files label w1) as [[[]|code] w2]; cbn [snd] in *; [|done].
  destruct (exec host after w2) as [[[]|code] w3]; cbn [snd] in *; [|done].
  by rewrite summary_files.
Qed.

End KeptSnapshots.

Section SkippedCell.
Import Files Pipeline.
Context {Ext : Type}.
Variable host : Host Ext.

(** X21. When the output directory is not there, or a directory stands
    where the capture file goes, the step runner prints its line and goes
    on, but the cell is not started: the machine is left as it was and
    the journal records that nothing ran. *)
Theorem run_and_capture_skips_the_cell cell (w : World Ext) :
  is_dir (files w) (parent (capture_path cell)) = false
  \/ is_dir (files w) (capture_path cell) = true ->
  run_and_capture host cell w
  = (Done tt,
     mkWorld (machine w) (console w ++ ["▸ Running: " +:+ cell])
             (journal w ++ [RanCell cell None])).
Proof.
  intros H.
  assert (Hopen : open_out (capture_path cell) (files w) = None).
  { unfold open_out. destruct H as [-> | ->]; [done|by rewrite andb_false_r]. }
  unfold run_and_capture, seq, bind, echo, or_true, runme_captured, files.
  cbn [fst snd machine]. change (fs (machine w)) with (files w).
  by rewrite Hopen.
Qed.

End SkippedCell.

Lemma run_and_capture_skips_the_cell_witness :
  (Files.is_dir (Files.removed Pipeline.OUT Samples.project)
     (Files.parent (Pipeline.capture_path "verify-deps")) = false
   \/ Files.is_dir (Files.removed Pipeline.OUT Samples.project)
        (Pipeline.capture_path "verify-deps") = true)
  /\ Pipeline.journal
       (Pipeline.run_and_capture Samples.tutorial "verify-deps"
          (Samples.start (Files.removed Pipeline.OUT Samples.project))).2
     = [Pipeline.RanCell "verify-deps" None].
Proof.
  assert (H : Files.is_dir
                (Pipeline.files (Samples.start (Files.removed Pipeline.OUT Samples.project)))
                (Files.parent (Pipeline.capture_path "verify-deps")) = false
              \/ Files.is_dir
                   (Pipeline.files
                      (Samples.start (Files.removed Pipeline.OUT Samples.project)))
                   (Pipeline.capture_path "verify-deps") = true)
    by (left; vm_compute; reflexivity).
  split; [exact H|].
  by rewrite (run_and_capture_skips_the_cell Samples.tutorial "verify-deps" _ H).
Defined.

Lemma snapshots_are_kept_witness :
  Pipeline.respects_outputs Samples.tutorial
  /\ Pipeline.script
     = firstn 4 Pipeline.script ++ Pipeline.Snapshot "00-setup" :: skipn 5 Pipeline.script
  /\ Files.within (Pipeline.snapshot_dir "00-setup") (Pipeline.tree_path "00-setup") = true
  /\ Pipeline.files
       (Pipeline.main Samples.tutorial
          (Pipeline.boot (Pipeline.mkMachine Samples.project tt))).2
     !! Pipeline.tree_path "00-setup"
     = Pipeline.files
         (Pipeline.snapshot_files "00-setup"
            (Pipeline.exec Samples.tutorial (firstn 4 Pipeline.script)
               (Pipeline.prologue Samples.tutorial
                  (Pipeline.boot (Pipeline.mkMachine Samples.project tt))).2).2).2
       !! Pipeline.tree_path "00-setup".
Proof.
  assert (Hs : Pipeline.script
               = firstn 4 Pipeline.script
                 ++ Pipeline.Snapshot "00-setup" :: skipn 5 Pipeline.script)
    by reflexivity.
  assert (Hq : Files.within (Pipeline.snapshot_dir "00-setup")
                 (Pipeline.tree_path "00-setup") = true)
    by (vm_compute; reflexivity).
  split; [exact tutorial_respects_outputs|]. split; [exact Hs|]. split; [exact Hq|].
  apply (snapshots_are_kept Samples.tutorial tutorial_respects_outputs
           (Pipeline.mkMachine Samples.project tt)
           (firstn 4 Pipeline.script) "00-setup" (skipn 5 Pipeline.script)
           (Pipeline.prologue Samples.tutorial
              (Pipeline.boot (Pipeline.mkMachine Samples.project tt))).2
           (Pipeline.exec Samples.tutorial (firstn 4 Pipeline.script)
              (Pipeline.prologue Samples.tutorial
                 (Pipeline.boot (Pipeline.mkMachine Samples.project tt))).2).2
           Hs);
    [apply outcome_Done; vm_compute; reflexivity
    |apply outcome_Done; vm_compute; reflexivity
    |exact Hq].
Defined.

(** ** The pipeline: what the capture files hold at the end of a run *)

Section CapturedOutputs.
Import Files Pipeline.
Context {Ext : Type}.
Variable host : Host Ext.
Hypothesis host_respects_outputs : respects_outputs host.
Hypothesis host_keeps_captures : keeps_captures host.
Implicit Types (w : World Ext) (l : Line) (ls : list Line) (c cell : string).

Lemma prologue_files w :
  files (prologue host w).2
  = (mkdir_p (OUT +:+ "/snapshots") (removed OUT (files w))).2.
Proof.
  unfold prologue, seq, bind, run, on_files, rm_rf, echo. cbn.
  destruct (mkdir_p _ _) as [st f']. by destruct (st =? 0).
Qed.

(** The clean-up leaves no capture file, whether it succeeds or not. *)
Lemma prologue_leaves_no_capture w c :
  c ∈ cells script -> files (prologue host w).2 !! capture_path c = None.
Proof.
  intros Hc. rewrite prologue_files. unfold mkdir_p.
  rewrite mkdirs_lookup by by apply script_cells_off_the_way.
  by rewrite lookup_removed, within_capture_path.
Qed.

(** The capture file of a cell is left alone by every other line. *)
Lemma exec_keeps_capture c ls : forall w,
  c ∈ cells script -> c ∉ cells ls ->
  (forall c', c' ∈ cells ls -> c' ∈ cells script) ->
  (forall lab, lab ∈ labels ls -> lab ∈ labels script) ->
  files (exec host ls w).2 !! capture_path c = files w !! capture_path c.
Proof.
  induction ls as [|l ls IH]; intros w Hc Hnot Hcells Hlabs; [done|].
  destruct (name_ok _ _ script_well_named c Hc) as (_ & Henv & Hapart).
  assert (Hl : files (exec_line host l w).2 !! capture_path c
               = files w !! capture_path c).
  { destruct l as [text|c'| |lab]; cbn [exec_line].
    - done.
    - apply (run_and_capture_elsewhere host host_respects_outputs);
        [apply within_capture_path|].
      intros Heq.
      apply (names_distinct _ _ script_well_named) in Heq;
        [|done|apply Hcells; cbn; by left].
      subst c'. apply Hnot. cbn. by left.
    - by apply capture_environment_elsewhere.
    - rewrite snapshot_files_unfold.
      destruct (snapshot_commands_apart lab (note (TookSnapshot lab) w))
        as (Hsame & _).
      apply Hsame, Hapart, Hlabs. cbn. by left. }
  cbn [exec]. rewrite seq_unfold.
  destruct (exec_line host l w) as [[[]|code] w1]; cbn [snd] in *; [|exact Hl].
  rewrite IH; [exact Hl|done| | |].
  - intros Hin. apply Hnot. destruct l; cbn; try done. by right.
  - intros c' Hc'. apply Hcells. destruct l; cbn; try done. by right.
  - intros lab Hlab. apply Hlabs. destruct l; cbn; try done. by right.
Qed.

(** C8, as the script has it.  In a run whose cells leave the output
    directory and their own capture files alone, no two cells share a
    capture file, and for every cell of the script one of two things holds
    at the end of the run.  Either the run reached the cell: the lines
    before it ran to their end, the shell could open the capture file, and
    the file holds exactly the output [runme] returned for the cell when
    it was started then, whatever the directory held before the run.  Or
    the run stopped before the cell, with a status other than success,
    and the cell has no capture file, not even one of an earlier run. *)
Theorem outputs_captured (m : Machine Ext) cell :
  cell ∈ cells script ->
  (forall cell', cell' ∈ cells script ->
     capture_path cell' = capture_path cell -> cell' = cell)
  /\ ((exists before after w0 w1 f1,
         script = before ++ Cell cell :: after
         /\ prologue host (boot m) = (Done tt, w0)
         /\ exec host before w0 = (Done tt, w1)
         /\ open_out (capture_path cell) (files w1) = Some f1
         /\ files (main host (boot m)).2 !! capture_path cell
            = Some (File (runme host cell NOTEBOOK
                            (mkMachine f1 (ext (machine w1)))).1.1))
      \/ ((main host (boot m)).1 <> Done tt
          /\ files (main host (boot m)).2 !! capture_path cell = None)).
Proof.
  intros Hcell. split.
  { intros cell' Hcell' Heq.
    by apply (names_distinct _ _ script_well_named cell' cell). }
  assert (Hsplit : exists before after, script = before ++ Cell cell :: after).
  { unfold cells in Hcell. apply list_elem_of_omap in Hcell as (l & Hl & Hc).
    destruct l; try done. injection Hc as ->. by apply list_elem_of_split. }
  destruct Hsplit as (before & after & Hs).
  assert (Hcs : cells script = cells before ++ cell :: cells after).
  { rewrite Hs. unfold cells. by rewrite omap_app. }
  assert (Hlabs : labels script = labels before ++ labels after).
  { rewrite Hs. unfold labels. by rewrite omap_app. }
  pose proof script_cells_distinct as Hnd. rewrite Hcs in Hnd.
  apply NoDup_app in Hnd as (Hndb & Hnb & Hnd).
  apply NoDup_cons in Hnd as [Hna _].
  assert (Hnb' : cell ∉ cells before).
  { intros Hin. apply (Hnb _ Hin). apply elem_of_cons. by left. }
  assert (Hbcells : forall c', c' ∈ cells before -> c' ∈ cells script).
  { intros c' Hc'. rewrite Hcs. apply elem_of_app. by left. }
  assert (Hacells : forall c', c' ∈ cells after -> c' ∈ cells script).
  { intros c' Hc'. rewrite Hcs. apply elem_of_app. right. apply elem_of_cons. by right. }
  assert (Hblabs : forall lab, lab ∈ labels before -> lab ∈ labels script).
  { intros lab Hl. rewrite Hlabs. apply elem_of_app. by left. }
  assert (Halabs : forall lab, lab ∈ labels after -> lab ∈ labels script).
  { intros lab Hl. rewrite Hlabs. apply elem_of_app. by right. }
  pose proof (prologue_leaves_no_capture (boot m) cell Hcell) as Hnone.
  pose proof (prologue_journal host (boot m)) as Hj0.
  rewrite main_unfold.
  destruct (prologue host (boot m)) as [[[]|code0] w0] eqn:Ep; cbn [snd] in Hnone, Hj0;
    [|right; by split].
  replace (exec host script w0)
    with (exec host (before ++ Cell cell :: after) w0) by by rewrite <- Hs.
  rewrite exec_app.
  pose proof (exec_keeps_capture cell before w0 Hcell Hnb' Hbcells Hblabs) as Hkept.
  destruct (exec host before w0) as [[[]|code1] w1] eqn:Eb; cbn [snd] in Hkept;
    [|right; split; [done|]; cbn [snd]; by rewrite Hkept].
  left.
  assert (Hw1 : captured (cells script) w1).
  { apply (exec_captured host host_respects_outputs host_keeps_captures
             (cells script) (labels script) script_well_named before w0 w1);
      [exact Hndb| |exact Hblabs| |exact Eb].
    - intros c' Hc'. split; [by apply Hbcells|].
      intros r. rewrite Hj0. apply not_elem_of_nil.
    - by apply (prologue_captured host (boot m)). }
  destruct Hw1 as (Hout & Hfree & _).
  destruct (name_ok _ _ script_well_named cell Hcell) as (Hparent & _ & _).
  assert (Hopen : open_out (capture_path cell) (files w1)
                  = Some (<[capture_path cell := File EmptyString]> (files w1))).
  { unfold open_out. by rewrite Hparent, Hout, (Hfree cell Hcell). }
  exists before, after, w0, w1, (<[capture_path cell := File EmptyString]> (files w1)).
  split; [done|]. split; [done|]. split; [done|]. split; [done|].
  destruct (runme host cell NOTEBOOK
              (mkMachine (<[capture_path cell := File EmptyString]> (files w1))
                         (ext (machine w1)))) as [[out st] m1] eqn:Hrun.
  cbn [fst].
  destruct (run_and_capture_effect host cell w1 _ _ _ _ Hopen Hrun) as [Hfiles _].
  rewrite host_keeps_captures in Hfiles. unfold through in Hfiles.
  pose proof (run_and_capture_returns host cell w1) as Hret.
  pose proof (exec_keeps_capture cell after (run_and_capture host cell w1).2
                Hcell Hna Hacells Halabs) as Hrest.
  cbn [exec exec_line]. rewrite seq_unfold.
  destruct (run_and_capture host cell w1) as [[[]|code2] w2]; [|done].
  cbn [snd] in Hfiles, Hrest.
  assert (Hend : files (exec host after w2).2 !! capture_path cell = Some (File out)).
  { by rewrite Hrest, Hfiles, lookup_insert_eq. }
  destruct (exec host after w2) as [[[]|code3] w3]; cbn [snd] in *; [|exact Hend].
  by rewrite summary_files.
Qed.

End CapturedOutputs.

(** The cells of the sample notebook leave their capture files alone. *)
Lemma tutorial_keeps_captures : Pipeline.keeps_captures Samples.tutorial.
Proof.
  intros cell notebook m. apply bool_decide_eq_true.
  apply (tutorial_respects_outputs cell notebook m), within_capture_path.
Qed.

Lemma outputs_captured_witness :
  Pipeline.respects_outputs Samples.tutorial
  /\ Pipeline.keeps_captures Samples.tutorial
  /\ "verify-deps" ∈ Pipeline.cells Pipeline.script
  /\ Samples.project !! Pipeline.capture_path "verify-deps"
     = Some (Files.File "output of an earlier run")
  /\ (Pipeline.main Samples.tutorial
        (Pipeline.boot (Pipeline.mkMachine Samples.project tt))).1 = Pipeline.Done tt
  /\ Pipeline.files
       (Pipeline.main Samples.tutorial
          (Pipeline.boot (Pipeline.mkMachine Samples.project tt))).2
     !! Pipeline.capture_path "verify-deps"
     = Some (Files.File ("verify-deps: done" +:+ String Files.nl EmptyString))
  /\ exists before after w0 w1 f1,
       Pipeline.script = before ++ Pipeline.Cell "verify-deps" :: after
       /\ Pipeline.prologue Samples.tutorial
            (Pipeline.boot (Pipeline.mkMachine Samples.project tt))
          = (Pipeline.Done tt, w0)
       /\ Pipeline.exec Samples.tutorial before w0 = (Pipeline.Done tt, w1)
       /\ Files.open_out (Pipeline.capture_path "verify-deps") (Pipeline.files w1)
          = Some f1
       /\ Pipeline.files
            (Pipeline.main Samples.tutorial
               (Pipeline.boot (Pipeline.mkMachine Samples.project tt))).2
          !! Pipeline.capture_path "verify-deps"
          = Some (Files.File
                    (Pipeline.runme Samples.tutorial "verify-deps" Pipeline.NOTEBOOK
                       (Pipeline.mkMachine f1
                          (Pipeline.ext (Pipeline.machine w1)))).1.1).
Proof.
  assert (Hin : "verify-deps" ∈ Pipeline.cells Pipeline.script)
    by (apply list_elem_of_In; vm_compute; tauto).
  assert (Hdone : (Pipeline.main Samples.tutorial
        (Pipeline.boot (Pipeline.mkMachine Samples.project tt))).1 = Pipeline.Done tt)
    by (vm_compute; reflexivity).
  split; [exact tutorial_respects_outputs|].
  split; [exact tutorial_keeps_captures|].
  split; [exact Hin|].
  split; [vm_compute; reflexivity|].
  split; [exact Hdone|].
  split; [vm_compute; reflexivity|].
  destruct (proj2 (outputs_captured Samples.tutorial tutorial_respects_outputs
                     tutorial_keeps_captures (Pipeline.mkMachine Samples.project tt)
                     "verify-deps" Hin)) as [Hreached | [Hstopped _]].
  - exact Hreached.
  - destruct (Hstopped Hdone).
Defined.

(** C8, as the specification words it, fails: a run that is stopped by a
    failing command of the script leaves the cells it did not reach
    without a capture file.  Here [runme] is not installed and the project
    has no manifest, so that the first snapshot ends the run: no cell
    touches the output directory, the capture file an earlier run left
    for [verify-deps] is gone, and no new one is written. *)
Lemma outputs_as_claimed_fail :
  Pipeline.respects_outputs Samples.without_runme
  /\ Pipeline.keeps_captures Samples.without_runme
  /\ Samples.project_without_manifest !! Pipeline.capture_path "verify-deps"
     = Some (Files.File "output of an earlier run")
  /\ (Pipeline.main Samples.without_runme
        (Pipeline.boot (Pipeline.mkMachine Samples.project_without_manifest tt))).1
     = Pipeline.Exit 1
  /\ Pipeline.files
       (Pipeline.main Samples.without_runme
          (Pipeline.boot (Pipeline.mkMachine Samples.project_without_manifest tt))).2
     !! Pipeline.capture_path "verify-deps" = None
  /\ ~ Pipeline.one_file_per_cell
        (Pipeline.main Samples.without_runme
           (Pipeline.boot (Pipeline.mkMachine Samples.project_without_manifest tt))).2.
Proof.
  assert (Hnone : Pipeline.files
       (Pipeline.main Samples.without_runme
          (Pipeline.boot (Pipeline.mkMachine Samples.project_without_manifest tt))).2
     !! Pipeline.capture_path "verify-deps" = None) by (vm_compute; reflexivity).
  split; [by intros cell notebook m q Hq|].
  split; [intros cell notebook m; by apply bool_decide_eq_true|].
  split; [vm_compute; reflexivity|].
  split; [vm_compute; reflexivity|].
  split; [exact Hnone|].
  intros Hall.
  assert (Hin : "verify-deps" ∈ Pipeline.cells Pipeline.script)
    by (apply list_elem_of_In; vm_compute; tauto).
  specialize (Hall "verify-deps" Hin). unfold Files.is_file in Hall.
  rewrite Hnone in Hall. discriminate Hall.
Qed.
